(** * BizWiz 2.5: city configuration generator, configuration store and
      on-demand load orchestrator

    A shallow embedding of [city_config.py] and of the loading part of
    [dynamic_dashboard_fixed.py], followed by the properties of the
    specification that concern them.

    Conventions of the embedding:
    - Python [int] is [Z]; Python [float] is the kernel's binary64 [float];
      [str] is [string] (bytes; case conversion is the ASCII one).
    - Python values whose type is not fixed by the program (dataclass
      fields, dictionaries handed to [from_dict], YAML documents) are
      values of [pyval].
    - A [dict] is an association list in insertion order.
    - A call that may raise returns a [result]; code running against the
      file system or the process-wide state threads that state. *)

From Stdlib Require Import ZArith List String Ascii Bool Lia PrimFloat.
From Stdlib Require Import Permutation Sorted.
From Stdlib Require Import SpecFloat FloatOps.
Import ListNotations.

Set Warnings "-register-all,-inexact-float".

Open Scope string_scope.
Open Scope Z_scope.

(* ================================================================= *)
(** * Part I. Definitions *)
(* ================================================================= *)

(** ** Python values, exceptions and strings *)

Module Py.

(** The exceptions ([Exception] subclasses) the modelled code meets. *)
Inductive exn : Type :=
| KeyError (key : string)
| TypeError
| AttributeError
| ValueError (msg : string)
| ImportError (msg : string)
| OSError
| YAMLError.

Inductive result (A : Type) : Type :=
| Ok (a : A)
| Raise (e : exn).
Arguments Ok {A} a.
Arguments Raise {A} e.

Definition bind {A B} (r : result A) (k : A -> result B) : result B :=
  match r with
  | Ok a => k a
  | Raise e => Raise e
  end.

Definition is_ok {A} (r : result A) : bool :=
  match r with Ok _ => true | Raise _ => false end.

(** Plain Python data: what a dataclass field, a [dict] given to
    [from_dict] or a loaded YAML document can hold.  Dictionary keys are
    strings. *)
Inductive pyval : Type :=
| PNone
| PBool (b : bool)
| PInt (z : Z)
| PFloat (f : float)
| PStr (s : string)
| PList (l : list pyval)
| PTuple (l : list pyval)
| PDict (d : list (string * pyval)).

Definition PStrs (l : list string) : pyval := PList (map PStr l).

(** Python truth value ([bool(v)]). *)
Definition truthy (v : pyval) : bool :=
  match v with
  | PNone => false
  | PBool b => b
  | PInt z => negb (z =? 0)
  | PFloat f => negb (PrimFloat.eqb f 0%float)
  | PStr s => negb (s =? "")%string
  | PList l | PTuple l => match l with [] => false | _ => true end
  | PDict d => match d with [] => false | _ => true end
  end.

(** *** Dictionaries as association lists in insertion order *)

Section Dict.
Context {V : Type}.

Fixpoint dict_get (k : string) (d : list (string * V)) : option V :=
  match d with
  | [] => None
  | (k', v) :: d' => if (k =? k')%string then Some v else dict_get k d'
  end.

Definition dict_mem (k : string) (d : list (string * V)) : bool :=
  match dict_get k d with Some _ => true | None => false end.

(** [d[k] = v]: an existing key keeps its position. *)
Fixpoint dict_set (k : string) (v : V) (d : list (string * V))
  : list (string * V) :=
  match d with
  | [] => [(k, v)]
  | (k', v') :: d' =>
      if (k =? k')%string then (k, v) :: d' else (k', v') :: dict_set k v d'
  end.

Definition dict_keys (d : list (string * V)) : list string := map fst d.

(** [d[k]], raising [KeyError]. *)
Definition dict_item (k : string) (d : list (string * V)) : result V :=
  match dict_get k d with
  | Some v => Ok v
  | None => Raise (KeyError k)
  end.
End Dict.

(** *** [str] methods

    A [string] holds the bytes of a text; the names, state codes and ids
    of the cities table are ASCII.  Case is modelled for the ASCII
    letters: on ASCII text [lower] and [title] are Python's [str.lower]
    and [str.title]; a byte above 127 is left as it is, where Python's
    methods, which know Unicode, would change the case of a non-ASCII
    letter too. *)

Definition is_upper (c : ascii) : bool :=
  let n := N_of_ascii c in ((65 <=? n) && (n <=? 90))%N.

Definition is_lower (c : ascii) : bool :=
  let n := N_of_ascii c in ((97 <=? n) && (n <=? 122))%N.

Definition lower_char (c : ascii) : ascii :=
  if is_upper c then ascii_of_N (N_of_ascii c + 32) else c.

Definition upper_char (c : ascii) : ascii :=
  if is_lower c then ascii_of_N (N_of_ascii c - 32) else c.

(** [s.lower()], on ASCII text *)
Fixpoint lower (s : string) : string :=
  match s with
  | EmptyString => EmptyString
  | String c s' => String (lower_char c) (lower s')
  end.

(** [s.replace(old, new)] for a non-empty [old]: occurrences are taken
    left to right and do not overlap.  [skip] counts the characters of an
    occurrence already replaced that remain to be dropped. *)
Fixpoint replace_from (old new : string) (skip : nat) (s : string) : string :=
  match s with
  | EmptyString => EmptyString
  | String c s' =>
      match skip with
      | S k => replace_from old new k s'
      | O =>
          if prefix old s
          then new ++ replace_from old new (Nat.pred (String.length old)) s'
          else String c (replace_from old new 0 s')
      end
  end.

(** With an empty [old], Python puts [new] before every character and at
    the end. *)
Fixpoint intersperse (new s : string) : string :=
  match s with
  | EmptyString => new
  | String c s' => new ++ String c (intersperse new s')
  end.

Definition replace (old new s : string) : string :=
  match old with
  | EmptyString => intersperse new s
  | _ => replace_from old new 0 s
  end.

(** [s.title()], on ASCII text: a cased character that follows an
    uncased one is upper-cased, every other cased character is
    lower-cased. *)
Fixpoint title_from (prev_cased : bool) (s : string) : string :=
  match s with
  | EmptyString => EmptyString
  | String c s' =>
      let cased := is_upper c || is_lower c in
      String (if prev_cased then lower_char c else upper_char c)
             (title_from cased s')
  end.

Definition title (s : string) : string := title_from false s.

End Py.

Import Py.

Declare Scope py_scope.
Delimit Scope py_scope with py.
Notation "x <- c1 ;; c2" := (Py.bind c1 (fun x => c2))
  (at level 61, c1 at next level, right associativity) : py_scope.

(** ** [city_config.py] *)

Module CityConfig.

(** *** The dataclasses

    Dataclass fields are not type-checked by Python, and the persistence
    path changes the container type of some of them, so every field holds
    a [pyval]; the annotation is recalled in a comment. *)

Record CityBounds : Type := {
  min_lat : pyval;        (* float *)
  max_lat : pyval;        (* float *)
  min_lon : pyval;        (* float *)
  max_lon : pyval;        (* float *)
  center_lat : pyval;     (* float *)
  center_lon : pyval;     (* float *)
  grid_spacing : pyval    (* float = 0.005 *)
}.

Record CityDemographics : Type := {
  typical_population_range : pyval;  (* Tuple[int, int] *)
  typical_income_range : pyval;      (* Tuple[int, int] *)
  typical_age_range : pyval;         (* Tuple[float, float] *)
  population_density_factor : pyval  (* float = 1.0 *)
}.

Record CityMarketData : Type := {
  state_code : pyval;            (* str *)
  county_name : pyval;           (* str *)
  city_name_variations : pyval;  (* List[str] *)
  rental_api_city_name : pyval;  (* str *)
  major_universities : pyval;    (* List[str] *)
  major_employers : pyval        (* List[str] *)
}.

Record CityCompetitorData : Type := {
  primary_competitor : pyval;          (* str *)
  competitor_search_terms : pyval;     (* List[str] *)
  market_saturation_factor : pyval;    (* float *)
  fast_casual_preference_score : pyval (* float *)
}.

Record CityConfiguration : Type := {
  city_id : pyval;       (* str *)
  display_name : pyval;  (* str *)
  bounds : CityBounds;
  demographics : CityDemographics;
  market_data : CityMarketData;
  competitor_data : CityCompetitorData
}.

(** *** The generator *)

(** A row of the cities table, in the column names
    [_create_city_config_from_data] reads.  [COUNTY] may be missing. *)
Record city_row : Type := {
  CITY : string;
  STATE_CODE : string;
  POPULATION : Z;
  LATITUDE : float;
  LONGITUDE : float;
  COUNTY : option string
}.

(** The f-string that builds the city id. *)
Definition make_city_id (city_name state_code : string) : string :=
  replace "." "" (replace "-" "_" (replace " " "_" (lower city_name)))
  ++ "_" ++ lower state_code.

Definition _calculate_bounds_size (population : Z) : float :=
  if population >? 2000000 then 0.3%float
  else if population >? 1000000 then 0.2%float
  else if population >? 500000 then 0.15%float
  else if population >? 200000 then 0.1%float
  else if population >? 100000 then 0.08%float
  else 0.05%float.

Definition int_pair (a b : Z) : pyval := PTuple [PInt a; PInt b].

Definition _create_demographics_for_population (population : Z)
  : CityDemographics :=
  if population >? 1000000 then
    {| typical_population_range := int_pair 10000 50000;
       typical_income_range := int_pair 50000 120000;
       typical_age_range := int_pair 25 45;
       population_density_factor := PFloat 1.5 |}
  else if population >? 500000 then
    {| typical_population_range := int_pair 5000 25000;
       typical_income_range := int_pair 45000 100000;
       typical_age_range := int_pair 25 50;
       population_density_factor := PFloat 1.2 |}
  else if population >? 200000 then
    {| typical_population_range := int_pair 3000 15000;
       typical_income_range := int_pair 40000 80000;
       typical_age_range := int_pair 25 55;
       population_density_factor := PFloat 1.0 |}
  else
    {| typical_population_range := int_pair 2000 10000;
       typical_income_range := int_pair 35000 70000;
       typical_age_range := int_pair 25 60;
       population_density_factor := PFloat 0.8 |}.

Definition base_competitors : list string :=
  ["mcdonalds"; "kfc"; "taco-bell"; "burger-king"; "subway"; "wendys";
   "popeyes"].

Definition _create_competitor_data_for_population (population : Z)
  : CityCompetitorData :=
  if population >? 1000000 then
    {| primary_competitor := PStr "chick-fil-a";
       competitor_search_terms :=
         PStrs (base_competitors
                ++ ["chipotle"; "panera"; "five-guys"; "shake-shack"]);
       market_saturation_factor := PFloat 0.95;
       fast_casual_preference_score := PFloat 0.9 |}
  else if population >? 500000 then
    {| primary_competitor := PStr "chick-fil-a";
       competitor_search_terms :=
         PStrs (base_competitors ++ ["chipotle"; "panera"]);
       market_saturation_factor := PFloat 0.85;
       fast_casual_preference_score := PFloat 0.85 |}
  else if population >? 200000 then
    {| primary_competitor := PStr "chick-fil-a";
       competitor_search_terms := PStrs base_competitors;
       market_saturation_factor := PFloat 0.75;
       fast_casual_preference_score := PFloat 0.8 |}
  else
    {| primary_competitor := PStr "chick-fil-a";
       competitor_search_terms := PStrs (firstn 5 base_competitors);
       market_saturation_factor := PFloat 0.6;
       fast_casual_preference_score := PFloat 0.75 |}.

(** The table of [_get_state_market_data]: state code, then
    ['universities'] and ['major_employers']. *)
Definition state_table : Type := list (string * list (string * list string)).

Definition _get_state_market_data : state_table :=
  [ ("CA", [ ("universities", ["UCLA"; "USC"; "Stanford"; "UC Berkeley"]);
             ("major_employers", ["Apple"; "Google"; "Disney"; "Tesla"]) ]);
    ("TX", [ ("universities", ["UT Austin"; "Texas A&M"; "Rice University"]);
             ("major_employers",
              ["ExxonMobil"; "AT&T"; "Dell"; "Southwest Airlines"]) ]);
    ("NY", [ ("universities", ["Columbia"; "NYU"; "Cornell"]);
             ("major_employers",
              ["JPMorgan Chase"; "Citigroup"; "IBM"; "Verizon"]) ]);
    ("FL", [ ("universities",
              ["University of Florida"; "Florida State"; "Miami"]);
             ("major_employers",
              ["Disney"; "Publix"; "FedEx"; "NextEra Energy"]) ]);
    ("ND", [ ("universities",
              ["University of North Dakota";
               "North Dakota State University"]);
             ("major_employers",
              ["Sanford Health"; "Altru Health System"; "US Air Force"]) ]) ].

(** [d.get(k, default)] *)
Definition get_default {V} (k : string) (default : V)
  (d : list (string * V)) : V :=
  match dict_get k d with Some v => v | None => default end.

(** No statement of the body raises on a row of this type; the function
    contains no check of the population or of the coordinates. *)
Definition _create_city_config_from_data (city_row : city_row)
  (state_market_data : state_table) : result CityConfiguration :=
  let city_name := CITY city_row in
  let state_code := STATE_CODE city_row in
  let population := POPULATION city_row in
  let lat := LATITUDE city_row in
  let lon := LONGITUDE city_row in
  let county :=
    match COUNTY city_row with
    | Some c => c
    | None => city_name ++ " County"
    end in
  let city_id := make_city_id city_name state_code in
  let bounds_size := _calculate_bounds_size population in
  let bounds :=
    {| min_lat := PFloat (lat - bounds_size);
       max_lat := PFloat (lat + bounds_size);
       min_lon := PFloat (lon - bounds_size);
       max_lon := PFloat (lon + bounds_size);
       center_lat := PFloat lat;
       center_lon := PFloat lon;
       grid_spacing :=
         PFloat (if population >? 500000 then 0.005 else 0.008) |} in
  let demographics := _create_demographics_for_population population in
  let state_info := get_default state_code [] state_market_data in
  let market_data :=
    {| state_code := PStr state_code;
       county_name := PStr county;
       city_name_variations :=
         PStrs [city_name;
                city_name ++ " " ++ state_code;
                city_name ++ ", " ++ state_code];
       rental_api_city_name := PStr city_name;
       major_universities := PStrs (get_default "universities" [] state_info);
       major_employers :=
         PStrs (get_default "major_employers" [] state_info) |} in
  let competitor_data := _create_competitor_data_for_population population in
  Ok {| city_id := PStr city_id;
        display_name := PStr (city_name ++ ", " ++ state_code);
        bounds := bounds;
        demographics := demographics;
        market_data := market_data;
        competitor_data := competitor_data |}.

(** *** [to_dict] and [from_dict] *)

(** [dataclasses._asdict_inner] on a field value: lists, tuples and
    dictionaries are rebuilt element by element with their own type, any
    other value is deep-copied. *)
Fixpoint _asdict_inner (v : pyval) : pyval :=
  match v with
  | PList l => PList (map _asdict_inner l)
  | PTuple l => PTuple (map _asdict_inner l)
  | PDict d => PDict (map (fun kv => (fst kv, _asdict_inner (snd kv))) d)
  | _ => v
  end.

Definition asdict_CityBounds (b : CityBounds) : pyval :=
  PDict [ ("min_lat", _asdict_inner (min_lat b));
          ("max_lat", _asdict_inner (max_lat b));
          ("min_lon", _asdict_inner (min_lon b));
          ("max_lon", _asdict_inner (max_lon b));
          ("center_lat", _asdict_inner (center_lat b));
          ("center_lon", _asdict_inner (center_lon b));
          ("grid_spacing", _asdict_inner (grid_spacing b)) ].

Definition asdict_CityDemographics (d : CityDemographics) : pyval :=
  PDict [ ("typical_population_range",
           _asdict_inner (typical_population_range d));
          ("typical_income_range", _asdict_inner (typical_income_range d));
          ("typical_age_range", _asdict_inner (typical_age_range d));
          ("population_density_factor",
           _asdict_inner (population_density_factor d)) ].

Definition asdict_CityMarketData (m : CityMarketData) : pyval :=
  PDict [ ("state_code", _asdict_inner (state_code m));
          ("county_name", _asdict_inner (county_name m));
          ("city_name_variations", _asdict_inner (city_name_variations m));
          ("rental_api_city_name", _asdict_inner (rental_api_city_name m));
          ("major_universities", _asdict_inner (major_universities m));
          ("major_employers", _asdict_inner (major_employers m)) ].

Definition asdict_CityCompetitorData (c : CityCompetitorData) : pyval :=
  PDict [ ("primary_competitor", _asdict_inner (primary_competitor c));
          ("competitor_search_terms",
           _asdict_inner (competitor_search_terms c));
          ("market_saturation_factor",
           _asdict_inner (market_saturation_factor c));
          ("fast_casual_preference_score",
           _asdict_inner (fast_casual_preference_score c)) ].

(** [CityConfiguration.to_dict], that is [asdict(self)]. *)
Definition to_dict (c : CityConfiguration) : pyval :=
  PDict [ ("city_id", _asdict_inner (city_id c));
          ("display_name", _asdict_inner (display_name c));
          ("bounds", asdict_CityBounds (bounds c));
          ("demographics", asdict_CityDemographics (demographics c));
          ("market_data", asdict_CityMarketData (market_data c));
          ("competitor_data", asdict_CityCompetitorData (competitor_data c)) ].

(** [data[k]]: only a dictionary can be indexed by a string. *)
Definition subscript (data : pyval) (k : string) : result pyval :=
  match data with
  | PDict d => dict_item k d
  | _ => Raise TypeError
  end.

(** The mapping unpacked by [**]. *)
Definition kwargs (v : pyval) : result (list (string * pyval)) :=
  match v with
  | PDict d => Ok d
  | _ => Raise TypeError
  end.

(** A dataclass constructor called with keywords only: an unexpected
    keyword and a missing field without default are [TypeError]s. *)
Definition check_keywords (fields : list string)
  (kw : list (string * pyval)) : result unit :=
  if forallb (fun k => existsb (String.eqb k) fields) (dict_keys kw)
  then Ok tt else Raise TypeError.

Definition required (k : string) (kw : list (string * pyval))
  : result pyval :=
  match dict_get k kw with
  | Some v => Ok v
  | None => Raise TypeError
  end.

Open Scope py_scope.

Definition new_CityBounds (kw : list (string * pyval)) : result CityBounds :=
  _ <- check_keywords ["min_lat"; "max_lat"; "min_lon"; "max_lon";
                       "center_lat"; "center_lon"; "grid_spacing"] kw ;;
  a <- required "min_lat" kw ;;
  b <- required "max_lat" kw ;;
  c <- required "min_lon" kw ;;
  d <- required "max_lon" kw ;;
  e <- required "center_lat" kw ;;
  f <- required "center_lon" kw ;;
  Ok {| min_lat := a; max_lat := b; min_lon := c; max_lon := d;
        center_lat := e; center_lon := f;
        grid_spacing := get_default "grid_spacing" (PFloat 0.005) kw |}.

Definition new_CityDemographics (kw : list (string * pyval))
  : result CityDemographics :=
  _ <- check_keywords ["typical_population_range"; "typical_income_range";
                       "typical_age_range"; "population_density_factor"] kw ;;
  a <- required "typical_population_range" kw ;;
  b <- required "typical_income_range" kw ;;
  c <- required "typical_age_range" kw ;;
  Ok {| typical_population_range := a; typical_income_range := b;
        typical_age_range := c;
        population_density_factor :=
          get_default "population_density_factor" (PFloat 1.0) kw |}.

Definition new_CityMarketData (kw : list (string * pyval))
  : result CityMarketData :=
  _ <- check_keywords ["state_code"; "county_name"; "city_name_variations";
                       "rental_api_city_name"; "major_universities";
                       "major_employers"] kw ;;
  a <- required "state_code" kw ;;
  b <- required "county_name" kw ;;
  c <- required "city_name_variations" kw ;;
  d <- required "rental_api_city_name" kw ;;
  e <- required "major_universities" kw ;;
  f <- required "major_employers" kw ;;
  Ok {| state_code := a; county_name := b; city_name_variations := c;
        rental_api_city_name := d; major_universities := e;
        major_employers := f |}.

Definition new_CityCompetitorData (kw : list (string * pyval))
  : result CityCompetitorData :=
  _ <- check_keywords ["primary_competitor"; "competitor_search_terms";
                       "market_saturation_factor";
                       "fast_casual_preference_score"] kw ;;
  a <- required "primary_competitor" kw ;;
  b <- required "competitor_search_terms" kw ;;
  c <- required "market_saturation_factor" kw ;;
  d <- required "fast_casual_preference_score" kw ;;
  Ok {| primary_competitor := a; competitor_search_terms := b;
        market_saturation_factor := c;
        fast_casual_preference_score := d |}.

(** [CityConfiguration.from_dict]; the arguments are evaluated left to
    right. *)
Definition from_dict (data : pyval) : result CityConfiguration :=
  cid <- subscript data "city_id" ;;
  name <- subscript data "display_name" ;;
  b <- (v <- subscript data "bounds" ;; kw <- kwargs v ;; new_CityBounds kw) ;;
  d <- (v <- subscript data "demographics" ;; kw <- kwargs v ;;
        new_CityDemographics kw) ;;
  m <- (v <- subscript data "market_data" ;; kw <- kwargs v ;;
        new_CityMarketData kw) ;;
  c <- (v <- subscript data "competitor_data" ;; kw <- kwargs v ;;
        new_CityCompetitorData kw) ;;
  Ok {| city_id := cid; display_name := name; bounds := b;
        demographics := d; market_data := m; competitor_data := c |}.

Close Scope py_scope.

(** *** PyYAML, as configured by [_setup_yaml]

    A document is kept as its representation graph; the text that the
    emitter writes and the parser reads back belongs to PyYAML and is not
    modelled.  Mapping keys are strings. *)

Inductive node : Type :=
| NNull
| NBool (b : bool)
| NInt (z : Z)
| NFloat (f : float)
| NStr (s : string)
| NSeq (items : list node)                (* tag:yaml.org,2002:seq *)
| NPyTuple (items : list node)            (* tag:yaml.org,2002:python/tuple *)
| NMap (items : list (string * node)).    (* tag:yaml.org,2002:map *)

(** [sorted] on the items of a dictionary: the keys are distinct, so the
    order is the order of the keys. *)
Section Sorted.
Context {V : Type}.

Fixpoint insert_item (kv : string * V) (l : list (string * V))
  : list (string * V) :=
  match l with
  | [] => [kv]
  | kv' :: l' =>
      if String.leb (fst kv) (fst kv') then kv :: l
      else kv' :: insert_item kv l'
  end.

Fixpoint sort_items (l : list (string * V)) : list (string * V) :=
  match l with
  | [] => []
  | kv :: l' => insert_item kv (sort_items l')
  end.

(** A dictionary filled item by item, as [construct_mapping] does. *)
Definition dict_of_items (items : list (string * V)) : list (string * V) :=
  fold_left (fun d kv => dict_set (fst kv) (snd kv) d) items [].
End Sorted.

(** [yaml.dump]'s representer.  [tuple_representer] is registered by
    [_setup_yaml]: a tuple is represented as a plain sequence, exactly as
    a list is.  [yaml.dump] sorts the items of a mapping by key
    ([sort_keys=True] is its default); sorting before or after the values
    are represented gives the same items. *)
Fixpoint represent (v : pyval) : node :=
  match v with
  | PNone => NNull
  | PBool b => NBool b
  | PInt z => NInt z
  | PFloat f => NFloat f
  | PStr s => NStr s
  | PList l => NSeq (map represent l)
  | PTuple l => NSeq (map represent l)
  | PDict d =>
      NMap (sort_items (map (fun kv => (fst kv, represent (snd kv))) d))
  end.

(** [yaml.safe_load]'s constructor.  [tuple_constructor] is registered by
    [_setup_yaml] for the [python/tuple] tag; a plain sequence becomes a
    list. *)
Fixpoint construct (n : node) : pyval :=
  match n with
  | NNull => PNone
  | NBool b => PBool b
  | NInt z => PInt z
  | NFloat f => PFloat f
  | NStr s => PStr s
  | NSeq items => PList (map construct items)
  | NPyTuple items => PTuple (map construct items)
  | NMap items =>
      PDict (dict_of_items (map (fun kn => (fst kn, construct (snd kn))) items))
  end.

(** *** The backing file *)

(** What [usa_city_configs.yaml] can be: missing; present but [open]
    fails; present with a text [safe_load] rejects (a syntax error, a tag
    it has no constructor for); present and empty; present with a
    document. *)
Inductive file_state : Type :=
| Absent
| Unreadable
| Malformed
| Empty
| Document (n : node).

Record filesystem : Type := {
  config_file : file_state;
  writable : bool          (* does [open(config_file, 'w')] succeed? *)
}.

(** [os.path.exists(self.config_file)] *)
Definition exists_file (fs : filesystem) : bool :=
  match config_file fs with Absent => false | _ => true end.

(** [open(..., 'r')] followed by [yaml.safe_load(f)]. *)
Definition read_yaml (fs : filesystem) : result pyval :=
  match config_file fs with
  | Absent => Raise OSError
  | Unreadable => Raise OSError
  | Malformed => Raise YAMLError
  | Empty => Ok PNone
  | Document n => Ok (construct n)
  end.

(** *** [EnhancedCityConfigManager] *)

Record manager : Type := {
  configs : list (string * CityConfiguration);
  current_city : pyval      (* Optional[str] *)
}.

(** [save_configs]: when the file cannot be opened for writing, [open]
    raises and nothing is written. *)
Definition save_configs (m : manager) (fs : filesystem)
  : result unit * filesystem :=
  let data :=
    PDict [ ("current_city", current_city m);
            ("cities",
             PDict (map (fun kc => (fst kc, to_dict (snd kc))) (configs m))) ]
  in
  if writable fs
  then (Ok tt, {| config_file := Document (represent data);
                  writable := true |})
  else (Raise OSError, fs).

(** A row of the cities table, in either of its two layouts. *)
Inductive df_row : Type :=
| GeneratedRow (city state : string) (lat lon : float) (pop : Z)
    (county : string)      (* generate_usa_cities.py: 'city', 'state', ... *)
| CsvRow (r : city_row).   (* 'CITY', 'STATE_CODE', ... *)

Definition to_city_series (row : df_row) : city_row :=
  match row with
  | GeneratedRow city state lat lon pop county =>
      {| CITY := city; STATE_CODE := state; POPULATION := pop;
         LATITUDE := lat; LONGITUDE := lon; COUNTY := Some county |}
  | CsvRow r => r
  end.

(** The key under which a configuration is stored: its [city_id], which
    the generator makes a string. *)
Definition key_of (c : CityConfiguration) : result string :=
  match city_id c with
  | PStr s => Ok s
  | _ => Raise TypeError
  end.

(** One turn of the loop of [_generate_usa_city_configs]; a row that
    raises is skipped. *)
Definition add_city (smd : state_table)
  (cfgs : list (string * CityConfiguration)) (row : df_row)
  : list (string * CityConfiguration) :=
  match _create_city_config_from_data (to_city_series row) smd with
  | Ok c =>
      match key_of c with
      | Ok k => dict_set k c cfgs
      | Raise _ => cfgs
      end
  | Raise _ => cfgs
  end.

(** [_generate_usa_city_configs]; [cities_df] is the table supplied by
    [create_comprehensive_cities_list] (or, when that import fails, by the
    data loader). *)
Definition _generate_usa_city_configs (cities_df : list df_row)
  (m : manager) (fs : filesystem) : result unit * manager * filesystem :=
  let state_market_data := _get_state_market_data in
  let cfgs := fold_left (add_city state_market_data) cities_df (configs m) in
  let current :=
    match cfgs with
    | (k, _) :: _ =>
        if negb (truthy (current_city m)) then PStr k else current_city m
    | [] => current_city m
    end in
  let m' := {| configs := cfgs; current_city := current |} in
  let '(r, fs') := save_configs m' fs in
  (r, m', fs').

(** The loop over [data['cities'].items()]; the configurations loaded
    before a failing one stay in [self.configs]. *)
Fixpoint load_cities (items : list (string * pyval))
  (cfgs : list (string * CityConfiguration))
  : result unit * list (string * CityConfiguration) :=
  match items with
  | [] => (Ok tt, cfgs)
  | (k, city_data) :: rest =>
      match from_dict city_data with
      | Ok c => load_cities rest (dict_set k c cfgs)
      | Raise e => (Raise e, cfgs)
      end
  end.

(** ['cities' in data] *)
Definition contains_cities (data : pyval) : result bool :=
  match data with
  | PDict d => Ok (dict_mem "cities" d)
  | PStr s =>
      Ok (match index 0 "cities" s with Some _ => true | None => false end)
  | PList l | PTuple l =>
      Ok (existsb (fun v => match v with
                            | PStr s => (s =? "cities")%string
                            | _ => false
                            end) l)
  | _ => Raise TypeError
  end.

(** The body of the [try] of [load_configs] once the document is read.
    [Ok true]: the [return] was reached; [Ok false]: the [if] was not
    taken. *)
Definition load_document (data : pyval) (m : manager)
  : result bool * manager :=
  if negb (truthy data) then (Ok false, m)
  else
    match contains_cities data with
    | Raise e => (Raise e, m)
    | Ok false => (Ok false, m)
    | Ok true =>
        match subscript data "cities" with
        | Raise e => (Raise e, m)
        | Ok (PDict cities) =>
            match load_cities cities (configs m) with
            | (Ok _, cfgs) =>
                match data with
                | PDict d =>
                    (Ok true,
                     {| configs := cfgs;
                        current_city := get_default "current_city" PNone d |})
                | _ => (Raise AttributeError, m)
                end
            | (Raise e, cfgs) =>
                (Raise e, {| configs := cfgs;
                             current_city := current_city m |})
            end
        | Ok _ => (Raise AttributeError, m)   (* no [items] method *)
        end
    end.

(** [load_configs]: whatever the [try] raises is caught and printed, and
    generation follows; the call of [save_configs] at the end of
    generation is outside every [try]. *)
Definition load_configs (cities_df : list df_row) (m : manager)
  (fs : filesystem) : result unit * manager * filesystem :=
  let '(loaded, m1) :=
    if exists_file fs then
      match read_yaml fs with
      | Raise _ => (false, m)
      | Ok data =>
          match load_document data m with
          | (Ok true, m') => (true, m')
          | (_, m') => (false, m')
          end
      end
    else (false, m) in
  if loaded then (Ok tt, m1, fs)
  else _generate_usa_city_configs cities_df m1 fs.

(** [EnhancedCityConfigManager.__init__] *)
Definition init (cities_df : list df_row) (fs : filesystem)
  : result unit * manager * filesystem :=
  load_configs cities_df {| configs := []; current_city := PNone |} fs.

(** [set_current_city] *)
Definition set_current_city (m : manager) (fs : filesystem)
  (city_id : string) : result bool * manager * filesystem :=
  if dict_mem city_id (configs m) then
    let m' := {| configs := configs m; current_city := PStr city_id |} in
    match save_configs m' fs with
    | (Ok _, fs') => (Ok true, m', fs')
    | (Raise e, fs') => (Raise e, m', fs')
    end
  else (Ok false, m, fs).

End CityConfig.

(** ** [dynamic_dashboard_fixed.py]: the load orchestrator *)

Module Dashboard.
Import CityConfig.

(** *** What the process takes from outside

    numpy's global random generator and the interpreter's string hash
    (which changes from one process to the next) are not code of the
    repository: they are operations of the runtime.  Seeding replaces the
    generator's state by one that depends on the seed only; every draw
    returns its sample and the next state. *)
Class Runtime : Type := {
  rng_state : Type;
  np_seed : Z -> rng_state;
  np_normal : float -> float -> nat -> rng_state -> list float * rng_state;
  np_uniform : float -> float -> nat -> rng_state -> list float * rng_state;
  np_randint : Z -> Z -> nat -> rng_state -> list Z * rng_state;
  np_mean : list float -> float;
  py_hash : string -> Z
}.

(** *** Data *)

(** A [DataFrame]: its columns, in order. *)
Definition dataframe : Type := list (string * list pyval).

(** [len(df)]: the number of rows. *)
Definition df_len (df : dataframe) : nat :=
  match df with
  | [] => O
  | (_, column) :: _ => List.length column
  end.

(** The stand-in configuration built for synthetic data. *)
Record MockConfig : Type := {
  mock_city_id : string;
  mock_display_name : pyval;
  mock_center_lat : float;
  mock_center_lon : float;
  mock_primary_competitor : string
}.

Inductive config_object : Type :=
| RealConfig (c : CityConfiguration)
| Mock (c : MockConfig).

(** The dictionary held in the 'current city data' slot; the fields are
    its keys. *)
Record city_data : Type := {
  df_filtered : dataframe;
  data_competitors : list (string * list pyval);  (* 'competitor_data' *)
  model : pyval;
  metrics : list (string * pyval);
  city_config : config_object;
  generation_time : string
}.

(** The dictionary stored under ['loading_progress']: a progress report
    or an error message. *)
Inductive progress_record : Type :=
| Progress (percent : pyval) (step : string) (locations total_locations : pyval)
    (eta : pyval)
| ProgressError (error : string).

(** [app_state] *)
Record app_state : Type := {
  current_city_data : option city_data;
  loading_progress : option progress_record;
  last_loaded_city : option string;
  loading_in_progress : bool
}.

(** A started background thread, with the arguments of its target. *)
Record worker : Type := {
  worker_city_id : string;
  worker_force_refresh : bool;
  worker_display_name : pyval
}.

(** The process: [app_state], the threads started so far, the state of
    the random generator and the clock read by [datetime.now()]. *)
Record world (G : Type) : Type := {
  app : app_state;
  threads : list worker;
  rng : G;
  now : string
}.
Arguments app {G} w.
Arguments threads {G} w.
Arguments rng {G} w.
Arguments now {G} w.

Definition initial_app_state : app_state :=
  {| current_city_data := None;
     loading_progress := None;
     last_loaded_city := None;
     loading_in_progress := false |}.

(** The module-level names [trigger_city_loading] reads. *)
Record globals : Type := {
  CITY_CONFIG_AVAILABLE : bool;
  DATA_LOADER_AVAILABLE : bool;
  city_manager : manager;
  available_cities : list (string * string)   (* 'label', 'value' *)
}.

(** *** [create_synthetic_city_data] *)

Definition floats (l : list float) : list pyval := map PFloat l.
Definition ints (l : list Z) : list pyval := map PInt l.

Definition n_locations : nat := 100.

(** The seed handed to [np.random.seed]. *)
Definition seed_of `{Runtime} (city_id : string) : Z :=
  py_hash city_id mod 2 ^ 32.

(** The ten columns, drawn in the order of the source from the generator
    in state [g]. *)
Definition draw_locations `{Runtime} (g : rng_state)
  : list float * list float * dataframe * rng_state :=
  let '(lats, g) := np_normal 40.7 0.1 n_locations g in
  let '(lons, g) := np_normal (-74.0) 0.1 n_locations g in
  let '(predicted_revenue, g) := np_uniform 2800000 8500000 n_locations g in
  let '(median_income, g) := np_uniform 35000 120000 n_locations g in
  let '(median_age, g) := np_uniform 25 65 n_locations g in
  let '(population, g) := np_uniform 2000 25000 n_locations g in
  let '(traffic_score, g) := np_uniform 20 95 n_locations g in
  let '(commercial_score, g) := np_uniform 25 90 n_locations g in
  let '(distance, g) := np_uniform 0.1 8.0 n_locations g in
  let '(competition_density, g) := np_randint 0 8 n_locations g in
  (lats, lons,
   [ ("latitude", floats lats);
     ("longitude", floats lons);
     ("predicted_revenue", floats predicted_revenue);
     ("median_income", floats median_income);
     ("median_age", floats median_age);
     ("population", floats population);
     ("traffic_score", floats traffic_score);
     ("commercial_score", floats commercial_score);
     ("distance_to_primary_competitor", floats distance);
     ("competition_density", ints competition_density) ],
   g).

(** No statement of the body raises for a city id that is a string. *)
Definition create_synthetic_city_data `{Runtime} (city_id : string)
  (display_name : pyval) (w : world rng_state) : city_data * world rng_state :=
  let g0 := np_seed (seed_of city_id) in
  let '(lats, lons, df, g) := draw_locations g0 in
  let mock :=
    {| mock_city_id := city_id;
       mock_display_name :=
         if truthy display_name then display_name
         else PStr (title (replace "_" " " city_id));
       mock_center_lat := np_mean lats;
       mock_center_lon := np_mean lons;
       mock_primary_competitor := "chick-fil-a" |} in
  ({| df_filtered := df;
      data_competitors := [("chick-fil-a", [])];
      model := PNone;
      metrics := [ ("train_r2", PFloat 0.85);
                   ("synthetic", PBool true);
                   ("note", PStr "Synthetic data generated as fallback") ];
      city_config := Mock mock;
      generation_time := now w |},
   {| app := app w; threads := threads w; rng := g; now := now w |}).

(** *** [load_city_data_background_safe] *)

(** What [load_city_data_on_demand], the external collection routine,
    does during one call: the progress objects it hands to the callback,
    then either an exception (a timeout is one) or a returned value.  Of
    an exception the worker reads nothing but its text, [str(e)]. *)
Inductive progress_object : Type :=
| Report (progress_percent : pyval) (step_name : string)
    (locations_processed total_locations : pyval) (estimated_remaining : pyval)
| Unusable.    (* an object without these attributes *)

Inductive loader_value : Type :=
| Falsy                  (* [None], an empty dictionary *)
| WithoutTable           (* a dictionary without 'df_filtered' *)
| Data (d : city_data).

Inductive outcome : Type :=
| Raises (text : string)
| Returns (v : loader_value).

Record collection : Type := {
  reports : list progress_object;
  result_of : outcome
}.

Definition set_app {G} (w : world G) (a : app_state) : world G :=
  {| app := a; threads := threads w; rng := rng w; now := now w |}.

(** The nested [progress_callback]. *)
Definition progress_callback {G} (w : world G) (p : progress_object)
  : world G :=
  let record :=
    match p with
    | Report percent step locations total eta =>
        Progress percent step locations total eta
    | Unusable =>
        Progress (PInt 50) "Processing..." (PInt 0) (PInt 0) (PInt 0)
    end in
  set_app w {| current_city_data := current_city_data (app w);
               loading_progress := Some record;
               last_loaded_city := last_loaded_city (app w);
               loading_in_progress := loading_in_progress (app w) |}.

(** How the [try] block ends: it runs to its end, or an exception is
    raised, with the text [str(e)] gives: the message of the
    [ImportError] and of the [ValueError] raised here, the text of what
    the collection raised. *)
Inductive ending : Type :=
| Completed
| Raised (text : string).

(** The [try] block. *)
Definition try_load `{Runtime} (loader_available : bool) (run : collection)
  (city_id : string) (display_name : pyval) (w : world rng_state)
  : ending * world rng_state :=
  if negb loader_available
  then (Raised "Data loader not available", w)
  else
    let w := fold_left progress_callback (reports run) w in
    match result_of run with
    | Raises text => (Raised text, w)
    | Returns Falsy | Returns WithoutTable =>
        (Raised "Invalid city data returned", w)
    | Returns (Data d) =>
        let '(city_data, w) :=
          if (df_len (df_filtered d) =? 0)%nat
          then create_synthetic_city_data city_id display_name w
          else (d, w) in
        (Completed,
         set_app w {| current_city_data := Some city_data;
                      loading_progress := None;
                      last_loaded_city := last_loaded_city (app w);
                      loading_in_progress := false |})
    end.

(** The whole function: whatever the [try] block raises is caught by
    [except Exception]; the fallback is built inside a [try] of its own,
    and [finally] only closes the event loop. *)
Definition load_city_data_background_safe `{Runtime}
  (loader_available : bool) (run : collection) (city_id : string)
  (force_refresh : bool) (display_name : pyval) (w : world rng_state)
  : result unit * world rng_state :=
  match try_load loader_available run city_id display_name w with
  | (Completed, w) => (Ok tt, w)
  | (Raised text, w) =>
      let error_msg := "Error loading city data: " ++ text in
      let '(city_data, w) :=
        create_synthetic_city_data city_id display_name w in
      (Ok tt,
       set_app w {| current_city_data := Some city_data;
                    loading_progress := Some (ProgressError error_msg);
                    last_loaded_city := last_loaded_city (app w);
                    loading_in_progress := false |})
  end.

(** *** [trigger_city_loading] *)

Inductive card : Type :=
| Welcome
| TestResults
| LoaderNotAvailable
| LoadingCard (display_name : pyval)
| StartError
| ReadyCard (display_name : pyval).

(** The three outputs of the callback. *)
Record outputs : Type := {
  loading_trigger : string;
  progress_shown : bool;     (* style 'block' rather than 'none' *)
  status_cards : card
}.

(** [prop_id.split('.')[0]] *)
Fixpoint before_dot (s : string) : string :=
  match s with
  | EmptyString => EmptyString
  | String c s' => if (c =? ".")%char then EmptyString
                   else String c (before_dot s')
  end.

(** [x or ""] *)
Definition or_empty (x : option string) : string :=
  match x with Some s => s | None => "" end.

(** The display name looked up for a city id. *)
Definition display_name_of (g : globals) (city_id : string) : pyval :=
  if CITY_CONFIG_AVAILABLE g then
    match dict_get city_id (configs (city_manager g)) with
    | Some config => display_name config
    | None => PStr city_id
    end
  else
    match find (fun c => (snd c =? city_id)%string) (available_cities g) with
    | Some city_info => PStr (fst city_info)
    | None => PStr city_id
    end.

(** [triggered] is the [prop_id] of [ctx.triggered[0]] when
    [ctx.triggered] is not empty.  The [try] holds two calls that can
    raise.  [thread_starts] tells whether [Thread.start] succeeds.
    [spinner_builds] tells whether [dbc.Spinner(size="sm",
    className="me-2")] does: the reply is built after the thread has
    started and the two flags are set, and a [Spinner] that takes no
    [className] raises a [TypeError] there; the handler then answers
    with the error card and the progress bar hidden, while the worker
    runs. *)
Definition trigger_city_loading {G} (g : globals)
  (thread_starts spinner_builds : bool)
  (city_id : option string) (refresh_clicks test_clicks : option Z)
  (current_trigger : option string) (triggered : option string)
  (w : world G) : outputs * world G :=
  let trigger_id := option_map before_dot triggered in
  let is_trigger id :=
    match trigger_id with
    | Some t => (t =? id)%string
    | None => false
    end in
  let selected :=
    match city_id with
    | Some c => if (c =? "")%string then None else Some c
    | None => None
    end in
  if is_trigger "test-btn" then
    ({| loading_trigger := or_empty current_trigger;
        progress_shown := false; status_cards := TestResults |}, w)
  else
    match selected with
    | None =>
        ({| loading_trigger := ""; progress_shown := false;
            status_cards := Welcome |}, w)
    | Some city_id =>
        if negb (DATA_LOADER_AVAILABLE g) then
          ({| loading_trigger := or_empty current_trigger;
              progress_shown := false;
              status_cards := LoaderNotAvailable |}, w)
        else
          let display_name := display_name_of g city_id in
          let force_refresh :=
            is_trigger "refresh-btn"
            && match refresh_clicks with
               | Some n => negb (n =? 0)
               | None => false
               end in
          let differs :=
            match last_loaded_city (app w) with
            | Some last => negb (city_id =? last)%string
            | None => true
            end in
          let no_data :=
            match current_city_data (app w) with
            | Some _ => false     (* a dictionary with keys is true *)
            | None => true
            end in
          if differs || force_refresh || no_data then
            if thread_starts then
              ((if spinner_builds
                then {| loading_trigger :=
                          "loading-" ++ city_id ++ "-" ++ now w;
                        progress_shown := true;
                        status_cards := LoadingCard display_name |}
                else {| loading_trigger := or_empty current_trigger;
                        progress_shown := false;
                        status_cards := StartError |}),
               {| app :=
                    {| current_city_data := current_city_data (app w);
                       loading_progress := loading_progress (app w);
                       last_loaded_city := Some city_id;
                       loading_in_progress := true |};
                  threads :=
                    threads w
                    ++ [ {| worker_city_id := city_id;
                            worker_force_refresh := force_refresh;
                            worker_display_name := display_name |} ];
                  rng := rng w;
                  now := now w |})
            else
              ({| loading_trigger := or_empty current_trigger;
                  progress_shown := false; status_cards := StartError |}, w)
          else
            ({| loading_trigger := or_empty current_trigger;
                progress_shown := false;
                status_cards := ReadyCard display_name |}, w)
    end.

End Dashboard.

(** ** Auxiliary definitions used to state the generator's properties *)

Module GeneratorWording.
Import CityConfig.

(** What the specification's wording of the city id describes: the
    lowercased name with spaces, hyphens and periods removed, an
    underscore, the lowercased state code. *)
Fixpoint remove_chars (drop : ascii -> bool) (s : string) : string :=
  match s with
  | EmptyString => EmptyString
  | String c s' =>
      if drop c then remove_chars drop s' else String c (remove_chars drop s')
  end.

Definition city_id_as_worded (city_name state_code : string) : string :=
  remove_chars
    (fun c => (c =? " ")%char || (c =? "-")%char || (c =? ".")%char)
    (lower city_name)
  ++ "_" ++ lower state_code.

(** Character-wise substitution, to describe what the three chained
    [replace] calls compute. *)
Fixpoint subst_chars (f : ascii -> string) (s : string) : string :=
  match s with
  | EmptyString => EmptyString
  | String c s' => f c ++ subst_chars f s'
  end.

Definition slug_char (c : ascii) : string :=
  if (c =? " ")%char || (c =? "-")%char then "_"
  else if (c =? ".")%char then ""
  else String c "".

(** The validity condition the specification states for a raw record. *)
Definition invalid_as_worded (r : city_row) : bool :=
  (POPULATION r <=? 0)
  || negb (PrimFloat.leb (-90) (LATITUDE r) && PrimFloat.leb (LATITUDE r) 90)
  || negb (PrimFloat.leb (-180) (LONGITUDE r)
           && PrimFloat.leb (LONGITUDE r) 180).

Definition new_york : city_row :=
  {| CITY := "New York"; STATE_CODE := "NY"; POPULATION := 8336817;
     LATITUDE := 40.7128; LONGITUDE := (-74.0060);
     COUNTY := Some "New York" |}.

Definition nowhere : city_row :=
  {| CITY := "Nowhere"; STATE_CODE := "ZZ"; POPULATION := 0;
     LATITUDE := 100; LONGITUDE := 200; COUNTY := None |}.

End GeneratorWording.

(** ** Auxiliary definitions used to state the store's properties *)

Module StoreWording.
Import CityConfig.

(** What a value becomes when it is written to the file and read back:
    every tuple is a list, and the items of every dictionary are in the
    order of their keys. *)
Fixpoint listify (v : pyval) : pyval :=
  match v with
  | PList l => PList (map listify l)
  | PTuple l => PList (map listify l)
  | PDict d => PDict (sort_items (map (fun kv => (fst kv, listify (snd kv))) d))
  | _ => v
  end.

(** A function applied to every field of a configuration. *)
Definition map_config (f : pyval -> pyval) (c : CityConfiguration)
  : CityConfiguration :=
  {| city_id := f (city_id c);
     display_name := f (display_name c);
     bounds :=
       {| min_lat := f (min_lat (bounds c));
          max_lat := f (max_lat (bounds c));
          min_lon := f (min_lon (bounds c));
          max_lon := f (max_lon (bounds c));
          center_lat := f (center_lat (bounds c));
          center_lon := f (center_lon (bounds c));
          grid_spacing := f (grid_spacing (bounds c)) |};
     demographics :=
       {| typical_population_range :=
            f (typical_population_range (demographics c));
          typical_income_range := f (typical_income_range (demographics c));
          typical_age_range := f (typical_age_range (demographics c));
          population_density_factor :=
            f (population_density_factor (demographics c)) |};
     market_data :=
       {| state_code := f (state_code (market_data c));
          county_name := f (county_name (market_data c));
          city_name_variations := f (city_name_variations (market_data c));
          rental_api_city_name := f (rental_api_city_name (market_data c));
          major_universities := f (major_universities (market_data c));
          major_employers := f (major_employers (market_data c)) |};
     competitor_data :=
       {| primary_competitor := f (primary_competitor (competitor_data c));
          competitor_search_terms :=
            f (competitor_search_terms (competitor_data c));
          market_saturation_factor :=
            f (market_saturation_factor (competitor_data c));
          fast_casual_preference_score :=
            f (fast_casual_preference_score (competitor_data c)) |} |}.

(** The store found by a manager constructed on the file that [m] saved. *)
Definition reloaded (m : manager) : manager :=
  {| configs :=
       sort_items
         (map (fun kc => (fst kc, map_config listify (snd kc))) (configs m));
     current_city := listify (current_city m) |}.

(** The order of two items by their keys. *)
Definition key_le {V} (a b : string * V) : Prop :=
  String.leb (fst a) (fst b) = true.

(** The keys of a Python dictionary are distinct. *)
Fixpoint distinct (l : list string) : bool :=
  match l with
  | [] => true
  | k :: l' => negb (existsb (String.eqb k) l') && distinct l'
  end.

Fixpoint valid_dicts (v : pyval) : bool :=
  match v with
  | PList l | PTuple l => forallb valid_dicts l
  | PDict d =>
      distinct (map fst d) && forallb (fun kv => valid_dicts (snd kv)) d
  | _ => true
  end.

Definition fields_of (c : CityConfiguration) : list pyval :=
  [ city_id c; display_name c;
    min_lat (bounds c); max_lat (bounds c); min_lon (bounds c);
    max_lon (bounds c); center_lat (bounds c); center_lon (bounds c);
    grid_spacing (bounds c);
    typical_population_range (demographics c);
    typical_income_range (demographics c);
    typical_age_range (demographics c);
    population_density_factor (demographics c);
    state_code (market_data c); county_name (market_data c);
    city_name_variations (market_data c);
    rental_api_city_name (market_data c);
    major_universities (market_data c); major_employers (market_data c);
    primary_competitor (competitor_data c);
    competitor_search_terms (competitor_data c);
    market_saturation_factor (competitor_data c);
    fast_casual_preference_score (competitor_data c) ].

Definition valid_config (c : CityConfiguration) : bool :=
  forallb valid_dicts (fields_of c).

Definition valid_store (m : manager) : bool :=
  distinct (dict_keys (configs m))
  && forallb (fun kc => valid_config (snd kc)) (configs m)
  && valid_dicts (current_city m).

(** [save_configs] by one manager, then a new manager constructed on the
    file. *)
Definition save_then_load (cities_df : list df_row) (m : manager)
  (fs : filesystem) : result unit * manager * filesystem :=
  init cities_df (snd (save_configs m fs)).

(** The configurations generation produces from an empty store. *)
Definition generated (cities_df : list df_row) : manager :=
  let cfgs := fold_left (add_city _get_state_market_data) cities_df [] in
  {| configs := cfgs;
     current_city := match cfgs with (k, _) :: _ => PStr k | [] => PNone end |}.

(** The file [save_configs] writes for [m]. *)
Definition saved (m : manager) : file_state :=
  Document
    (represent
       (PDict [ ("current_city", current_city m);
                ("cities",
                 PDict (map (fun kc => (fst kc, to_dict (snd kc)))
                          (configs m))) ])).

Definition two_cities : list df_row :=
  [ GeneratedRow "New York" "NY" 40.7128 (-74.0060) 8336817 "New York";
    GeneratedRow "Chicago" "IL" 41.8781 (-87.6298) 2693976 "Cook" ].

(** The store generated from the row of Chicago alone. *)
Definition chicago_store : manager :=
  generated [ GeneratedRow "Chicago" "IL" 41.8781 (-87.6298) 2693976 "Cook" ].


Definition writable_disk : filesystem :=
  {| config_file := Absent; writable := true |}.

Definition readonly_disk : filesystem :=
  {| config_file := Absent; writable := false |}.

End StoreWording.

(** ** Auxiliary definitions used to state the orchestrator's properties *)

Module DashboardWording.
Import CityConfig StoreWording Dashboard.

(** The load attempt met one of the failures of the specification: the
    loader is missing, the collection raised (or timed out), or it
    returned nothing usable or an empty table. *)
Definition failed (loader_available : bool) (run : collection) : bool :=
  negb loader_available
  || match result_of run with
     | Raises _ => true
     | Returns Falsy | Returns WithoutTable => true
     | Returns (Data d) => (df_len (df_filtered d) =? 0)%nat
     end.

(** The force-refresh flag [trigger_city_loading] computes. *)
Definition forced (triggered : option string) (refresh_clicks : option Z)
  : bool :=
  match option_map before_dot triggered with
  | Some t => (t =? "refresh-btn")%string
  | None => false
  end
  && match refresh_clicks with
     | Some n => negb (n =? 0)
     | None => false
     end.


(** A dashboard whose configuration store holds Chicago. *)
Definition demo_globals : globals :=
  {| CITY_CONFIG_AVAILABLE := true;
     DATA_LOADER_AVAILABLE := true;
     city_manager := chicago_store;
     available_cities := [("Chicago, IL", "chicago_il")] |}.

Definition fresh_world : world unit :=
  {| app := initial_app_state; threads := []; rng := tt;
     now := "2025-01-01T00:00:00" |}.

(** The process after the first selection of Chicago. *)
Definition first_request : world unit :=
  snd (trigger_city_loading demo_globals true false (Some "chicago_il") None
         None None (Some "city-selector.value") fresh_world).

Definition some_data : city_data :=
  {| df_filtered := [ ("latitude", [PFloat 41.88]);
                      ("longitude", [PFloat (-87.63)]) ];
     data_competitors := [("chick-fil-a", [])];
     model := PNone;
     metrics := [("train_r2", PFloat 0.85)];
     city_config := Mock {| mock_city_id := "chicago_il";
                            mock_display_name := PStr "Chicago, IL";
                            mock_center_lat := 41.88;
                            mock_center_lon := (-87.63);
                            mock_primary_competitor := "chick-fil-a" |};
     generation_time := "2025-01-01T00:00:00" |}.

(** A forced refresh of Chicago has started while the data of an earlier
    load is still in the slot. *)
Definition refreshing_world : world unit :=
  {| app := {| current_city_data := Some some_data;
               loading_progress := None;
               last_loaded_city := Some "chicago_il";
               loading_in_progress := true |};
     threads := [ {| worker_city_id := "chicago_il";
                     worker_force_refresh := true;
                     worker_display_name := PStr "Chicago, IL" |} ];
     rng := tt;
     now := "2025-01-01T00:00:05" |}.

(** A small runtime to instantiate the general statements: the state of
    the generator is a counter, a sample spells the bits of the state,
    and the hash of a string is its length. *)
Definition bits_sample (g : Z) (n : nat) : list float :=
  map (fun i => if Z.testbit g (Z.of_nat i) then 1%float else 0%float)
    (seq 0 n).

Definition counter_runtime : Runtime :=
  {| rng_state := Z;
     np_seed := fun n => n;
     np_normal := fun _ _ n g => (bits_sample g n, g + 1);
     np_uniform := fun _ _ n g => (bits_sample g n, g + 1);
     np_randint := fun lo _ n g => (repeat lo n, g + 1);
     np_mean := fun _ => 0%float;
     py_hash := fun s => Z.of_nat (String.length s) |}.

End DashboardWording.

(** ** [city_config.py]: the queries of the manager and the utility
    functions *)

Module Queries.
Import CityConfig.

(** A call that returns or raises an exception of the named class. *)
Inductive attempt (A : Type) : Type :=
| Returned (a : A)
| Raised (exception : string).
Arguments Returned {A} a.
Arguments Raised {A} exception.

Definition exn_class (e : exn) : string :=
  match e with
  | KeyError _ => "KeyError"
  | TypeError => "TypeError"
  | AttributeError => "AttributeError"
  | ValueError _ => "ValueError"
  | ImportError _ => "ImportError"
  | OSError => "OSError"
  | YAMLError => "YAMLError"
  end.

Definition of_result {A} (r : result A) : attempt A :=
  match r with
  | Ok a => Returned a
  | Raise e => Raised (exn_class e)
  end.

(** *** Operators on Python values *)

(** [v == s] for a string [s]: a value of another type is not equal. *)
Definition eq_str (v : pyval) (s : string) : bool :=
  match v with
  | PStr s' => (s' =? s)%string
  | _ => false
  end.

(** [v[1]] *)
Definition item1 (v : pyval) : attempt pyval :=
  match v with
  | PList l | PTuple l =>
      match nth_error l 1 with
      | Some x => Returned x
      | None => Raised "IndexError"
      end
  | PStr s =>
      match String.get 1 s with
      | Some c => Returned (PStr (String c EmptyString))
      | None => Raised "IndexError"
      end
  | PDict _ => Raised "KeyError"      (* the keys are strings *)
  | _ => Raised "TypeError"
  end.

(** The number a finite float stands for is [m * 2^e]; Python compares
    an [int] with a [float] exactly. *)
Definition int_le_float (a : Z) (f : float) : bool :=
  match Prim2SF f with
  | S754_nan => false
  | S754_infinity negative => negb negative
  | S754_zero _ => a <=? 0
  | S754_finite negative m e =>
      let v := if negative then Zneg m else Zpos m in
      if 0 <=? e then a <=? v * 2 ^ e else a * 2 ^ (- e) <=? v
  end.

Definition float_le_int (f : float) (b : Z) : bool :=
  match Prim2SF f with
  | S754_nan => false
  | S754_infinity negative => negative
  | S754_zero _ => 0 <=? b
  | S754_finite negative m e =>
      let v := if negative then Zneg m else Zpos m in
      if 0 <=? e then v * 2 ^ e <=? b else v <=? b * 2 ^ (- e)
  end.

(** [a <= x] and [x <= b] for integers [a], [b]. *)
Definition int_le (a : Z) (x : pyval) : attempt bool :=
  match x with
  | PInt z => Returned (a <=? z)
  | PBool t => Returned (a <=? (if t then 1 else 0))
  | PFloat f => Returned (int_le_float a f)
  | _ => Raised "TypeError"
  end.

Definition le_int (x : pyval) (b : Z) : attempt bool :=
  match x with
  | PInt z => Returned (z <=? b)
  | PBool t => Returned ((if t then 1 else 0) <=? b)
  | PFloat f => Returned (float_le_int f b)
  | _ => Raised "TypeError"
  end.

(** [a <= x <= b]: the second comparison is made only when the first
    holds. *)
Definition between (a : Z) (x : pyval) (b : Z) : attempt bool :=
  match int_le a x with
  | Returned true => le_int x b
  | other => other
  end.

(** [q in s] for two strings. *)
Fixpoint contains (q s : string) : bool :=
  prefix q s
  || match s with
     | EmptyString => false
     | String _ s' => contains q s'
     end.

(** [v.lower()]: only a string has the method. *)
Definition lower_of (v : pyval) : attempt string :=
  match v with
  | PStr s => Returned (lower s)
  | _ => Raised "AttributeError"
  end.

(** Whether [hash(v)] succeeds. *)
Fixpoint hashable (v : pyval) : bool :=
  match v with
  | PList _ | PDict _ => false
  | PTuple l => forallb hashable l
  | _ => true
  end.

(** *** The list comprehensions

    The condition is evaluated configuration by configuration, in the
    order of the dictionary; the first exception ends the call. *)
Fixpoint comprehension (cond : CityConfiguration -> attempt bool)
  (cfgs : list (string * CityConfiguration))
  : attempt (list CityConfiguration) :=
  match cfgs with
  | [] => Returned []
  | (_, config) :: rest =>
      match cond config with
      | Raised e => Raised e
      | Returned keep =>
          match comprehension cond rest with
          | Raised e => Raised e
          | Returned l => Returned (if keep then config :: l else l)
          end
      end
  end.

Definition get_cities_by_state (m : manager) (state : string)
  : list CityConfiguration :=
  map snd
    (filter (fun kc => eq_str (state_code (market_data (snd kc))) state)
       (configs m)).

Definition get_cities_by_population_range (m : manager) (min_pop max_pop : Z)
  : attempt (list CityConfiguration) :=
  comprehension
    (fun config =>
       match item1 (typical_population_range (demographics config)) with
       | Raised e => Raised e
       | Returned x => between min_pop x max_pop
       end)
    (configs m).

Definition search_cities (m : manager) (query : string)
  : attempt (list CityConfiguration) :=
  let query_lower := lower query in
  comprehension
    (fun config =>
       match lower_of (display_name config) with
       | Raised e => Raised e
       | Returned name =>
           if contains query_lower name then Returned true
           else
             match lower_of (city_id config) with
             | Raised e => Raised e
             | Returned id => Returned (contains query_lower id)
             end
       end)
    (configs m).

(** [get_current_config]: [self.current_city in self.configs] hashes the
    pointer. *)
Definition get_current_config (m : manager)
  : attempt (option CityConfiguration) :=
  if truthy (current_city m) then
    match current_city m with
    | PStr s => Returned (dict_get s (configs m))
    | other => if hashable other then Returned None else Raised "TypeError"
    end
  else Returned None.

Definition get_config (m : manager) (city_id : string)
  : option CityConfiguration :=
  dict_get city_id (configs m).

Definition list_cities (m : manager) : list string := dict_keys (configs m).

(** *** The utility functions: each constructs a manager of its own *)

Definition get_city_bounds (cities_df : list df_row) (fs : filesystem)
  : attempt (pyval * pyval * pyval * pyval) * filesystem :=
  let '(r, manager, fs) := init cities_df fs in
  match r with
  | Raise e => (Raised (exn_class e), fs)
  | Ok _ =>
      match get_current_config manager with
      | Raised e => (Raised e, fs)
      | Returned (Some config) =>
          (Returned (min_lat (bounds config), max_lat (bounds config),
                     min_lon (bounds config), max_lon (bounds config)), fs)
      | Returned None =>
          (Returned (PFloat 47.85, PFloat 47.95, PFloat (-97.15),
                     PFloat (-97.0)), fs)
      end
  end.

Definition get_current_city_name (cities_df : list df_row) (fs : filesystem)
  : attempt pyval * filesystem :=
  let '(r, manager, fs) := init cities_df fs in
  match r with
  | Raise e => (Raised (exn_class e), fs)
  | Ok _ =>
      match get_current_config manager with
      | Raised e => (Raised e, fs)
      | Returned (Some config) => (Returned (display_name config), fs)
      | Returned None => (Returned (PStr "Grand Forks, ND"), fs)
      end
  end.

End Queries.

(** ** Auxiliary definitions used to state further properties *)

Module Reading.
Import CityConfig Queries.

(** The two ends of a range that is a pair of integers. *)
Definition range_ends (v : pyval) : option (Z * Z) :=
  match v with
  | PTuple [PInt a; PInt b] => Some (a, b)
  | _ => None
  end.

Definition float_of (v : pyval) : float :=
  match v with
  | PFloat f => f
  | _ => nan
  end.

Definition strings_of (v : pyval) : list string :=
  match v with
  | PList l => flat_map (fun x => match x with PStr s => [s] | _ => [] end) l
  | _ => []
  end.

(** The slug made from a city name alone. *)
Definition name_slug (city_name : string) : string :=
  replace "." "" (replace "-" "_" (replace " " "_" (lower city_name))).

(** The characters of a string. *)
Definition chars (s : string) : list ascii := list_ascii_of_string s.

(** The id under which a row is stored. *)
Definition slug_of_row (row : df_row) : string :=
  make_city_id (CITY (to_city_series row)) (STATE_CODE (to_city_series row)).

(** The configuration generated from a row of the table. *)
Definition config_of_row (row : df_row) : option CityConfiguration :=
  match _create_city_config_from_data (to_city_series row)
          _get_state_market_data with
  | Ok c => Some c
  | Raise _ => None
  end.

(** The file system of a location that holds no file yet. *)
Definition empty_location (can_write : bool) : filesystem :=
  {| config_file := Absent; writable := can_write |}.

(** What every entry of a store satisfies when it was generated from the
    rows [cities_df]. *)
Definition from_rows (cities_df : list df_row)
  (kc : string * CityConfiguration) : Prop :=
  city_id (snd kc) = PStr (fst kc)
  /\ StoreWording.valid_config (snd kc) = true
  /\ exists row,
       In row cities_df
       /\ config_of_row row = Some (snd kc)
       /\ slug_of_row row = fst kc.

(** The items of the dictionaries [to_dict] builds. *)
Definition items_of (v : pyval) : list (string * pyval) :=
  match v with
  | PDict d => d
  | _ => []
  end.

Definition config_items (c : CityConfiguration) : list (string * pyval) :=
  items_of (to_dict c).

(** The dictionary of [c] with the entry [name] replaced by [v]. *)
Definition with_entry (name : string) (v : pyval) (c : CityConfiguration)
  : pyval :=
  PDict (dict_set name v (config_items c)).

Definition without_key (k : string) (d : list (string * pyval))
  : list (string * pyval) :=
  filter (fun kv => negb (fst kv =? k)%string) d.

Definition top_level_keys : list string :=
  ["city_id"; "display_name"; "bounds"; "demographics"; "market_data";
   "competitor_data"].

Definition bounds_fields : list string :=
  ["min_lat"; "max_lat"; "min_lon"; "max_lon"; "center_lat"; "center_lon";
   "grid_spacing"].

(** Whether a value holds a tuple somewhere. *)
Fixpoint has_tuple (v : pyval) : bool :=
  match v with
  | PTuple _ => true
  | PList l => existsb has_tuple l
  | PDict d => existsb (fun kv => has_tuple (snd kv)) d
  | _ => false
  end.

(** The entries of a document's 'cities' that decode to the
    configurations [good], key by key. *)
Definition decode_to (entries : list (string * pyval))
  (good : list (string * CityConfiguration)) : Prop :=
  Forall2 (fun kv kc => fst kv = fst kc /\ from_dict (snd kv) = Ok (snd kc))
    entries good.

(** A document with one good entry, Chicago, followed by a broken one. *)
Definition half_broken_document : node :=
  NMap [ ("cities",
          NMap (map (fun kc => (fst kc, represent (to_dict (snd kc))))
                  (configs StoreWording.chicago_store)
                ++ [("broken", NStr "oops")]));
         ("current_city", NStr "chicago_il") ].

(** [c] with other bounds, other demographics. *)
Definition set_bounds (b : CityBounds) (c : CityConfiguration)
  : CityConfiguration :=
  {| city_id := city_id c; display_name := display_name c; bounds := b;
     demographics := demographics c; market_data := market_data c;
     competitor_data := competitor_data c |}.

Definition set_demographics (d : CityDemographics) (c : CityConfiguration)
  : CityConfiguration :=
  {| city_id := city_id c; display_name := display_name c;
     bounds := bounds c; demographics := d; market_data := market_data c;
     competitor_data := competitor_data c |}.

(** Whether the high end of the population range of [c] lies in
    [[min_pop, max_pop]]. *)
Definition upper_in_range (min_pop max_pop : Z) (c : CityConfiguration)
  : bool :=
  match range_ends (typical_population_range (demographics c)) with
  | Some (_, b) => (min_pop <=? b) && (b <=? max_pop)
  | None => false
  end.

(** Whether a configuration whose name and id are strings matches a
    lowercased query. *)
Definition matches (query_lower : string) (c : CityConfiguration) : bool :=
  match display_name c, city_id c with
  | PStr name, PStr id =>
      contains query_lower (lower name) || contains query_lower (lower id)
  | _, _ => false
  end.

Definition chicago_row : df_row :=
  GeneratedRow "Chicago" "IL" 41.8781 (-87.6298) 2693976 "Cook".

End Reading.

(** ** [dynamic_dashboard_fixed.py]: the polling callbacks *)

Module Polling.
Import CityConfig Dashboard.

(** The digits Python prints for a number are the interpreter's:
    [format(x, '.Nf')] for a number it accepts, and [str(x)]. *)
Class Formatting : Type := {
  format_fixed : nat -> pyval -> string;
  str_of : pyval -> string
}.

(** [type(v).__name__] *)
Definition type_name (v : pyval) : string :=
  match v with
  | PNone => "NoneType"
  | PBool _ => "bool"
  | PInt _ => "int"
  | PFloat _ => "float"
  | PStr _ => "str"
  | PList _ => "list"
  | PTuple _ => "tuple"
  | PDict _ => "dict"
  end.

(** A computation inside the [try] of a callback: a value, or an
    exception with the text [str(e)] gives. *)
Inductive answer (A : Type) : Type :=
| Done (a : A)
| Failed (message : string).
Arguments Done {A} a.
Arguments Failed {A} message.

Definition and_then {A B} (c : answer A) (f : A -> answer B) : answer B :=
  match c with
  | Done a => f a
  | Failed message => Failed message
  end.

(** [v > 0] *)
Definition greater_than_zero (v : pyval) : answer bool :=
  match v with
  | PBool b => Done b
  | PInt z => Done (0 <? z)
  | PFloat f => Done (PrimFloat.ltb 0 f)
  | _ =>
      Failed ("'>' not supported between instances of '" ++ type_name v
              ++ "' and 'int'")
  end.

(** [f"{v:.Nf}"]: an integer is converted to a float first, which fails
    from [2^1024 - 2^970] on. *)
Definition fixed `{Formatting} (digits : nat) (v : pyval) : answer string :=
  match v with
  | PBool _ | PFloat _ => Done (format_fixed digits v)
  | PInt z =>
      if Z.abs z <? 2 ^ 1024 - 2 ^ 970 then Done (format_fixed digits v)
      else Failed "int too large to convert to float"
  | PStr _ => Failed "Unknown format code 'f' for object of type 'str'"
  | _ =>
      Failed ("unsupported format string passed to " ++ type_name v
              ++ ".__format__")
  end.

(** The five outputs of [update_progress_safe]. *)
Record progress_outputs : Type := {
  bar_value : pyval;
  bar_label : string;
  progress_text : string;
  interval_disabled : bool;
  main_content_shown : bool     (* style 'block' rather than 'none' *)
}.

(** The body of the [try] once a progress report is at hand. *)
Definition report_progress `{Formatting} (percent : pyval) (step : string)
  (locations total_locations eta : pyval) : answer progress_outputs :=
  let progress_text := "Step: " ++ step in
  and_then (greater_than_zero locations) (fun some_locations =>
  and_then (if some_locations then greater_than_zero total_locations
            else Done false) (fun counted =>
  let progress_text :=
    if counted
    then progress_text ++ " | Processed: " ++ str_of locations ++ "/"
         ++ str_of total_locations ++ " locations"
    else progress_text in
  and_then (greater_than_zero eta) (fun timed =>
  and_then (if timed
            then and_then (fixed 0 eta) (fun seconds =>
                   Done (progress_text ++ " | ETA: " ++ seconds ++ "s"))
            else Done progress_text) (fun progress_text =>
  and_then (fixed 1 percent) (fun label =>
  Done {| bar_value := percent;
          bar_label := label ++ "%";
          progress_text := progress_text;
          interval_disabled := false;
          main_content_shown := false |}))))).

(** [update_progress_safe]; its two arguments are not read. *)
Definition update_progress_safe `{Formatting} (n_intervals : option Z)
  (loading_trigger : option string) (a : app_state) : progress_outputs :=
  if negb (loading_in_progress a) then
    let has_data :=
      match current_city_data a with Some _ => true | None => false end in
    {| bar_value := PInt 0; bar_label := ""; progress_text := "";
       interval_disabled := true; main_content_shown := has_data |}
  else
    match loading_progress a with
    | None =>
        {| bar_value := PInt 0; bar_label := "Initializing...";
           progress_text := "Starting data collection...";
           interval_disabled := false; main_content_shown := false |}
    | Some (ProgressError error) =>
        {| bar_value := PInt 100; bar_label := "Error occurred";
           progress_text := "❌ " ++ error;
           interval_disabled := true; main_content_shown := false |}
    | Some (Progress percent step locations total_locations eta) =>
        match report_progress percent step locations total_locations eta with
        | Done out => out
        | Failed message =>
            {| bar_value := PInt 0; bar_label := "Error";
               progress_text := "Progress update error: " ++ message;
               interval_disabled := true; main_content_shown := false |}
        end
    end.

(** What [update_tab_content_safe] hands back: the notice, the page of
    one of the four tab builders for the dataset in the slot, or the
    text for an unknown tab.  The builders catch what their bodies
    raise. *)
Inductive tab_content : Type :=
| NoDataNotice
| LiveMapTab (d : city_data)
| AnalyticsTab (d : city_data)
| OpportunitiesTab (d : city_data)
| SystemTab (d : city_data)
| UnknownTab.

Definition update_tab_content_safe (active_tab : string)
  (city_id : option string) (a : app_state) : tab_content :=
  match current_city_data a, city_id with
  | None, _ | _, None => NoDataNotice
  | Some d, Some c =>
      if (c =? "")%string then NoDataNotice
      else if (active_tab =? "live-map-tab")%string then LiveMapTab d
      else if (active_tab =? "analytics-tab")%string then AnalyticsTab d
      else if (active_tab =? "opportunities-tab")%string
           then OpportunitiesTab d
      else if (active_tab =? "system-tab")%string then SystemTab d
      else UnknownTab
  end.

(** *** Auxiliary definitions used to state the callbacks' properties *)

(** The text of the exception the [try] block of the worker raises, if
    it raises one. *)
Definition exception_text (loader_available : bool) (run : collection)
  : option string :=
  if negb loader_available then Some "Data loader not available"
  else
    match result_of run with
    | Raises text => Some text
    | Returns Falsy | Returns WithoutTable =>
        Some "Invalid city data returned"
    | Returns (Data _) => None
    end.

(** A bool, an int or a float. *)
Definition is_number (v : pyval) : bool :=
  match v with
  | PBool _ | PInt _ | PFloat _ => true
  | _ => false
  end.

(** A number that [float] accepts. *)
Definition in_float_range (v : pyval) : bool :=
  match v with
  | PBool _ | PFloat _ => true
  | PInt z => Z.abs z <? 2 ^ 1024 - 2 ^ 970
  | _ => false
  end.

(** The thread [trigger_city_loading] starts for a city. *)
Definition worker_for (g : globals) (city_id : string) (force : bool)
  : worker :=
  {| worker_city_id := city_id;
     worker_force_refresh := force;
     worker_display_name := display_name_of g city_id |}.

(** *** Values to instantiate the statements *)

(** The collection reported once and then raised an exception whose
    text is "timeout". *)
Definition timed_out : collection :=
  {| reports := [ Report (PFloat 10) "Fetching" (PInt 0) (PInt 40) (PInt 30) ];
     result_of := Raises "timeout" |}.

(** A formatter that prints no digits. *)
Definition plain_formatting : Formatting :=
  {| format_fixed := fun _ _ => "0"; str_of := fun _ => "0" |}.

(** The generator of a runtime returns samples of the requested size. *)
Definition sized (R : Runtime) : Prop :=
  (forall mu sigma n g,
      List.length (fst (np_normal mu sigma n g)) = n)
  /\ (forall lo hi n g,
         List.length (fst (np_uniform lo hi n g)) = n)
  /\ (forall lo hi n g,
         List.length (fst (np_randint lo hi n g)) = n).

(** A fresh process on the counter runtime. *)
Definition counting_world : world Z :=
  {| app := initial_app_state; threads := []; rng := 0;
     now := "2025-01-01T00:00:00" |}.

(** The dataset a worker leaves in the slot. *)
Definition left_by `{Runtime} (loader_available : bool) (run : collection)
  (city_id : string) (force_refresh : bool) (display_name : pyval)
  (w : world rng_state) : option city_data :=
  current_city_data
    (app (snd (load_city_data_background_safe loader_available run city_id
                 force_refresh display_name w))).

End Polling.

(** ** [fix_attribute_errors.py]: the safe-mode dashboard

    [create_fixed_dashboard_with_safe_access] writes the text of a second
    dashboard, [dynamic_dashboard_safe.py]; the functions below are the
    functions of that text. *)

Module SafeDashboard.
Import CityConfig Dashboard Polling.

(** [Series.mean] belongs to pandas. *)
Class Frames : Type := {
  series_mean : list float -> float
}.

Record SafeConfig : Type := {
  safe_city_id : string;
  safe_display_name : pyval;
  safe_center_lat : float;
  safe_center_lon : float
}.

(** The dictionary [create_minimal_fallback] returns; the fields are its
    keys. *)
Record fallback_data : Type := {
  fallback_df : dataframe;                              (* 'df_filtered' *)
  fallback_competitors : list (string * list pyval);    (* 'competitor_data' *)
  fallback_config : SafeConfig;                         (* 'city_config' *)
  fallback_metrics : list (string * pyval);             (* 'metrics' *)
  fallback_time : string                                (* 'generation_time' *)
}.

(** What the data slot holds: the dictionary the collection returned, or
    the fallback. *)
Inductive dataset : Type :=
| Collected (d : city_data)
| Fallback (d : fallback_data).

(** The dictionary stored under ['loading_progress']. *)
Record progress_record : Type := {
  percent : pyval;
  step : string;
  eta : pyval
}.

(** [app_state] *)
Record app_state : Type := {
  current_city_data : option dataset;
  loading_progress : option progress_record;
  last_loaded_city : option string;
  loading_in_progress : bool
}.

(** A started background thread, with the arguments of its target. *)
Record worker : Type := {
  worker_city_id : string;
  worker_display_name : pyval
}.

Record world (G : Type) : Type := {
  app : app_state;
  threads : list worker;
  rng : G;
  now : string
}.
Arguments app {G} w.
Arguments threads {G} w.
Arguments rng {G} w.
Arguments now {G} w.

Definition set_app {G} (w : world G) (a : app_state) : world G :=
  {| app := a; threads := threads w; rng := rng w; now := now w |}.

(** [safe_get_config_attr(config, 'display_name', 'Unknown City')] on a
    configuration: [getattr] finds the field, and [None] gives the
    default. *)
Definition get_safe_display_name (config : CityConfiguration) : pyval :=
  match display_name config with
  | PNone => PStr "Unknown City"
  | value => value
  end.

(** *** [create_minimal_fallback] *)

Definition create_minimal_fallback `{Runtime} `{Frames} (city_id : string)
  (display_name : pyval) (w : world rng_state)
  : fallback_data * world rng_state :=
  let n_locations := 25%nat in
  let g := np_seed (py_hash city_id mod 2 ^ 32) in
  let '(latitude, g) := np_normal 40.7 0.05 n_locations g in
  let '(longitude, g) := np_normal (-74.0) 0.05 n_locations g in
  let '(predicted_revenue, g) := np_uniform 3000000 7000000 n_locations g in
  let '(median_income, g) := np_uniform 40000 90000 n_locations g in
  let '(traffic_score, g) := np_uniform 30 85 n_locations g in
  ({| fallback_df :=
        [ ("latitude", floats latitude);
          ("longitude", floats longitude);
          ("predicted_revenue", floats predicted_revenue);
          ("median_income", floats median_income);
          ("traffic_score", floats traffic_score) ];
      fallback_competitors := [];
      fallback_config :=
        {| safe_city_id := city_id;
           safe_display_name := display_name;
           safe_center_lat := series_mean latitude;
           safe_center_lon := series_mean longitude |};
      fallback_metrics := [("fallback", PBool true)];
      fallback_time := now w |},
   {| app := app w; threads := threads w; rng := g; now := now w |}).

(** *** [load_city_data_background_safe] *)

(** The nested [progress_callback]: [getattr] with a default for each of
    the three attributes. *)
Definition progress_callback {G} (w : world G) (p : progress_object)
  : world G :=
  let record :=
    match p with
    | Report percent step _ _ eta =>
        {| percent := percent; step := step; eta := eta |}
    | Unusable =>
        {| percent := PInt 50; step := "Processing..."; eta := PInt 0 |}
    end in
  set_app w {| current_city_data := current_city_data (app w);
               loading_progress := Some record;
               last_loaded_city := last_loaded_city (app w);
               loading_in_progress := loading_in_progress (app w) |}.

(** The worker: the flag is set first; whatever the [try] block raises
    (the name of the loader is not defined when its import failed) is
    answered with the fallback; [finally] clears the flag and the
    progress. *)
Definition load_city_data_background_safe `{Runtime} `{Frames}
  (loader_available : bool) (run : collection) (city_id : string)
  (display_name : pyval) (w : world rng_state) : world rng_state :=
  let w :=
    set_app w {| current_city_data := current_city_data (app w);
                 loading_progress := loading_progress (app w);
                 last_loaded_city := last_loaded_city (app w);
                 loading_in_progress := true |} in
  let w := if loader_available
           then fold_left progress_callback (reports run) w
           else w in
  let '(city_data, w) :=
    match loader_available, result_of run with
    | true, Returns (Data d) => (Collected d, w)
    | _, _ =>
        let '(d, w) := create_minimal_fallback city_id display_name w in
        (Fallback d, w)
    end in
  set_app w {| current_city_data := Some city_data;
               loading_progress := None;
               last_loaded_city := last_loaded_city (app w);
               loading_in_progress := false |}.

(** *** [handle_city_loading] *)

Inductive card : Type :=
| SelectCity
| LoaderMissing
| LoadingCard (display_name : pyval)
| LoadError.

Record outputs : Type := {
  status_cards : card;
  progress_shown : bool;
  main_content_shown : bool
}.

(** [thread_starts] tells whether [Thread.start] succeeds. *)
Definition handle_city_loading {G} (g : globals) (thread_starts : bool)
  (n_clicks : option Z) (city_id : option string) (w : world G)
  : outputs * world G :=
  let clicked :=
    match n_clicks with Some n => negb (n =? 0) | None => false end in
  let selected :=
    match city_id with
    | Some c => if (c =? "")%string then None else Some c
    | None => None
    end in
  let hidden card :=
    {| status_cards := card; progress_shown := false;
       main_content_shown := false |} in
  match selected with
  | None => (hidden SelectCity, w)
  | Some city_id =>
      if negb clicked then (hidden SelectCity, w)
      else if negb (DATA_LOADER_AVAILABLE g) then (hidden LoaderMissing, w)
      else
        let display_name :=
          if CITY_CONFIG_AVAILABLE g then
            match dict_get city_id (configs (city_manager g)) with
            | Some config => get_safe_display_name config
            | None => PStr city_id
            end
          else
            match find (fun c => (snd c =? city_id)%string)
                    (available_cities g) with
            | Some city_info => PStr (fst city_info)
            | None => PStr city_id
            end in
        if thread_starts then
          ({| status_cards := LoadingCard display_name;
              progress_shown := true; main_content_shown := false |},
           {| app := app w;
              threads :=
                threads w
                ++ [ {| worker_city_id := city_id;
                        worker_display_name := display_name |} ];
              rng := rng w;
              now := now w |})
        else (hidden LoadError, w)
  end.

(** *** [update_progress] and [show_content_when_loaded] *)

(** [update_progress] has no [try]: the answer is its three outputs, or
    the exception that leaves it.  The key 'loading_progress' is always
    present, so the default of [get] is never taken. *)
Definition update_progress `{Formatting} (n_intervals : option Z)
  (a : app_state) : answer (pyval * string * bool) :=
  if negb (loading_in_progress a) then Done (PInt 0, "", true)
  else
    match loading_progress a with
    | None => Failed "'NoneType' object has no attribute 'get'"
    | Some progress =>
        let progress_text := step progress in
        and_then (greater_than_zero (eta progress)) (fun timed =>
        and_then (if timed
                  then and_then (fixed 0 (eta progress)) (fun seconds =>
                         Done (progress_text ++ " (ETA: " ++ seconds ++ "s)"))
                  else Done progress_text) (fun progress_text =>
        Done (percent progress, progress_text, false)))
    end.

(** The answer is the style 'block'. *)
Definition show_content_when_loaded (n_intervals : option Z) (a : app_state)
  : bool :=
  match current_city_data a with
  | Some _ => negb (loading_in_progress a)
  | None => false
  end.

(** *** Values to instantiate the statements *)

Definition plain_frames : Frames := {| series_mean := fun _ => 0%float |}.

(** A load has begun and nothing was reported yet. *)
Definition just_started : app_state :=
  {| current_city_data := None;
     loading_progress := None;
     last_loaded_city := None;
     loading_in_progress := true |}.

End SafeDashboard.

(* ================================================================= *)
(** * Part II. Properties *)
(* ================================================================= *)

(** ** The generator *)

Module GeneratorSpec.
Import CityConfig GeneratorWording.

Lemma subst_chars_app f s t :
  subst_chars f (s ++ t) = subst_chars f s ++ subst_chars f t.
Proof.
  induction s as [|c s IH]; simpl; [reflexivity|].
  rewrite IH. induction (f c) as [|d u IHu]; simpl; congruence.
Qed.

Lemma prefix_single a c s :
  prefix (String a "") (String c s) = (a =? c)%char.
Proof.
  simpl. destruct (ascii_dec a c) as [->|n].
  - rewrite Ascii.eqb_refl. now destruct s.
  - symmetry. now apply Ascii.eqb_neq.
Qed.

Lemma replace_single a new s :
  replace (String a "") new s
  = subst_chars (fun c => if (a =? c)%char then new else String c "") s.
Proof.
  unfold replace. induction s as [|c s IH]; [reflexivity|].
  cbn [replace_from subst_chars String.length Nat.pred].
  rewrite prefix_single, IH. now destruct (a =? c)%char.
Qed.

Lemma chained_replace s :
  replace "." "" (replace "-" "_" (replace " " "_" s))
  = subst_chars slug_char s.
Proof.
  rewrite !replace_single.
  induction s as [|c s IH]; [reflexivity|].
  cbn [subst_chars]. rewrite !subst_chars_app, IH. f_equal.
  unfold slug_char. rewrite (Ascii.eqb_sym c " "), (Ascii.eqb_sym c "-"),
    (Ascii.eqb_sym c ".").
  destruct (Ascii.eqb_spec " " c) as [<-|]; [reflexivity|].
  cbn [subst_chars orb].
  destruct (Ascii.eqb_spec "-" c) as [<-|]; [reflexivity|].
  cbn [subst_chars append].
  destruct (Ascii.eqb_spec "." c) as [<-|]; reflexivity.
Qed.

(** C5 (as amended).  The city id is the lowercased city name in which
    every space and every hyphen is replaced by an underscore and every
    period is removed, followed by an underscore and the lowercased state
    code; "New York", "NY" gives "new_york_ny" and "St. Louis", "MO" gives
    "st_louis_mo". *)
Theorem city_id_slug :
  (forall city_name state_code,
      make_city_id city_name state_code
      = subst_chars slug_char (lower city_name) ++ "_" ++ lower state_code)
  /\ make_city_id "New York" "NY" = "new_york_ny"
  /\ make_city_id "St. Louis" "MO" = "st_louis_mo".
Proof.
  split; [|split; reflexivity].
  intros. unfold make_city_id. now rewrite chained_replace.
Qed.

(** C5 (as stated) fails: removing the spaces of "New York" gives
    "newyork_ny", which is not the id the code builds. *)
Lemma city_id_not_removal :
  ~ (forall city_name state_code,
        make_city_id city_name state_code
        = city_id_as_worded city_name state_code).
Proof.
  intros H. specialize (H "New York" "NY"). vm_compute in H. discriminate H.
Qed.

Ltac tiers :=
  repeat match goal with
         | |- context [?p >? ?k] =>
             rewrite (Z.gtb_ltb p k); destruct (Z.ltb_spec k p)
         end.

(** C4 (as amended).  The half-width follows the tier table, read from
    the highest threshold down with strict comparisons; it never decreases
    when the population grows; a population of exactly 2,000,000 is in the
    [> 1,000,000] tier, and so is 1,000,001. *)
Theorem bounds_size_table :
  forall p,
    (2000000 < p -> _calculate_bounds_size p = 0.3%float)
    /\ (1000000 < p <= 2000000 -> _calculate_bounds_size p = 0.2%float)
    /\ (500000 < p <= 1000000 -> _calculate_bounds_size p = 0.15%float)
    /\ (200000 < p <= 500000 -> _calculate_bounds_size p = 0.1%float)
    /\ (100000 < p <= 200000 -> _calculate_bounds_size p = 0.08%float)
    /\ (p <= 100000 -> _calculate_bounds_size p = 0.05%float)
    /\ (forall q, p <= q ->
          PrimFloat.leb (_calculate_bounds_size p) (_calculate_bounds_size q)
          = true)
    /\ _calculate_bounds_size 2000000 = 0.2%float
    /\ _calculate_bounds_size 1000001 = 0.2%float.
Proof.
  intros p. unfold _calculate_bounds_size.
  repeat split; try reflexivity; intros; tiers;
    first [ lia | reflexivity ].
Qed.

(** C4 (as stated) fails: the half-width is not non-increasing in the
    population; it grows from 0.05 at 50,000 to 0.3 at 3,000,000. *)
Lemma bounds_size_not_nonincreasing :
  ~ (forall p q, p <= q ->
        PrimFloat.leb (_calculate_bounds_size q) (_calculate_bounds_size p)
        = true).
Proof.
  intros H. specialize (H 50000 3000000 ltac:(lia)).
  vm_compute in H. discriminate H.
Qed.

(** C3 (as amended).  Generation succeeds on every record, whatever its
    population and coordinates: the configuration carries the slug as id,
    the coordinates as centre and the tiers of the population. *)
Theorem create_city_config_total :
  forall r smd,
    exists c,
      _create_city_config_from_data r smd = Ok c
      /\ city_id c = PStr (make_city_id (CITY r) (STATE_CODE r))
      /\ center_lat (bounds c) = PFloat (LATITUDE r)
      /\ center_lon (bounds c) = PFloat (LONGITUDE r)
      /\ demographics c = _create_demographics_for_population (POPULATION r)
      /\ competitor_data c
         = _create_competitor_data_for_population (POPULATION r).
Proof.
  intros r smd. eexists. split; [reflexivity|]. cbn. auto.
Qed.

(** C3 (as stated) fails: a record with population 0, latitude 100 and
    longitude 200 is turned into a configuration; nothing is raised. *)
Lemma invalid_record_accepted :
  ~ (forall r smd,
        invalid_as_worded r = true ->
        is_ok (_create_city_config_from_data r smd) = false).
Proof.
  intros H. specialize (H nowhere _get_state_market_data eq_refl).
  discriminate H.
Qed.

Example new_york_config :
  exists c,
    _create_city_config_from_data new_york _get_state_market_data = Ok c
    /\ city_id c = PStr "new_york_ny"
    /\ display_name c = PStr "New York, NY"
    /\ min_lat (bounds c) = PFloat 40.412800000000004
    /\ max_lat (bounds c) = PFloat 41.012799999999999
    /\ grid_spacing (bounds c) = PFloat 0.005
    /\ typical_age_range (demographics c) = PTuple [PInt 25; PInt 45]
    /\ major_universities (market_data c) = PStrs ["Columbia"; "NYU"; "Cornell"].
Proof. eexists. repeat split. Qed.

Example slug_of_hyphens : make_city_id "Winston-Salem" "NC" = "winston_salem_nc".
Proof. reflexivity. Qed.

End GeneratorSpec.

(** ** The dictionary form of a configuration *)

Module DictSpec.
Import CityConfig.

(** Induction on Python values, with the elements of the containers. *)
Lemma pyval_induction (P : pyval -> Prop) :
  P PNone ->
  (forall b, P (PBool b)) ->
  (forall z, P (PInt z)) ->
  (forall f, P (PFloat f)) ->
  (forall s, P (PStr s)) ->
  (forall l, Forall P l -> P (PList l)) ->
  (forall l, Forall P l -> P (PTuple l)) ->
  (forall d, Forall (fun kv => P (snd kv)) d -> P (PDict d)) ->
  forall v, P v.
Proof.
  intros HN HB HI HF HS HL HT HD.
  fix IH 1. intros [ | b | z | f | s | l | l | d ].
  - exact HN.
  - apply HB.
  - apply HI.
  - apply HF.
  - apply HS.
  - apply HL. induction l as [|x l IHl]; constructor; [apply IH | exact IHl].
  - apply HT. induction l as [|x l IHl]; constructor; [apply IH | exact IHl].
  - apply HD. induction d as [|x d IHd]; constructor; [apply IH | exact IHd].
Qed.

Lemma map_id_Forall {A} (f : A -> A) (l : list A) :
  Forall (fun x => f x = x) l -> map f l = l.
Proof. induction 1; simpl; congruence. Qed.

Lemma asdict_inner_copy v : _asdict_inner v = v.
Proof.
  induction v using pyval_induction; simpl; try reflexivity.
  - f_equal. now apply map_id_Forall.
  - f_equal. now apply map_id_Forall.
  - f_equal. apply map_id_Forall.
    eapply Forall_impl; [|eassumption].
    intros [k v] Hv; simpl in *. now rewrite Hv.
Qed.

(** C10.  For every configuration [c], [from_dict (to_dict c)] succeeds
    and rebuilds [c], nested bounds, demographics, market data and
    competitor data included. *)
Theorem from_dict_to_dict :
  forall c : CityConfiguration, from_dict (to_dict c) = Ok c.
Proof.
  intros [cid name [] [] [] []].
  unfold to_dict, asdict_CityBounds, asdict_CityDemographics,
    asdict_CityMarketData, asdict_CityCompetitorData.
  cbn [city_id display_name bounds demographics market_data competitor_data
       min_lat max_lat min_lon max_lon center_lat center_lon grid_spacing
       typical_population_range typical_income_range typical_age_range
       population_density_factor state_code county_name city_name_variations
       rental_api_city_name major_universities major_employers
       primary_competitor competitor_search_terms market_saturation_factor
       fast_casual_preference_score].
  rewrite !asdict_inner_copy. reflexivity.
Qed.

End DictSpec.

(** ** The configuration store *)

Module StoreSpec.
Import CityConfig StoreWording.




(** There the pointer has moved from New York to Chicago in memory, and
    nothing was written. *)
Example set_current_city_on_readonly_disk :
  current_city (generated two_cities) = PStr "new_york_ny"
  /\ set_current_city (generated two_cities) readonly_disk "chicago_il"
     = (Raise OSError,
        {| configs := configs (generated two_cities);
           current_city := PStr "chicago_il" |},
        readonly_disk).
Proof. split; reflexivity. Qed.


Example generated_two_cities :
  dict_keys (configs (generated two_cities)) = ["new_york_ny"; "chicago_il"]
  /\ current_city (generated two_cities) = PStr "new_york_ny".
Proof. split; reflexivity. Qed.

Example unknown_city_refused :
  set_current_city chicago_store writable_disk "springfield_il"
  = (Ok false, chicago_store, writable_disk).
Proof. reflexivity. Qed.

End StoreSpec.

(** ** Persistence *)

Module PersistenceSpec.
Import CityConfig StoreWording DictSpec.

(** *** Sorting the items of a dictionary *)

Lemma insert_item_perm {V} (kv : string * V) l :
  Permutation (insert_item kv l) (kv :: l).
Proof.
  induction l as [|kv' l IH]; simpl; [reflexivity|].
  destruct (String.leb _ _); [reflexivity|].
  rewrite IH. apply perm_swap.
Qed.

Lemma sort_items_perm {V} (l : list (string * V)) :
  Permutation (sort_items l) l.
Proof.
  induction l as [|kv l IH]; simpl; [constructor|].
  rewrite insert_item_perm. now constructor.
Qed.

Lemma insert_item_hd {V} (a kv : string * V) l :
  HdRel key_le a l -> key_le a kv -> HdRel key_le a (insert_item kv l).
Proof.
  intros Hl Hkv. destruct l as [|b l]; simpl; [now constructor|].
  destruct (String.leb _ _); constructor; auto.
  now inversion Hl.
Qed.

Lemma insert_item_sorted {V} (kv : string * V) l :
  Sorted key_le l -> Sorted key_le (insert_item kv l).
Proof.
  induction 1 as [|a l Hs IH Hhd]; simpl; [repeat constructor|].
  destruct (String.leb (fst kv) (fst a)) eqn:E.
  - constructor; [now constructor | now constructor].
  - constructor; [exact IH|]. apply insert_item_hd; [exact Hhd|].
    destruct (String.leb_total (fst kv) (fst a)) as [H|H];
      [congruence | exact H].
Qed.

Lemma sort_items_sorted {V} (l : list (string * V)) :
  Sorted key_le (sort_items l).
Proof.
  induction l; simpl; [constructor | now apply insert_item_sorted].
Qed.

Lemma sort_items_fixed {V} (l : list (string * V)) :
  Sorted key_le l -> sort_items l = l.
Proof.
  induction 1 as [|a l Hs IH Hhd]; simpl; [reflexivity|].
  rewrite IH. destruct Hhd as [|b l Hab]; simpl; [reflexivity|].
  unfold key_le in Hab. now rewrite Hab.
Qed.

Lemma sort_items_twice {V} (l : list (string * V)) :
  sort_items (sort_items l) = sort_items l.
Proof. apply sort_items_fixed, sort_items_sorted. Qed.

Lemma insert_item_map {V W} (f : V -> W) kv l :
  insert_item (fst kv, f (snd kv)) (map (fun x => (fst x, f (snd x))) l)
  = map (fun x => (fst x, f (snd x))) (insert_item kv l).
Proof.
  induction l as [|a l IH]; simpl; [reflexivity|].
  destruct (String.leb _ _); simpl; [reflexivity | now rewrite IH].
Qed.

Lemma sort_items_map {V W} (f : V -> W) l :
  sort_items (map (fun x => (fst x, f (snd x))) l)
  = map (fun x => (fst x, f (snd x))) (sort_items l).
Proof.
  induction l as [|a l IH]; simpl; [reflexivity|].
  now rewrite IH, insert_item_map.
Qed.

Lemma keys_map {V W} (f : V -> W) (l : list (string * V)) :
  dict_keys (map (fun x => (fst x, f (snd x))) l) = dict_keys l.
Proof. unfold dict_keys. rewrite map_map. reflexivity. Qed.

(** *** Distinct keys *)

Lemma distinct_NoDup l : distinct l = true <-> NoDup l.
Proof.
  induction l as [|k l IH]; simpl.
  - split; [constructor | reflexivity].
  - rewrite andb_true_iff, negb_true_iff, IH. split.
    + intros [Hk Hl]. constructor; [|exact Hl]. intros Hin.
      assert (existsb (String.eqb k) l = true); [|congruence].
      apply existsb_exists. exists k. split; [exact Hin|].
      apply String.eqb_refl.
    + intros H. inversion H as [|? ? Hk Hl]; subst. split; [|exact Hl].
      destruct (existsb (String.eqb k) l) eqn:E; [|reflexivity].
      apply existsb_exists in E. destruct E as (x & Hx & Ex).
      apply String.eqb_eq in Ex. subst x. contradiction.
Qed.

Lemma NoDup_sorted_keys {V} (l : list (string * V)) :
  NoDup (dict_keys l) -> NoDup (dict_keys (sort_items l)).
Proof.
  intros H. eapply Permutation_NoDup; [|exact H].
  unfold dict_keys. apply Permutation_map. symmetry. apply sort_items_perm.
Qed.

Lemma dict_set_fresh {V} k (v : V) d :
  ~ In k (dict_keys d) -> dict_set k v d = (d ++ [(k, v)])%list.
Proof.
  induction d as [|[k' v'] d IH]; simpl; [reflexivity|]. intros Hn.
  destruct (String.eqb_spec k k') as [->|Hne]; [tauto|].
  rewrite IH; tauto.
Qed.

Lemma fold_dict_set {V} (l acc : list (string * V)) :
  NoDup (dict_keys acc ++ dict_keys l)%list ->
  fold_left (fun d kv => dict_set (fst kv) (snd kv) d) l acc = (acc ++ l)%list.
Proof.
  revert acc. induction l as [|[k v] l IH]; intros acc Hnd; simpl.
  - now rewrite app_nil_r.
  - simpl in Hnd. rewrite dict_set_fresh.
    + rewrite IH.
      * now rewrite <- app_assoc.
      * unfold dict_keys in *. rewrite map_app. simpl.
        now rewrite <- app_assoc.
    + apply NoDup_remove_2 in Hnd. intros Hin. apply Hnd.
      apply in_or_app. now left.
Qed.

Lemma dict_of_items_distinct {V} (l : list (string * V)) :
  NoDup (dict_keys l) -> dict_of_items l = l.
Proof. intros H. unfold dict_of_items. now rewrite fold_dict_set. Qed.

(** *** Writing a value and reading it back *)

Lemma construct_represent v :
  valid_dicts v = true -> construct (represent v) = listify v.
Proof.
  induction v as [ | | | | | l IH | l IH | d IH] using pyval_induction;
    simpl; intros Hv; try reflexivity.
  - f_equal. rewrite map_map. apply map_ext_in. intros x Hx.
    rewrite Forall_forall in IH. apply IH; [exact Hx|].
    rewrite forallb_forall in Hv. now apply Hv.
  - f_equal. rewrite map_map. apply map_ext_in. intros x Hx.
    rewrite Forall_forall in IH. apply IH; [exact Hx|].
    rewrite forallb_forall in Hv. now apply Hv.
  - apply andb_true_iff in Hv. destruct Hv as [Hk Hd].
    apply distinct_NoDup in Hk. f_equal.
    rewrite (sort_items_map represent), map_map. cbn [fst snd].
    rewrite dict_of_items_distinct.
    + rewrite (sort_items_map listify). apply map_ext_in.
      intros [k x] Hx. cbn [fst snd]. f_equal.
      apply (Permutation_in _ (sort_items_perm d)) in Hx.
      rewrite Forall_forall in IH. apply (IH _ Hx).
      rewrite forallb_forall in Hd. now apply (Hd _ Hx).
    + rewrite (keys_map (fun x => construct (represent x))).
      now apply NoDup_sorted_keys.
Qed.

Lemma listify_twice v : listify (listify v) = listify v.
Proof.
  induction v as [ | | | | | l IH | l IH | d IH] using pyval_induction;
    simpl; try reflexivity.
  - f_equal. rewrite map_map. apply map_ext_in. intros x Hx.
    rewrite Forall_forall in IH. now apply IH.
  - f_equal. rewrite map_map. apply map_ext_in. intros x Hx.
    rewrite Forall_forall in IH. now apply IH.
  - f_equal. rewrite (sort_items_map listify), sort_items_twice.
    rewrite <- (sort_items_map listify), map_map. f_equal.
    apply map_ext_in. intros [k x] Hx. cbn [fst snd]. f_equal.
    rewrite Forall_forall in IH. now apply (IH _ Hx).
Qed.

Lemma listify_valid v : valid_dicts v = true -> valid_dicts (listify v) = true.
Proof.
  induction v as [ | | | | | l IH | l IH | d IH] using pyval_induction;
    simpl; intros Hv; try reflexivity.
  - rewrite forallb_forall in *. intros y Hy.
    apply in_map_iff in Hy. destruct Hy as (x & <- & Hx).
    rewrite Forall_forall in IH. auto.
  - rewrite forallb_forall in *. intros y Hy.
    apply in_map_iff in Hy. destruct Hy as (x & <- & Hx).
    rewrite Forall_forall in IH. auto.
  - apply andb_true_iff in Hv. destruct Hv as [Hk Hd].
    apply andb_true_iff. split.
    + apply distinct_NoDup. apply distinct_NoDup in Hk.
      apply (NoDup_sorted_keys (map (fun kv => (fst kv, listify (snd kv))) d)).
      now rewrite (keys_map listify).
    + rewrite forallb_forall in *. intros y Hy.
      apply (Permutation_in _ (sort_items_perm _)) in Hy.
      apply in_map_iff in Hy. destruct Hy as (x & <- & Hx). cbn [snd].
      rewrite Forall_forall in IH. auto.
Qed.

(** *** Writing a store and reading it back *)

Ltac split_valid :=
  repeat match goal with
         | H : _ && _ = true |- _ =>
             apply andb_true_iff in H; destruct H
         end.

Ltac expose_fields :=
  cbn [city_id display_name bounds demographics market_data competitor_data
       min_lat max_lat min_lon max_lon center_lat center_lon grid_spacing
       typical_population_range typical_income_range typical_age_range
       population_density_factor state_code county_name city_name_variations
       rental_api_city_name major_universities major_employers
       primary_competitor competitor_search_terms market_saturation_factor
       fast_casual_preference_score] in *.

Lemma from_dict_listified c :
  from_dict (listify (to_dict c)) = Ok (map_config listify c).
Proof.
  destruct c as [cid name [] [] [] []].
  unfold to_dict, asdict_CityBounds, asdict_CityDemographics,
    asdict_CityMarketData, asdict_CityCompetitorData, map_config.
  expose_fields. rewrite !asdict_inner_copy.
  repeat match goal with
         | |- context [listify ?x] =>
             is_var x; generalize (listify x); clear x; intro x
         end.
  reflexivity.
Qed.

Lemma valid_to_dict c :
  valid_config c = true -> valid_dicts (to_dict c) = true.
Proof.
  destruct c as [cid name [] [] [] []].
  unfold valid_config, fields_of, to_dict, asdict_CityBounds,
    asdict_CityDemographics, asdict_CityMarketData,
    asdict_CityCompetitorData.
  expose_fields. rewrite !asdict_inner_copy.
  cbn [forallb]. intros H. split_valid.
  cbn [valid_dicts forallb map fst snd].
  repeat match goal with
         | H : valid_dicts ?x = true |- _ => rewrite H; clear H
         end.
  reflexivity.
Qed.

Lemma valid_map_config c :
  valid_config c = true -> valid_config (map_config listify c) = true.
Proof.
  destruct c as [cid name [] [] [] []].
  unfold valid_config, fields_of, map_config. expose_fields.
  cbn [forallb]. intros H. split_valid.
  repeat match goal with
         | H : valid_dicts ?x = true |- _ =>
             apply listify_valid in H; rewrite H; clear H
         end.
  reflexivity.
Qed.

Lemma map_config_twice c :
  map_config listify (map_config listify c) = map_config listify c.
Proof.
  unfold map_config. expose_fields. now rewrite !listify_twice.
Qed.

Lemma load_cities_listified l acc :
  load_cities (map (fun kc => (fst kc, listify (to_dict (snd kc)))) l) acc
  = (Ok tt,
     fold_left (fun d kc => dict_set (fst kc) (snd kc) d)
       (map (fun kc => (fst kc, map_config listify (snd kc))) l) acc).
Proof.
  revert acc. induction l as [|[k c] l IH]; intros acc;
    cbn [map load_cities fold_left fst snd]; [reflexivity|].
  rewrite from_dict_listified. apply IH.
Qed.

Lemma read_saved m :
  valid_store m = true ->
  construct
    (represent
       (PDict [ ("current_city", current_city m);
                ("cities",
                 PDict (map (fun kc => (fst kc, to_dict (snd kc)))
                          (configs m))) ]))
  = PDict [ ("cities",
             PDict (map (fun kc => (fst kc, listify (to_dict (snd kc))))
                      (sort_items (configs m))));
            ("current_city", listify (current_city m)) ].
Proof.
  unfold valid_store. intros H. split_valid.
  rewrite construct_represent.
  - change (listify (PDict ?d)) with
      (PDict (sort_items (map (fun kv => (fst kv, listify (snd kv))) d))).
    cbn [map fst snd]. 
    change (listify (PDict ?d)) with
      (PDict (sort_items (map (fun kv => (fst kv, listify (snd kv))) d))).
    rewrite map_map. cbn [fst snd].
    rewrite (sort_items_map (fun c => listify (to_dict c))).
    reflexivity.
  - cbn [valid_dicts map fst snd forallb distinct existsb].
    rewrite map_map. cbn [fst].
    change (map (fun x : string * CityConfiguration => fst x) (configs m))
      with (dict_keys (configs m)).
    repeat (apply andb_true_iff; split); auto.
    rewrite forallb_forall.
    intros y Hy. apply in_map_iff in Hy. destruct Hy as ([k c] & <- & Hx).
    cbn [snd]. apply valid_to_dict.
    match goal with
    | H : forallb _ (configs m) = true |- _ =>
        rewrite forallb_forall in H; apply (H _ Hx)
    end.
Qed.

Lemma load_saved cities_df m fs :
  writable fs = true ->
  valid_store m = true ->
  save_then_load cities_df m fs
  = (Ok tt, reloaded m, {| config_file := saved m; writable := true |}).
Proof.
  intros Hw Hv. unfold save_then_load, save_configs. rewrite Hw.
  cbn [snd]. unfold init, load_configs, exists_file, read_yaml.
  cbn [config_file]. rewrite (read_saved m Hv).
  unfold load_document. cbn [truthy negb contains_cities subscript].
  change (dict_mem "cities" ?d) with true.
  change (dict_item "cities" (("cities", ?v) :: ?d)) with (Ok v).
  cbn iota. rewrite load_cities_listified.
  unfold valid_store in Hv. split_valid.
  cbn [configs].
  match goal with
  | |- context [fold_left ?f ?l []] =>
      change (fold_left f l []) with (dict_of_items l)
  end.
  rewrite dict_of_items_distinct.
  - unfold reloaded, saved.
    now rewrite (sort_items_map (map_config listify)).
  - rewrite (keys_map (map_config listify)).
    apply NoDup_sorted_keys. now apply distinct_NoDup.
Qed.

Lemma reloaded_valid m :
  valid_store m = true -> valid_store (reloaded m) = true.
Proof.
  unfold valid_store, reloaded. cbn [configs current_city].
  intros H. split_valid.
  repeat (apply andb_true_iff; split).
  - apply distinct_NoDup, NoDup_sorted_keys.
    rewrite (keys_map (map_config listify)). now apply distinct_NoDup.
  - rewrite forallb_forall in *. intros y Hy.
    apply (Permutation_in _ (sort_items_perm _)) in Hy.
    apply in_map_iff in Hy. destruct Hy as (x & <- & Hx). cbn [snd].
    apply valid_map_config. auto.
  - now apply listify_valid.
Qed.

Lemma reloaded_twice m : reloaded (reloaded m) = reloaded m.
Proof.
  unfold reloaded. cbn [configs current_city]. rewrite listify_twice.
  f_equal.
  rewrite (sort_items_map (map_config listify)), sort_items_twice.
  rewrite <- (sort_items_map (map_config listify)), map_map. f_equal.
  apply map_ext. intros [k c]. cbn [fst snd]. now rewrite map_config_twice.
Qed.

(** C9 (as amended).  A store saved and loaded again is the store in
    which every tuple has become the list of the same elements and the
    configurations come in the order of their ids: a range [(a, b)] comes
    back as the two-element list [[a, b]], numbers and strings come back
    unchanged; saving and loading the result once more gives the same
    store again. *)
Theorem save_load_roundtrip :
  forall cities_df m fs,
    writable fs = true ->
    valid_store m = true ->
    exists fs1 fs2,
      save_then_load cities_df m fs = (Ok tt, reloaded m, fs1)
      /\ save_then_load cities_df (reloaded m) fs1
         = (Ok tt, reloaded m, fs2)
      /\ (forall k c, In (k, c) (configs m) ->
            In (k, map_config listify c) (configs (reloaded m)))
      /\ (forall a b,
            listify (PTuple [a; b]) = PList [listify a; listify b])
      /\ (forall z, listify (PInt z) = PInt z)
      /\ (forall f, listify (PFloat f) = PFloat f)
      /\ (forall s, listify (PStr s) = PStr s).
Proof.
  intros cities_df m fs Hw Hv.
  exists {| config_file := saved m; writable := true |},
         {| config_file := saved (reloaded m); writable := true |}.
  split; [apply (load_saved cities_df m fs Hw Hv)|].
  split.
  - rewrite (load_saved cities_df (reloaded m)
               {| config_file := saved m; writable := true |} eq_refl
               (reloaded_valid m Hv)).
    now rewrite reloaded_twice.
  - repeat split; try reflexivity.
    intros k c Hin. unfold reloaded. cbn [configs].
    apply (Permutation_in _ (Permutation_sym (sort_items_perm _))).
    apply in_map_iff. now exists (k, c).
Qed.

Lemma save_load_roundtrip_example :
  exists fs1 fs2,
    save_then_load two_cities chicago_store writable_disk
    = (Ok tt, reloaded chicago_store, fs1)
    /\ save_then_load two_cities (reloaded chicago_store) fs1
       = (Ok tt, reloaded chicago_store, fs2)
    /\ (forall k c, In (k, c) (configs chicago_store) ->
          In (k, map_config listify c) (configs (reloaded chicago_store)))
    /\ (forall a b, listify (PTuple [a; b]) = PList [listify a; listify b])
    /\ (forall z, listify (PInt z) = PInt z)
    /\ (forall f, listify (PFloat f) = PFloat f)
    /\ (forall s, listify (PStr s) = PStr s).
Proof.
  exact (save_load_roundtrip two_cities chicago_store writable_disk
           eq_refl eq_refl).
Defined.

(** C9 (as stated) fails: the store read back is not identical to the
    store saved; the ranges of Chicago, saved as the tuples
    [(10000, 50000)], [(50000, 120000)] and [(25, 45)], come back as
    lists. *)
Lemma roundtrip_not_identical :
  ~ (forall cities_df m fs,
        writable fs = true ->
        valid_store m = true ->
        exists fs', save_then_load cities_df m fs = (Ok tt, m, fs')).
Proof.
  intros H.
  destruct (H two_cities chicago_store writable_disk eq_refl eq_refl)
    as [fs' E].
  vm_compute in E. discriminate E.
Qed.

Example chicago_ranges_reloaded :
  map (fun kc => typical_population_range (demographics (snd kc)))
    (configs chicago_store)
  = [PTuple [PInt 10000; PInt 50000]]
  /\ map (fun kc => typical_population_range (demographics (snd kc)))
       (configs (reloaded chicago_store))
     = [PList [PInt 10000; PInt 50000]].
Proof. split; reflexivity. Qed.

End PersistenceSpec.

(** ** The constructor of the store *)

Module ConstructorSpec.
Import CityConfig StoreWording Reading.








(** The document of Chicago followed by a broken entry is such a file:
    Chicago, as read from the file, stays in front of the generated
    cities. *)
Example bad_entry_is_not_absent :
  let fs := {| config_file := Document half_broken_document;
               writable := true |} in
  dict_keys (configs (snd (fst (init two_cities fs))))
  = ["chicago_il"; "new_york_ny"]
  /\ dict_keys (configs (generated two_cities))
     = ["new_york_ny"; "chicago_il"].
Proof. split; vm_compute; reflexivity. Qed.

End ConstructorSpec.

(** ** The load orchestrator *)

Module DashboardSpec.
Import CityConfig StoreWording Dashboard DashboardWording.


Lemma progress_keeps_data {G} (rs : list progress_object) (w : world G) :
  current_city_data (app (fold_left progress_callback rs w))
  = current_city_data (app w).
Proof.
  revert w. induction rs as [|p rs IH]; intros w; simpl; [reflexivity|].
  now rewrite IH.
Qed.



Lemma synthetic_app `{Runtime} cid dn (w : world rng_state) :
  app (snd (create_synthetic_city_data cid dn w)) = app w.
Proof.
  unfold create_synthetic_city_data.
  now destruct (draw_locations _) as [[[lats lons] df] g].
Qed.


(** C2 (as amended).  While a load of a city is in progress, a request
    for the same city without force refresh is ignored (no worker is
    started, nothing is queued, the process is unchanged) when the data
    slot already holds a dataset; when the slot is still empty, the test
    lets the request through and one more worker is started. *)
Theorem repeated_request_condition :
  forall G (g : globals) thread_starts spinner_builds cid refresh_clicks
         test_clicks current_trigger triggered (w : world G),
    loading_in_progress (app w) = true ->
    last_loaded_city (app w) = Some cid ->
    forced triggered refresh_clicks = false ->
    let w' :=
      snd (trigger_city_loading g thread_starts spinner_builds (Some cid)
             refresh_clicks test_clicks current_trigger triggered w) in
    (current_city_data (app w) <> None -> w' = w)
    /\ (current_city_data (app w) = None ->
        cid <> "" ->
        DATA_LOADER_AVAILABLE g = true ->
        thread_starts = true ->
        option_map before_dot triggered <> Some "test-btn" ->
        threads w'
        = (threads w
           ++ [ {| worker_city_id := cid;
                   worker_force_refresh := false;
                   worker_display_name := display_name_of g cid |} ])%list).
Proof.
  intros G g ts sb cid rc tc ct trig w Hload Hlast Hforced.
  unfold forced in Hforced. unfold trigger_city_loading. cbv zeta.
  destruct (option_map before_dot trig) as [t|] eqn:Htrig.
  - destruct (String.eqb_spec t "test-btn") as [->|Htest].
    + split; [reflexivity | intros; congruence].
    + destruct (String.eqb_spec cid "") as [->|Hcid].
      * split; [reflexivity | intros; congruence].
      * rewrite Hlast, Hforced, String.eqb_refl. cbn [negb orb].
        split.
        -- intros Hdata. destruct (negb (DATA_LOADER_AVAILABLE g));
             [reflexivity|].
           destruct (current_city_data (app w)); [reflexivity | congruence].
        -- intros Hdata _ Hloader Hts _. rewrite Hdata, Hloader, Hts.
           reflexivity.
  - cbn [andb] in *. destruct (String.eqb_spec cid "") as [->|Hcid].
    + split; [reflexivity | intros; congruence].
    + rewrite Hlast, String.eqb_refl. cbn [negb orb].
      split.
      * intros Hdata. destruct (negb (DATA_LOADER_AVAILABLE g));
          [reflexivity|].
        destruct (current_city_data (app w)); [reflexivity | congruence].
      * intros Hdata _ Hloader Hts _. rewrite Hdata, Hloader, Hts.
        reflexivity.
Qed.

Lemma repeated_request_example :
  let w' :=
    snd (trigger_city_loading demo_globals true false (Some "chicago_il")
           None None None (Some "city-selector.value") refreshing_world) in
  (current_city_data (app refreshing_world) <> None -> w' = refreshing_world)
  /\ (current_city_data (app refreshing_world) = None ->
      "chicago_il" <> "" ->
      DATA_LOADER_AVAILABLE demo_globals = true ->
      true = true ->
      option_map before_dot (Some "city-selector.value") <> Some "test-btn" ->
      threads w'
      = (threads refreshing_world
         ++ [ {| worker_city_id := "chicago_il";
                 worker_force_refresh := false;
                 worker_display_name :=
                   display_name_of demo_globals "chicago_il" |} ])%list).
Proof.
  exact (repeated_request_condition unit demo_globals true false "chicago_il"
           None None None (Some "city-selector.value") refreshing_world
           eq_refl eq_refl eq_refl).
Defined.

(** C2 (as stated) fails: after the first selection of Chicago the load
    is in progress and the slot is empty; selecting Chicago again, without
    force refresh, starts a second worker. *)
Lemma second_worker_started :
  ~ (forall G (g : globals) thread_starts spinner_builds cid refresh_clicks
            test_clicks current_trigger triggered (w : world G),
        loading_in_progress (app w) = true ->
        last_loaded_city (app w) = Some cid ->
        forced triggered refresh_clicks = false ->
        threads
          (snd (trigger_city_loading g thread_starts spinner_builds
                  (Some cid) refresh_clicks test_clicks current_trigger
                  triggered w))
        = threads w).
Proof.
  intros H.
  specialize (H unit demo_globals true false "chicago_il" None None None
                (Some "city-selector.value") first_request
                eq_refl eq_refl eq_refl).
  vm_compute in H. discriminate H.
Qed.

Example first_request_state :
  loading_in_progress (app first_request) = true
  /\ last_loaded_city (app first_request) = Some "chicago_il"
  /\ current_city_data (app first_request) = None
  /\ threads first_request
     = [ {| worker_city_id := "chicago_il";
            worker_force_refresh := false;
            worker_display_name := PStr "Chicago, IL" |} ].
Proof. repeat split. Qed.

End DashboardSpec.

(** * Part III. Further properties of the code *)

(** ** The tiers of the generator *)

Module TierProps.
Import CityConfig Reading.

Ltac tiers :=
  repeat match goal with
         | |- context [?p >? ?k] =>
             rewrite (Z.gtb_ltb p k); destruct (Z.ltb_spec k p)
         end.

(** X1.  Whatever the population, the demographics hold three ranges
    that are pairs of integers with the low end below the high end and a
    positive density factor; when the population grows, both ends of the
    population and income ranges and the density factor never decrease,
    the low end of the age range is 25 for every population and its high
    end never increases. *)
Theorem demographics_ranges :
  forall p,
    let d := _create_demographics_for_population p in
    (exists a b c e f g,
        range_ends (typical_population_range d) = Some (a, b)
        /\ range_ends (typical_income_range d) = Some (c, e)
        /\ range_ends (typical_age_range d) = Some (f, g)
        /\ 0 < a < b /\ 0 < c < e /\ f = 25 /\ 25 < g
        /\ PrimFloat.ltb 0 (float_of (population_density_factor d)) = true)
    /\ (forall q, p <= q ->
          let d' := _create_demographics_for_population q in
          forall a b c e f g a' b' c' e' f' g',
            range_ends (typical_population_range d) = Some (a, b) ->
            range_ends (typical_income_range d) = Some (c, e) ->
            range_ends (typical_age_range d) = Some (f, g) ->
            range_ends (typical_population_range d') = Some (a', b') ->
            range_ends (typical_income_range d') = Some (c', e') ->
            range_ends (typical_age_range d') = Some (f', g') ->
            a <= a' /\ b <= b' /\ c <= c' /\ e <= e'
            /\ f = 25 /\ f' = 25 /\ g' <= g
            /\ PrimFloat.leb (float_of (population_density_factor d))
                 (float_of (population_density_factor d')) = true).
Proof.
  intros p. unfold _create_demographics_for_population. split.
  - tiers; cbn; do 6 eexists; repeat split; reflexivity || lia.
  - intros q Hpq. cbv zeta. tiers; try lia; cbn;
      intros a b c e f g a' b' c' e' f' g' E1 E2 E3 E4 E5 E6;
      injection E1 as <- <-; injection E2 as <- <-; injection E3 as <- <-;
      injection E4 as <- <-; injection E5 as <- <-; injection E6 as <- <-;
      repeat split; reflexivity || lia.
Qed.

(** X2.  Whatever the population, the primary competitor is
    "chick-fil-a", which is never among the search terms; the search
    terms start with the five first base competitors; the two market
    factors lie in [0, 1]; when the population grows, the search terms of
    the smaller city are a prefix of those of the larger one and the two
    factors never decrease. *)
Theorem competitor_tiers :
  forall p,
    let c := _create_competitor_data_for_population p in
    primary_competitor c = PStr "chick-fil-a"
    /\ ~ In "chick-fil-a" (strings_of (competitor_search_terms c))
    /\ competitor_search_terms c
       = PStrs (strings_of (competitor_search_terms c))
    /\ firstn 5 (strings_of (competitor_search_terms c))
       = ["mcdonalds"; "kfc"; "taco-bell"; "burger-king"; "subway"]
    /\ PrimFloat.leb 0 (float_of (market_saturation_factor c)) = true
    /\ PrimFloat.leb (float_of (market_saturation_factor c)) 1 = true
    /\ PrimFloat.leb 0 (float_of (fast_casual_preference_score c)) = true
    /\ PrimFloat.leb (float_of (fast_casual_preference_score c)) 1 = true
    /\ (forall q, p <= q ->
          let c' := _create_competitor_data_for_population q in
          (exists more,
              strings_of (competitor_search_terms c')
              = (strings_of (competitor_search_terms c) ++ more)%list)
          /\ PrimFloat.leb (float_of (market_saturation_factor c))
               (float_of (market_saturation_factor c')) = true
          /\ PrimFloat.leb (float_of (fast_casual_preference_score c))
               (float_of (fast_casual_preference_score c')) = true).
Proof.
  intros p. unfold _create_competitor_data_for_population. cbv zeta.
  tiers; cbn.
  all: split; [reflexivity|].
  all: split;
    [intros Hin; repeat (destruct Hin as [Hin|Hin]; [discriminate Hin|]);
     exact Hin|].
  all: do 6 (split; [reflexivity|]).
  all: intros q Hpq; tiers; try lia; cbn.
  all: split; [eexists; reflexivity | split; reflexivity].
Qed.

End TierProps.

(** ** The city id *)

Module IdProps.
Import CityConfig GeneratorWording Reading.

Lemma lower_char_not_upper c : is_upper (lower_char c) = false.
Proof.
  destruct c as [b0 b1 b2 b3 b4 b5 b6 b7].
  destruct b0, b1, b2, b3, b4, b5, b6, b7; reflexivity.
Qed.

Lemma lower_char_twice c : lower_char (lower_char c) = lower_char c.
Proof.
  unfold lower_char at 1. now rewrite lower_char_not_upper.
Qed.

Lemma lower_twice s : lower (lower s) = lower s.
Proof.
  induction s as [|c s IH]; simpl; [reflexivity|].
  now rewrite lower_char_twice, IH.
Qed.

Lemma chars_app s t : chars (s ++ t) = (chars s ++ chars t)%list.
Proof.
  unfold chars. induction s as [|c s IH]; simpl; [reflexivity|].
  now rewrite IH.
Qed.

Lemma chars_lower c s : In c (chars (lower s)) -> is_upper c = false.
Proof.
  unfold chars. induction s as [|a s IH]; simpl; [tauto|].
  intros [<-|H]; [apply lower_char_not_upper | now apply IH].
Qed.

Lemma chars_slug c s :
  In c (chars (subst_chars slug_char s)) ->
  c <> " "%char /\ c <> "-"%char /\ c <> "."%char
  /\ (c = "_"%char \/ In c (chars s)).
Proof.
  induction s as [|a s IH]; cbn [subst_chars]; [simpl; tauto|].
  rewrite chars_app. intros H. apply in_app_or in H.
  destruct H as [H|H].
  - unfold slug_char in H.
    destruct (Ascii.eqb_spec a " ") as [->|Hs]; cbn [orb] in H.
    { destruct H as [<-|[]]. repeat split; try discriminate. now left. }
    destruct (Ascii.eqb_spec a "-") as [->|Hh]; cbn [orb] in H.
    { destruct H as [<-|[]]. repeat split; try discriminate. now left. }
    destruct (Ascii.eqb_spec a ".") as [->|Hd].
    { destruct H. }
    destruct H as [<-|[]]. repeat split; auto. right. now left.
  - destruct (IH H) as (H1 & H2 & H3 & H4). repeat split; auto.
    destruct H4 as [H4|H4]; [now left | right; now right].
Qed.

(** X3.  The part of a city id made from the name contains no space, no
    hyphen, no period and no upper-case letter, whatever the name; the
    whole id contains no upper-case letter; and the id does not depend on
    the case of the name and of the state code. *)
Theorem city_id_normal_form :
  forall city_name state,
    make_city_id city_name state = name_slug city_name ++ "_" ++ lower state
    /\ (forall c, In c (chars (name_slug city_name)) ->
          c <> " "%char /\ c <> "-"%char /\ c <> "."%char
          /\ is_upper c = false)
    /\ (forall c, In c (chars (make_city_id city_name state)) ->
          is_upper c = false)
    /\ make_city_id (lower city_name) (lower state)
       = make_city_id city_name state.
Proof.
  intros name st.
  assert (Hslug : forall c, In c (chars (name_slug name)) ->
            c <> " "%char /\ c <> "-"%char /\ c <> "."%char
            /\ is_upper c = false).
  { intros c Hc. unfold name_slug in Hc.
    rewrite GeneratorSpec.chained_replace in Hc.
    destruct (chars_slug c _ Hc) as (H1 & H2 & H3 & [->|H4]).
    - repeat split; auto.
    - repeat split; auto. eapply chars_lower; eassumption. }
  split; [reflexivity|]. split; [exact Hslug|]. split.
  - intros c Hc.
    change (make_city_id name st)
      with (name_slug name ++ "_" ++ lower st) in Hc.
    rewrite !chars_app in Hc. apply in_app_or in Hc.
    destruct Hc as [Hc|Hc]; [now apply Hslug|].
    apply in_app_or in Hc. destruct Hc as [[<-|[]]|Hc]; [reflexivity|].
    eapply chars_lower; eassumption.
  - unfold make_city_id. now rewrite !lower_twice.
Qed.

End IdProps.

(** ** The generated store *)

Module StoreProps.
Import CityConfig StoreWording Queries Reading.

(** *** Dictionaries *)

Lemma dict_get_set_same {V} k (v : V) d : dict_get k (dict_set k v d) = Some v.
Proof.
  induction d as [|[k' v'] d IH]; simpl.
  - now rewrite String.eqb_refl.
  - destruct (String.eqb_spec k k') as [->|Hne]; simpl.
    + now rewrite String.eqb_refl.
    + apply String.eqb_neq in Hne. now rewrite Hne.
Qed.

Lemma dict_get_set_other {V} k k' (v : V) d :
  k <> k' -> dict_get k (dict_set k' v d) = dict_get k d.
Proof.
  intros Hne. induction d as [|[k0 v0] d IH]; simpl.
  - apply String.eqb_neq in Hne. now rewrite Hne.
  - destruct (String.eqb_spec k' k0) as [->|Hne0]; simpl.
    + apply String.eqb_neq in Hne. now rewrite Hne.
    + now rewrite IH.
Qed.

Lemma in_dict_set {V} k (v : V) d kv :
  In kv (dict_set k v d) -> kv = (k, v) \/ In kv d.
Proof.
  induction d as [|[k' v'] d IH]; simpl.
  - intros [<-|[]]. now left.
  - destruct (String.eqb_spec k k') as [->|Hne]; simpl.
    + intros [<-|H]; auto.
    + intros [<-|H]; auto. destruct (IH H); auto.
Qed.

Lemma keys_dict_set {V} k (v : V) d x :
  In x (dict_keys (dict_set k v d)) -> x = k \/ In x (dict_keys d).
Proof.
  unfold dict_keys. intros H. apply in_map_iff in H.
  destruct H as (kv & <- & Hkv). apply in_dict_set in Hkv.
  destruct Hkv as [->|Hkv]; [now left|]. right. now apply in_map.
Qed.

Lemma NoDup_dict_set {V} k (v : V) d :
  NoDup (dict_keys d) -> NoDup (dict_keys (dict_set k v d)).
Proof.
  induction d as [|[k' v'] d IH]; simpl; intros H.
  - repeat constructor. simpl. tauto.
  - inversion H as [|? ? Hk Hd]; subst.
    destruct (String.eqb_spec k k') as [->|Hne]; simpl.
    + now constructor.
    + constructor; [|now apply IH]. intros Hin.
      apply keys_dict_set in Hin. destruct Hin; [congruence | contradiction].
Qed.

Lemma length_dict_set {V} k (v : V) d :
  (List.length (dict_set k v d) <= S (List.length d))%nat.
Proof.
  induction d as [|[k' v'] d IH]; simpl; [lia|].
  destruct (k =? k')%string; simpl; lia.
Qed.

Lemma dict_get_In {V} k (v : V) d : dict_get k d = Some v -> In (k, v) d.
Proof.
  induction d as [|[k' v'] d IH]; simpl; [discriminate|].
  destruct (String.eqb_spec k k') as [->|Hne].
  - intros [= ->]. now left.
  - intros H. right. now apply IH.
Qed.

Lemma dict_get_keys {V} k (d : list (string * V)) :
  In k (dict_keys d) -> exists v, dict_get k d = Some v.
Proof.
  induction d as [|[k' v'] d IH]; simpl; [tauto|].
  destruct (String.eqb_spec k k') as [->|Hne]; [eauto|].
  intros [H|H]; [congruence | now apply IH].
Qed.

(** *** What a row contributes *)

Lemma valid_strs l : forallb valid_dicts (map PStr l) = true.
Proof. induction l; simpl; auto. Qed.

Lemma row_config row :
  exists c,
    config_of_row row = Some c
    /\ city_id c = PStr (slug_of_row row)
    /\ display_name c
       = PStr (CITY (to_city_series row) ++ ", "
               ++ STATE_CODE (to_city_series row))
    /\ valid_config c = true
    /\ forall cfgs,
         add_city _get_state_market_data cfgs row
         = dict_set (slug_of_row row) c cfgs.
Proof.
  unfold config_of_row, add_city, _create_city_config_from_data, key_of,
    slug_of_row.
  cbn [city_id]. eexists. split; [reflexivity|].
  split; [reflexivity|]. split; [reflexivity|]. split; [|reflexivity].
  unfold valid_config, fields_of, _create_demographics_for_population,
    _create_competitor_data_for_population, PStrs.
  destruct (POPULATION (to_city_series row) >? 1000000),
    (POPULATION (to_city_series row) >? 500000),
    (POPULATION (to_city_series row) >? 200000);
    cbn [forallb andb valid_dicts city_id display_name bounds demographics
         market_data competitor_data min_lat max_lat min_lon max_lon
         center_lat center_lon grid_spacing typical_population_range
         typical_income_range typical_age_range population_density_factor
         state_code county_name city_name_variations rental_api_city_name
         major_universities major_employers primary_competitor
         competitor_search_terms market_saturation_factor
         fast_casual_preference_score int_pair];
    rewrite !valid_strs; reflexivity.
Qed.

Lemma fold_add_city rows :
  forall all acc,
    incl rows all ->
    NoDup (dict_keys acc) -> Forall (from_rows all) acc ->
    let cfgs := fold_left (add_city _get_state_market_data) rows acc in
    NoDup (dict_keys cfgs) /\ Forall (from_rows all) cfgs
    /\ (List.length cfgs <= List.length acc + List.length rows)%nat
    /\ (forall k, In k (dict_keys acc) -> In k (dict_keys cfgs))
    /\ (forall row, In row rows -> In (slug_of_row row) (dict_keys cfgs)).
Proof.
  induction rows as [|row rows IH]; intros all acc Hincl Hnd Hall; cbn zeta.
  - simpl. repeat split; auto; try lia; try tauto.
  - cbn [fold_left].
    destruct (row_config row) as (c & Hc & Hid & _ & Hv & Hadd).
    rewrite Hadd.
    assert (Hrow : In row all) by (apply Hincl; now left).
    assert (Hincl' : incl rows all)
      by (intros x Hx; apply Hincl; now right).
    assert (Hnd' : NoDup (dict_keys (dict_set (slug_of_row row) c acc)))
      by now apply NoDup_dict_set.
    assert (Hall' : Forall (from_rows all)
                      (dict_set (slug_of_row row) c acc)).
    { apply Forall_forall. intros kv Hkv. apply in_dict_set in Hkv.
      destruct Hkv as [->|Hkv].
      - repeat split; auto. exists row. auto.
      - rewrite Forall_forall in Hall. now apply Hall. }
    destruct (IH all _ Hincl' Hnd' Hall') as (H1 & H2 & H3 & H4 & H5).
    repeat split; auto.
    + pose proof (length_dict_set (slug_of_row row) c acc). simpl. lia.
    + intros k Hk. apply H4.
      destruct (string_dec k (slug_of_row row)) as [->|Hne].
      * destruct (dict_get_keys (slug_of_row row)
                    (dict_set (slug_of_row row) c acc)) as [v Hv'].
        -- unfold dict_keys.
           apply (in_map fst _ (slug_of_row row, c)).
           apply dict_get_In. apply dict_get_set_same.
        -- apply dict_get_In in Hv'.
           apply (in_map fst) in Hv'. exact Hv'.
      * destruct (dict_get_keys k acc Hk) as [v Hv'].
        apply (in_map fst _ (k, v)). apply dict_get_In.
        now rewrite dict_get_set_other.
    + intros r [<-|Hr]; [|now apply H5].
      apply H4. apply (in_map fst _ (slug_of_row row, c)).
      apply dict_get_In. apply dict_get_set_same.
Qed.

Lemma generated_facts cities_df :
  NoDup (dict_keys (configs (generated cities_df)))
  /\ Forall (from_rows cities_df) (configs (generated cities_df))
  /\ (List.length (configs (generated cities_df))
      <= List.length cities_df)%nat
  /\ (forall row, In row cities_df ->
        In (slug_of_row row) (dict_keys (configs (generated cities_df)))).
Proof.
  destruct (fold_add_city cities_df cities_df [] (incl_refl _)
              (NoDup_nil _) (Forall_nil _)) as (H1 & H2 & H3 & _ & H5).
  unfold generated. cbn [configs]. repeat split; auto.
Qed.

Lemma generated_valid cities_df : valid_store (generated cities_df) = true.
Proof.
  destruct (generated_facts cities_df) as (Hnd & Hall & _).
  unfold valid_store. repeat (apply andb_true_iff; split).
  - now apply PersistenceSpec.distinct_NoDup.
  - apply forallb_forall. intros kc Hkc.
    rewrite Forall_forall in Hall. now destruct (Hall kc Hkc) as (_ & Hv & _).
  - unfold generated. cbn [current_city].
    now destruct (fold_left _ cities_df []) as [|[k c] l].
Qed.

(** X4.  The store generated from a table has distinct ids; every
    configuration in it is stored under its own [city_id] and is the
    configuration of a row of the table with that id; there are at most
    as many configurations as rows; when the store is not empty its
    current city is its first id, and when the table is empty the store
    is empty with no current city. *)
Theorem generated_store_invariants :
  forall cities_df,
    let m := generated cities_df in
    NoDup (list_cities m)
    /\ (forall k c, In (k, c) (configs m) ->
          city_id c = PStr k
          /\ exists row,
               In row cities_df /\ config_of_row row = Some c
               /\ slug_of_row row = k)
    /\ (List.length (configs m) <= List.length cities_df)%nat
    /\ (forall row rows, cities_df = row :: rows ->
          exists k rest,
            list_cities m = k :: rest /\ current_city m = PStr k)
    /\ (cities_df = [] -> m = {| configs := []; current_city := PNone |}).
Proof.
  intros cities_df.
  destruct (generated_facts cities_df) as (Hnd & Hall & Hlen & Hrows).
  cbn zeta. repeat split; auto.
  - rewrite Forall_forall in Hall. now destruct (Hall (k, c) H) as (? & _).
  - rewrite Forall_forall in Hall. now destruct (Hall (k, c) H) as (_ & _ & ?).
  - intros row rows ->.
    specialize (Hrows row (or_introl eq_refl)).
    unfold list_cities, generated in *. cbn [configs current_city] in *.
    destruct (fold_left _ (row :: rows) []) as [|[k c] l]; [destruct Hrows|].
    exists k, (dict_keys l). split; reflexivity.
  - intros ->. reflexivity.
Qed.

(** *** Looking a city up *)

Lemma fold_add_city_get rows :
  forall acc k,
    (forall r, In r rows -> slug_of_row r <> k) ->
    dict_get k (fold_left (add_city _get_state_market_data) rows acc)
    = dict_get k acc.
Proof.
  induction rows as [|row rows IH]; intros acc k Hk; cbn [fold_left];
    [reflexivity|].
  rewrite IH by (intros r Hr; apply Hk; now right).
  destruct (row_config row) as (c & _ & _ & _ & _ & Hadd). rewrite Hadd.
  apply dict_get_set_other. intros ->. apply (Hk row); [now left | reflexivity].
Qed.

(** X5.  Every row of the table can be looked up by its id in the
    generated store; when several rows have the same id, the
    configuration of the last one is the one stored; an id that no row
    has is absent. *)
Theorem lookup_in_generated_store :
  forall cities_df,
    (forall row, In row cities_df ->
        exists c,
          get_config (generated cities_df) (slug_of_row row) = Some c
          /\ city_id c = PStr (slug_of_row row))
    /\ (forall before row after,
           cities_df = (before ++ row :: after)%list ->
           (forall r, In r after -> slug_of_row r <> slug_of_row row) ->
           get_config (generated cities_df) (slug_of_row row)
           = config_of_row row)
    /\ (forall k,
           (forall row, In row cities_df -> slug_of_row row <> k) ->
           get_config (generated cities_df) k = None).
Proof.
  intros cities_df.
  destruct (generated_facts cities_df) as (Hnd & Hall & _ & Hrows).
  unfold get_config. repeat split.
  - intros row Hrow.
    destruct (dict_get_keys _ _ (Hrows row Hrow)) as [c Hc].
    exists c. split; [exact Hc|].
    apply dict_get_In in Hc. rewrite Forall_forall in Hall.
    now destruct (Hall _ Hc) as (? & _).
  - intros before row after -> Hafter.
    unfold generated. cbn [configs]. rewrite fold_left_app.
    cbn [fold_left]. rewrite fold_add_city_get by exact Hafter.
    destruct (row_config row) as (c & Hc & _ & _ & _ & Hadd).
    rewrite Hadd, Hc. apply dict_get_set_same.
  - intros k Hk. unfold generated. cbn [configs].
    now rewrite fold_add_city_get.
Qed.

(** *** Constructing a manager twice *)

Lemma init_on_empty_location cities_df :
  init cities_df (empty_location true)
  = (Ok tt, generated cities_df,
     {| config_file := saved (generated cities_df); writable := true |}).
Proof.
  unfold init, load_configs, empty_location, generated,
    _generate_usa_city_configs, save_configs, saved. cbn.
  now destruct (fold_left _ cities_df []) as [|[k c] l].
Qed.

(** X6.  On a location without a file that can be written, the first
    construction generates the store from the table and saves it; any
    later construction, whatever table it is given, reads that file: it
    gets the generated store with every tuple turned into a list and the
    cities in the order of their ids, and does not write the file. *)
Theorem second_construction_reads_the_file :
  forall cities_df later_cities_df,
    init cities_df (empty_location true)
    = (Ok tt, generated cities_df,
       {| config_file := saved (generated cities_df); writable := true |})
    /\ init later_cities_df
         {| config_file := saved (generated cities_df); writable := true |}
       = (Ok tt, reloaded (generated cities_df),
          {| config_file := saved (generated cities_df);
             writable := true |}).
Proof.
  intros cities_df later. split; [apply init_on_empty_location|].
  apply (PersistenceSpec.load_saved later (generated cities_df)
           (empty_location true) eq_refl (generated_valid cities_df)).
Qed.

(** *** The current city *)


Lemma first_key_kept {V} k (v : V) k0 v0 d :
  exists v1 d', dict_set k v ((k0, v0) :: d) = (k0, v1) :: d'.
Proof.
  simpl. destruct (String.eqb_spec k k0) as [->|Hne]; eauto.
Qed.

Lemma first_key_of_fold rows :
  forall k0 v0 d,
    exists v1 d',
      fold_left (add_city _get_state_market_data) rows ((k0, v0) :: d)
      = (k0, v1) :: d'.
Proof.
  induction rows as [|row rows IH]; intros k0 v0 d; cbn [fold_left];
    [eauto|].
  destruct (row_config row) as (c & _ & _ & _ & _ & Hadd). rewrite Hadd.
  destruct (first_key_kept (slug_of_row row) c k0 v0 d) as (v1 & d' & ->).
  apply IH.
Qed.

Lemma slug_not_empty row : (slug_of_row row =? "")%string = false.
Proof.
  unfold slug_of_row, make_city_id. apply String.eqb_neq.
  destruct (replace "." "" _); discriminate.
Qed.

(** X8.  The utility functions construct a manager of their own.  On a
    location without a file: if the file cannot be written they raise
    [OSError]; otherwise they write the file, and with an empty table
    they return the Grand Forks defaults, while with a table they return
    the display name and the bounds of the configuration stored under
    the id of the first row. *)
Theorem utility_functions_on_empty_location :
  forall cities_df,
    fst (get_current_city_name cities_df (empty_location false))
    = Raised "OSError"
    /\ fst (get_city_bounds cities_df (empty_location false))
       = Raised "OSError"
    /\ snd (get_current_city_name cities_df (empty_location true))
       = {| config_file := saved (generated cities_df); writable := true |}
    /\ (cities_df = [] ->
        fst (get_current_city_name cities_df (empty_location true))
        = Returned (PStr "Grand Forks, ND")
        /\ fst (get_city_bounds cities_df (empty_location true))
           = Returned (PFloat 47.85, PFloat 47.95, PFloat (-97.15),
                       PFloat (-97.0)))
    /\ (forall row rows, cities_df = row :: rows ->
        exists c,
          get_config (generated cities_df) (slug_of_row row) = Some c
          /\ fst (get_current_city_name cities_df (empty_location true))
             = Returned (display_name c)
          /\ fst (get_city_bounds cities_df (empty_location true))
             = Returned (min_lat (bounds c), max_lat (bounds c),
                         min_lon (bounds c), max_lon (bounds c))).
Proof.
  intros cities_df.
  assert (Hro : init cities_df (empty_location false)
                = (Raise OSError, generated cities_df,
                   empty_location false)).
  { unfold init, load_configs, empty_location, generated,
      _generate_usa_city_configs, save_configs. cbn.
    now destruct (fold_left _ cities_df []) as [|[k c] l]. }
  unfold get_current_city_name, get_city_bounds.
  rewrite Hro, init_on_empty_location. cbn [fst snd exn_class].
  split; [reflexivity|]. split; [reflexivity|]. split.
  - now destruct (get_current_config (generated cities_df)) as [[c|]|e].
  - split.
    + intros ->. split; reflexivity.
    + intros row rows ->.
      unfold get_current_config, get_config, generated.
      cbn [configs current_city fold_left].
      destruct (row_config row) as (c0 & _ & _ & _ & _ & Hadd).
      rewrite Hadd. cbn [dict_set].
      destruct (first_key_of_fold rows (slug_of_row row) c0 [])
        as (c & d & ->).
      cbn [truthy dict_get]. rewrite slug_not_empty, String.eqb_refl.
      cbn [negb]. exists c. repeat split.
Qed.

End StoreProps.

(** ** Reading a configuration from a dictionary *)

Module DictProps.
Import CityConfig StoreWording Queries Reading.

Lemma bind_ok {A B} (r : result A) (k : A -> result B) b :
  bind r k = Ok b -> exists a, r = Ok a /\ k a = Ok b.
Proof. destruct r as [a|e]; simpl; [eauto | discriminate]. Qed.

Lemma subscript_ok d k v :
  subscript (PDict d) k = Ok v -> dict_get k d = Some v.
Proof.
  unfold subscript, dict_item. destruct (dict_get k d); congruence.
Qed.

Lemma not_in_fields k fields :
  ~ In k fields -> existsb (String.eqb k) fields = false.
Proof.
  intros Hn. destruct (existsb (String.eqb k) fields) eqn:E; [|reflexivity].
  apply existsb_exists in E. destruct E as (x & Hx & Ex).
  apply String.eqb_eq in Ex. subst x. contradiction.
Qed.

Lemma unexpected_keyword fields kw k v :
  ~ In k fields -> check_keywords fields (kw ++ [(k, v)]) = Raise TypeError.
Proof.
  intros Hn. unfold check_keywords, dict_keys.
  rewrite map_app, forallb_app. cbn [map forallb fst].
  rewrite (not_in_fields k fields Hn). cbn [andb].
  now rewrite andb_false_r.
Qed.

(** What [from_dict] does with the entry 'bounds', the rest being the
    dictionary of [c]. *)
Lemma from_dict_with_bounds c b :
  from_dict (with_entry "bounds" b c)
  = bind (bind (kwargs b) new_CityBounds)
      (fun b' => Ok (set_bounds b' c)).
Proof.
  destruct c as [cid name [] [] [] []].
  unfold with_entry, config_items, to_dict, asdict_CityBounds,
    asdict_CityDemographics, asdict_CityMarketData,
    asdict_CityCompetitorData, set_bounds, from_dict.
  PersistenceSpec.expose_fields. rewrite !DictSpec.asdict_inner_copy.
  cbn [items_of dict_set String.eqb Ascii.eqb Bool.eqb andb subscript
       dict_item dict_get bind].
  destruct (kwargs b) as [kw|e]; cbn [bind]; [|reflexivity].
  destruct (new_CityBounds kw) as [b'|e]; reflexivity.
Qed.

Lemma from_dict_with_demographics c v :
  from_dict (with_entry "demographics" v c)
  = bind (bind (kwargs v) new_CityDemographics)
      (fun d' => Ok (set_demographics d' c)).
Proof.
  destruct c as [cid name [] [] [] []].
  unfold with_entry, config_items, to_dict, asdict_CityBounds,
    asdict_CityDemographics, asdict_CityMarketData,
    asdict_CityCompetitorData, set_demographics, from_dict.
  PersistenceSpec.expose_fields. rewrite !DictSpec.asdict_inner_copy.
  cbn [items_of dict_set String.eqb Ascii.eqb Bool.eqb andb subscript
       dict_item dict_get bind kwargs].
  destruct (kwargs v) as [kw|e]; cbn [bind]; [|reflexivity].
  destruct (new_CityDemographics kw) as [d'|e]; reflexivity.
Qed.

(** X9.  The nested dictionaries are read strictly: in 'bounds' a key
    that is not a field, a missing field other than [grid_spacing], or a
    value that is not a dictionary makes [from_dict] raise [TypeError];
    a missing [grid_spacing] is given the default 0.005 and a missing
    [population_density_factor] the default 1.0. *)
Theorem nested_dictionaries_are_strict :
  forall c,
    (forall k v,
        ~ In k bounds_fields ->
        from_dict
          (with_entry "bounds"
             (PDict (items_of (asdict_CityBounds (bounds c)) ++ [(k, v)])) c)
        = Raise TypeError)
    /\ (forall k,
           In k bounds_fields -> k <> "grid_spacing" ->
           from_dict
             (with_entry "bounds"
                (PDict (without_key k
                          (items_of (asdict_CityBounds (bounds c))))) c)
           = Raise TypeError)
    /\ (forall v,
           (forall d, v <> PDict d) ->
           from_dict (with_entry "bounds" v c) = Raise TypeError)
    /\ from_dict
         (with_entry "bounds"
            (PDict (without_key "grid_spacing"
                      (items_of (asdict_CityBounds (bounds c))))) c)
       = Ok (set_bounds
               {| min_lat := min_lat (bounds c);
                  max_lat := max_lat (bounds c);
                  min_lon := min_lon (bounds c);
                  max_lon := max_lon (bounds c);
                  center_lat := center_lat (bounds c);
                  center_lon := center_lon (bounds c);
                  grid_spacing := PFloat 0.005 |} c)
    /\ from_dict
         (with_entry "demographics"
            (PDict (without_key "population_density_factor"
                      (items_of (asdict_CityDemographics (demographics c)))))
            c)
       = Ok (set_demographics
               {| typical_population_range :=
                    typical_population_range (demographics c);
                  typical_income_range :=
                    typical_income_range (demographics c);
                  typical_age_range := typical_age_range (demographics c);
                  population_density_factor := PFloat 1.0 |} c).
Proof.
  intros c. repeat split.
  - intros k v Hk. rewrite from_dict_with_bounds. cbn [kwargs bind].
    unfold new_CityBounds. unfold bounds_fields in Hk.
    now rewrite (unexpected_keyword _ _ k v Hk).
  - intros k Hk Hg. rewrite from_dict_with_bounds.
    unfold asdict_CityBounds. rewrite !DictSpec.asdict_inner_copy.
    unfold bounds_fields in Hk. cbn [In] in Hk.
    destruct Hk as [<-|[<-|[<-|[<-|[<-|[<-|[<-|[]]]]]]]];
      try congruence; reflexivity.
  - intros v Hv. rewrite from_dict_with_bounds.
    destruct v; try reflexivity. now destruct (Hv d).
  - rewrite from_dict_with_bounds.
    unfold asdict_CityBounds. now rewrite !DictSpec.asdict_inner_copy.
  - rewrite from_dict_with_demographics.
    unfold asdict_CityDemographics. now rewrite !DictSpec.asdict_inner_copy.
Qed.

(** X10.  [from_dict] raises [TypeError] on anything but a dictionary;
    it never succeeds on a dictionary that lacks one of the six keys, and
    a missing 'city_id' is reported as [KeyError]; it reads nothing but
    the six keys, so two dictionaries that agree on them are read
    alike and further keys are ignored. *)
Theorem from_dict_reads_six_keys :
  (forall v, (forall d, v <> PDict d) -> from_dict v = Raise TypeError)
  /\ (forall d k,
         In k top_level_keys -> dict_get k d = None ->
         is_ok (from_dict (PDict d)) = false)
  /\ (forall d,
         dict_get "city_id" d = None ->
         from_dict (PDict d) = Raise (KeyError "city_id"))
  /\ (forall d d',
         (forall k, In k top_level_keys -> dict_get k d = dict_get k d') ->
         from_dict (PDict d) = from_dict (PDict d')).
Proof.
  repeat split.
  - intros v Hv. destruct v; try reflexivity. now destruct (Hv d).
  - intros d k Hk Hnone.
    destruct (from_dict (PDict d)) as [c|e] eqn:E; [|reflexivity].
    exfalso. unfold from_dict in E.
    apply bind_ok in E. destruct E as (x1 & H1 & E).
    apply bind_ok in E. destruct E as (x2 & H2 & E).
    apply bind_ok in E. destruct E as (x3 & H3 & E).
    apply bind_ok in E. destruct E as (x4 & H4 & E).
    apply bind_ok in E. destruct E as (x5 & H5 & E).
    apply bind_ok in E. destruct E as (x6 & H6 & E).
    apply bind_ok in H3. destruct H3 as (y3 & H3 & _).
    apply bind_ok in H4. destruct H4 as (y4 & H4 & _).
    apply bind_ok in H5. destruct H5 as (y5 & H5 & _).
    apply bind_ok in H6. destruct H6 as (y6 & H6 & _).
    apply subscript_ok in H1, H2, H3, H4, H5, H6.
    unfold top_level_keys in Hk. cbn [In] in Hk.
    destruct Hk as [<-|[<-|[<-|[<-|[<-|[<-|[]]]]]]]; congruence.
  - intros d Hnone. unfold from_dict, subscript, dict_item.
    now rewrite Hnone.
  - intros d d' H. unfold from_dict, subscript, dict_item.
    rewrite (H "city_id"), (H "display_name"), (H "bounds"),
      (H "demographics"), (H "market_data"), (H "competitor_data");
      unfold top_level_keys; cbn [In]; tauto.
Qed.

End DictProps.

(** ** Loading a file *)

Module LoadProps.
Import CityConfig StoreWording Queries Reading.

Lemma load_cities_decoded entries good :
  decode_to entries good ->
  forall rest acc,
    load_cities (entries ++ rest) acc
    = load_cities rest
        (fold_left (fun d kc => dict_set (fst kc) (snd kc) d) good acc).
Proof.
  induction 1 as [|[k v] [k' c] entries good [Hk Hv] _ IH]; intros rest acc;
    [reflexivity|].
  cbn [fst snd] in Hk, Hv. subst k'.
  cbn [app load_cities fold_left fst snd]. rewrite Hv. apply IH.
Qed.

Lemma survivors_of_broken_document d entries good k bad rest m :
  dict_get "cities" d = Some (PDict (entries ++ (k, bad) :: rest)) ->
  decode_to entries good ->
  NoDup (dict_keys good) ->
  is_ok (from_dict bad) = false ->
  configs m = [] ->
  exists e,
    load_document (PDict d) m
    = (Raise e, {| configs := good; current_city := current_city m |}).
Proof.
  intros Hget Hdec Hnd Hbad Hm. unfold load_document.
  assert (Ht : truthy (PDict d) = true)
    by (destruct d; [discriminate Hget | reflexivity]).
  rewrite Ht. cbn [negb contains_cities subscript].
  unfold dict_mem, dict_item. rewrite Hget.
  rewrite (load_cities_decoded _ _ Hdec), Hm.
  change (fold_left _ good []) with (dict_of_items good).
  rewrite (PersistenceSpec.dict_of_items_distinct good Hnd).
  cbn [load_cities]. destruct (from_dict bad) as [c|e]; [discriminate Hbad|].
  now exists e.
Qed.

(** X11.  A file whose cities are good up to one entry that cannot be
    read is not treated as absent: the configurations read before the
    bad entry stay in the store, the entries after it and the file's
    current city are dropped, and generation from the table then runs on
    top of the survivors. *)
Theorem broken_entry_keeps_earlier_entries :
  forall cities_df n d entries good k bad rest w,
    construct n = PDict d ->
    dict_get "cities" d = Some (PDict (entries ++ (k, bad) :: rest)) ->
    decode_to entries good ->
    NoDup (dict_keys good) ->
    is_ok (from_dict bad) = false ->
    let fs := {| config_file := Document n; writable := w |} in
    init cities_df fs
    = _generate_usa_city_configs cities_df
        {| configs := good; current_city := PNone |} fs
    /\ configs (snd (fst (init cities_df fs)))
       = fold_left (add_city _get_state_market_data) cities_df good.
Proof.
  intros cities_df n d entries good k bad rest w Hn Hget Hdec Hnd Hbad fs.
  assert (E : init cities_df fs
              = _generate_usa_city_configs cities_df
                  {| configs := good; current_city := PNone |} fs).
  { unfold init, load_configs, fs. cbn [exists_file read_yaml config_file].
    rewrite Hn.
    destruct (survivors_of_broken_document d entries good k bad rest
                {| configs := []; current_city := PNone |}
                Hget Hdec Hnd Hbad eq_refl) as [e ->].
    reflexivity. }
  split; [exact E|]. rewrite E.
  unfold _generate_usa_city_configs, save_configs. cbn [configs].
  now destruct w.
Qed.

Lemma broken_entry_example :
  let fs := {| config_file := Document half_broken_document;
               writable := true |} in
  init two_cities fs
  = _generate_usa_city_configs two_cities
      {| configs := configs (reloaded chicago_store);
         current_city := PNone |} fs
  /\ configs (snd (fst (init two_cities fs)))
     = fold_left (add_city _get_state_market_data) two_cities
         (configs (reloaded chicago_store)).
Proof.
  apply (broken_entry_keeps_earlier_entries two_cities half_broken_document
           (items_of (construct half_broken_document))
           (map (fun kc => (fst kc, listify (to_dict (snd kc))))
              (configs chicago_store))
           (configs (reloaded chicago_store))
           "broken" (PStr "oops") [] true).
  - reflexivity.
  - vm_compute. reflexivity.
  - repeat constructor.
  - repeat constructor. simpl. tauto.
  - reflexivity.
Defined.

(** *** No tuple comes back *)

Lemma has_tuple_listify v : has_tuple (listify v) = false.
Proof.
  induction v as [ | | | | | l IH | l IH | d IH]
    using DictSpec.pyval_induction; simpl; try reflexivity.
  - destruct (existsb has_tuple (map listify l)) eqn:E; [|reflexivity].
    apply existsb_exists in E. destruct E as (y & Hy & Ey).
    apply in_map_iff in Hy. destruct Hy as (x & <- & Hx).
    rewrite Forall_forall in IH. rewrite (IH x Hx) in Ey. discriminate.
  - destruct (existsb has_tuple (map listify l)) eqn:E; [|reflexivity].
    apply existsb_exists in E. destruct E as (y & Hy & Ey).
    apply in_map_iff in Hy. destruct Hy as (x & <- & Hx).
    rewrite Forall_forall in IH. rewrite (IH x Hx) in Ey. discriminate.
  - match goal with
    | |- existsb ?f ?l = false => destruct (existsb f l) eqn:E
    end; [|reflexivity].
    apply existsb_exists in E. destruct E as (y & Hy & Ey).
    apply (Permutation_in _ (PersistenceSpec.sort_items_perm _)) in Hy.
    apply in_map_iff in Hy. destruct Hy as (x & <- & Hx).
    rewrite Forall_forall in IH. cbn [snd] in Ey.
    rewrite (IH x Hx) in Ey. discriminate.
Qed.

(** X12.  What the program writes never comes back as a tuple: a value
    written and read again holds no tuple at any depth, and after a store
    is saved and a manager is constructed on the file, no field of any
    configuration holds one. *)
Theorem no_tuple_after_reload :
  forall cities_df m fs,
    writable fs = true ->
    valid_store m = true ->
    (forall v, valid_dicts v = true ->
        has_tuple (construct (represent v)) = false)
    /\ (forall k c f,
           In (k, c) (configs (snd (fst (save_then_load cities_df m fs)))) ->
           In f (fields_of c) ->
           has_tuple f = false).
Proof.
  intros cities_df m fs Hw Hv. split.
  - intros v Hvalid.
    rewrite (PersistenceSpec.construct_represent v Hvalid).
    apply has_tuple_listify.
  - intros k c f Hc Hf.
    rewrite (PersistenceSpec.load_saved cities_df m fs Hw Hv) in Hc.
    cbn [fst snd] in Hc. unfold reloaded in Hc. cbn [configs] in Hc.
    apply (Permutation_in _ (PersistenceSpec.sort_items_perm _)) in Hc.
    apply in_map_iff in Hc. destruct Hc as ([k0 c0] & [= <- <-] & _).
    change (fields_of (map_config listify c0))
      with (map listify (fields_of c0)) in Hf.
    apply in_map_iff in Hf. destruct Hf as (x & <- & _).
    apply has_tuple_listify.
Qed.

Lemma no_tuple_after_reload_example :
  (forall v, valid_dicts v = true ->
      has_tuple (construct (represent v)) = false)
  /\ (forall k c f,
         In (k, c)
           (configs (snd (fst (save_then_load two_cities chicago_store
                                 writable_disk)))) ->
         In f (fields_of c) ->
         has_tuple f = false).
Proof.
  exact (no_tuple_after_reload two_cities chicago_store writable_disk
           eq_refl eq_refl).
Defined.

End LoadProps.

(** ** The queries of the manager *)

Module QueryProps.
Import CityConfig StoreWording Queries Reading.

Lemma comprehension_filter cond f cfgs :
  (forall kc, In kc cfgs -> cond (snd kc) = Returned (f (snd kc))) ->
  comprehension cond cfgs
  = Returned (map snd (filter (fun kc => f (snd kc)) cfgs)).
Proof.
  induction cfgs as [|[k c] cfgs IH]; intros H; cbn [comprehension];
    [reflexivity|].
  pose proof (H (k, c) (or_introl eq_refl)) as Hc. cbn [snd] in Hc.
  rewrite Hc, IH by (intros kc Hkc; apply H; now right).
  cbn [filter snd]. now destruct (f c).
Qed.

Lemma filter_all {A} (l : list A) : filter (fun _ => true) l = l.
Proof. induction l as [|a l IH]; cbn [filter]; congruence. Qed.

Lemma filter_none {A} (f : A -> bool) l :
  (forall x, In x l -> f x = false) -> filter f l = [].
Proof.
  induction l as [|a l IH]; intros H; cbn [filter]; [reflexivity|].
  rewrite (H a (or_introl eq_refl)). apply IH.
  intros x Hx. apply H. now right.
Qed.

Lemma comprehension_keeps_order cond cfgs l :
  comprehension cond cfgs = Returned l ->
  exists keep, l = map snd (filter keep cfgs).
Proof.
  intros H.
  exists (fun kc => match cond (snd kc) with
                    | Returned true => true
                    | _ => false
                    end).
  revert l H. induction cfgs as [|[k c] cfgs IH]; intros l H;
    cbn [comprehension] in H.
  - now injection H as <-.
  - cbn [filter snd]. destruct (cond c) as [keep|e]; [|discriminate H].
    destruct (comprehension cond cfgs) as [l'|e]; [|discriminate H].
    injection H as <-. rewrite (IH l' eq_refl). now destruct keep.
Qed.

Lemma contains_empty s : contains "" s = true.
Proof. now destruct s. Qed.

Lemma prefix_same s : prefix s s = true.
Proof.
  induction s as [|c s IH]; [reflexivity|]. simpl.
  now destruct (ascii_dec c c).
Qed.

Lemma contains_same s : contains s s = true.
Proof. destruct s; cbn [contains]; now rewrite prefix_same. Qed.

Lemma lower_fixed s :
  (forall c, In c (chars s) -> is_upper c = false) -> lower s = s.
Proof.
  unfold chars. induction s as [|a s IH]; intros H; simpl; [reflexivity|].
  rewrite IH by (intros c Hc; apply H; now right).
  unfold lower_char. now rewrite (H a (or_introl eq_refl)).
Qed.

Lemma lower_of_id city_name state :
  lower (make_city_id city_name state) = make_city_id city_name state.
Proof.
  apply lower_fixed. intros c Hc. unfold make_city_id in Hc.
  rewrite GeneratorSpec.chained_replace in Hc.
  rewrite !IdProps.chars_app in Hc. apply in_app_or in Hc.
  destruct Hc as [Hc|Hc].
  - destruct (IdProps.chars_slug c _ Hc) as (_ & _ & _ & [->|H]);
      [reflexivity|]. eapply IdProps.chars_lower; eassumption.
  - apply in_app_or in Hc. destruct Hc as [[<-|[]]|Hc]; [reflexivity|].
    eapply IdProps.chars_lower; eassumption.
Qed.

(** X13.  [search_cities] looks at the lowercased query only, returns
    configurations of the store in the order of the store, returns all
    of them for the empty query when every display name is a string, and
    raises [AttributeError] when the first configuration has a display
    name that is not a string. *)
Theorem search_cities_behaviour :
  forall m,
    (forall q q', lower q = lower q' ->
        search_cities m q = search_cities m q')
    /\ (forall q l, search_cities m q = Returned l ->
          exists keep, l = map snd (filter keep (configs m)))
    /\ ((forall kc, In kc (configs m) ->
            exists s, display_name (snd kc) = PStr s) ->
        search_cities m "" = Returned (map snd (configs m)))
    /\ (forall q k c rest,
          configs m = (k, c) :: rest ->
          (forall s, display_name c <> PStr s) ->
          search_cities m q = Raised "AttributeError").
Proof.
  intros m. repeat split.
  - intros q q' E. unfold search_cities. now rewrite E.
  - intros q l. apply comprehension_keeps_order.
  - intros H. unfold search_cities.
    rewrite (comprehension_filter _ (fun _ => true)).
    + now rewrite filter_all.
    + intros kc Hkc. destruct (H kc Hkc) as [s ->].
      cbn [lower_of lower]. now rewrite contains_empty.
  - intros q k c rest E Hc. unfold search_cities. rewrite E.
    cbn [comprehension]. destruct (display_name c); try reflexivity.
    now destruct (Hc s).
Qed.

Lemma generated_entry cities_df k c :
  In (k, c) (configs (generated cities_df)) ->
  city_id c = PStr k
  /\ (exists s, display_name c = PStr s)
  /\ exists a b,
       typical_population_range (demographics c) = PTuple [PInt a; PInt b]
       /\ In b [10000; 15000; 25000; 50000].
Proof.
  intros Hin.
  destruct (StoreProps.generated_facts cities_df) as (_ & Hall & _).
  rewrite Forall_forall in Hall.
  destruct (Hall _ Hin) as (Hid & _ & row & _ & Hrow & _).
  cbn [fst snd] in *. split; [exact Hid|].
  unfold config_of_row, _create_city_config_from_data in Hrow.
  injection Hrow as <-. cbn [display_name demographics]. split; [eauto|].
  unfold _create_demographics_for_population.
  destruct (_ >? 1000000); [|destruct (_ >? 500000); [|destruct (_ >? 200000)]];
    cbn; do 2 eexists; split; try reflexivity; tauto.
Qed.

(** X14.  In a generated store, searching for the id of any row of the
    table, written in any letter case, returns without raising a list
    that contains the configuration stored under that id. *)
Theorem search_finds_city_by_id :
  forall cities_df row q,
    In row cities_df ->
    lower q = slug_of_row row ->
    exists l c,
      search_cities (generated cities_df) q = Returned l
      /\ get_config (generated cities_df) (slug_of_row row) = Some c
      /\ In c l.
Proof.
  intros cities_df row q Hrow Hq.
  destruct (StoreProps.generated_facts cities_df) as (_ & _ & _ & Hrows).
  destruct (StoreProps.dict_get_keys _ _ (Hrows row Hrow)) as [c Hc].
  unfold search_cities. rewrite Hq.
  rewrite (comprehension_filter _ (matches (slug_of_row row))).
  - do 2 eexists. split; [reflexivity|]. split; [exact Hc|].
    apply StoreProps.dict_get_In in Hc.
    apply (in_map snd) with (x := (slug_of_row row, c)).
    apply filter_In. split; [exact Hc|]. cbn [snd].
    destruct (generated_entry _ _ _ Hc) as (Hid & [s Hs] & _).
    unfold matches. rewrite Hs, Hid.
    assert (L : lower (slug_of_row row) = slug_of_row row)
      by (unfold slug_of_row; apply lower_of_id).
    rewrite L, contains_same. apply orb_true_r.
  - intros [k c'] Hkc. cbn [snd].
    destruct (generated_entry _ _ _ Hkc) as (Hid & [s Hs] & _).
    unfold matches. rewrite Hs, Hid. cbn [lower_of].
    now destruct (contains (slug_of_row row) (lower s)).
Qed.

Lemma search_finds_city_by_id_example :
  exists l c,
    search_cities (generated two_cities) "CHICAGO_IL" = Returned l
    /\ get_config (generated two_cities) (slug_of_row chicago_row) = Some c
    /\ In c l.
Proof.
  apply (search_finds_city_by_id two_cities chicago_row "CHICAGO_IL").
  - right. left. reflexivity.
  - reflexivity.
Defined.

(** X15.  On a generated store [get_cities_by_population_range] never
    raises and returns, in the order of the store, the configurations
    whose typical population range has its high end in the interval;
    that high end is always 10000, 15000, 25000 or 50000, so the result
    is empty whenever the lower limit exceeds 50000. *)
Theorem population_range_of_generated_store :
  forall cities_df min_pop max_pop,
    get_cities_by_population_range (generated cities_df) min_pop max_pop
    = Returned
        (map snd
           (filter (fun kc => upper_in_range min_pop max_pop (snd kc))
              (configs (generated cities_df))))
    /\ (forall k c, In (k, c) (configs (generated cities_df)) ->
          exists a b,
            range_ends (typical_population_range (demographics c))
            = Some (a, b)
            /\ In b [10000; 15000; 25000; 50000])
    /\ (50000 < min_pop ->
        get_cities_by_population_range (generated cities_df) min_pop max_pop
        = Returned []).
Proof.
  intros cities_df min_pop max_pop.
  assert (H1 : get_cities_by_population_range (generated cities_df)
                 min_pop max_pop
               = Returned
                   (map snd
                      (filter
                         (fun kc => upper_in_range min_pop max_pop (snd kc))
                         (configs (generated cities_df))))).
  { unfold get_cities_by_population_range.
    apply comprehension_filter. intros [k c] Hkc. cbn [snd].
    destruct (generated_entry _ _ _ Hkc) as (_ & _ & a & b & Hr & _).
    unfold upper_in_range. rewrite Hr. cbn [item1 nth_error range_ends].
    unfold between. cbn [int_le le_int]. now destruct (min_pop <=? b). }
  split; [exact H1|]. split.
  - intros k c Hkc.
    destruct (generated_entry _ _ _ Hkc) as (_ & _ & a & b & Hr & Hb).
    exists a, b. rewrite Hr. split; [reflexivity | exact Hb].
  - intros Hmin. rewrite H1. f_equal. rewrite filter_none; [reflexivity|].
    intros [k c] Hkc. cbn [snd].
    destruct (generated_entry _ _ _ Hkc) as (_ & _ & a & b & Hr & Hb).
    unfold upper_in_range. rewrite Hr. cbn [range_ends].
    destruct (Z.leb_spec min_pop b) as [Hle|]; [|reflexivity].
    cbn [In] in Hb. lia.
Qed.

End QueryProps.

(** ** The polling callbacks and the worker *)

Module PollingProps.
Import CityConfig StoreWording Dashboard DashboardWording Polling.

Lemma progress_keeps_rest {G} (rs : list progress_object) (w : world G) :
  let w' := fold_left progress_callback rs w in
  last_loaded_city (app w') = last_loaded_city (app w)
  /\ loading_in_progress (app w') = loading_in_progress (app w)
  /\ threads w' = threads w
  /\ now w' = now w.
Proof.
  revert w. induction rs as [|p rs IH]; intros w; simpl; [auto|].
  destruct (IH (progress_callback w p)) as (E1 & E2 & E3 & E4).
  rewrite E1, E2, E3, E4. auto.
Qed.

Lemma synthetic_world `{Runtime} cid dn (w : world rng_state) :
  let w' := snd (create_synthetic_city_data cid dn w) in
  app w' = app w /\ threads w' = threads w /\ now w' = now w.
Proof.
  unfold create_synthetic_city_data.
  now destruct (draw_locations _) as [[[lats lons] df] g].
Qed.

(** What a run of the worker does to the process. *)
Lemma worker_effect `{Runtime} avail run cid fr dn (w : world rng_state) :
  let w' := snd (load_city_data_background_safe avail run cid fr dn w) in
  loading_in_progress (app w') = false
  /\ last_loaded_city (app w') = last_loaded_city (app w)
  /\ threads w' = threads w
  /\ now w' = now w
  /\ loading_progress (app w')
     = option_map
         (fun m => ProgressError ("Error loading city data: " ++ m))
         (exception_text avail run)
  /\ exists d, current_city_data (app w') = Some d.
Proof.
  unfold load_city_data_background_safe, try_load, exception_text.
  destruct avail; cbn [negb].
  - destruct (progress_keeps_rest (reports run) w) as (P1 & P2 & P3 & P4).
    set (w0 := fold_left progress_callback (reports run) w) in *.
    destruct (synthetic_world cid dn w0) as (S1 & S2 & S3).
    destruct (result_of run) as [e|[ | |d]].
    4: destruct (df_len (df_filtered d) =? 0)%nat.
    all: try (destruct (create_synthetic_city_data cid dn w0) as [d' w'];
              cbn in S1, S2, S3 |- *; rewrite ?S1, ?S2, ?S3).
    all: cbn; repeat split; try congruence; eauto.
  - destruct (synthetic_world cid dn w) as (S1 & S2 & S3).
    destruct (create_synthetic_city_data cid dn w) as [d' w'].
    cbn in S1, S2, S3 |- *. rewrite ?S1, ?S2, ?S3.
    repeat split; try congruence; eauto.
Qed.

Lemma greater_than_zero_done v b :
  greater_than_zero v = Done b -> is_number v = true.
Proof. destruct v; cbn; intros E; (reflexivity || discriminate E). Qed.

Lemma greater_than_zero_number v :
  is_number v = true -> exists b, greater_than_zero v = Done b.
Proof. destruct v; cbn; intros E; try discriminate E; eauto. Qed.

Lemma fixed_done `{Formatting} digits v s :
  fixed digits v = Done s -> in_float_range v = true.
Proof.
  destruct v; unfold fixed, in_float_range; intros E;
    try reflexivity; try discriminate E.
  destruct (Z.abs z <? _); [reflexivity | discriminate E].
Qed.

Lemma fixed_in_range `{Formatting} digits v :
  in_float_range v = true -> fixed digits v = Done (format_fixed digits v).
Proof.
  destruct v; unfold fixed, in_float_range; intros E;
    try discriminate E; try reflexivity.
  now rewrite E.
Qed.

Lemma in_range_number v : in_float_range v = true -> is_number v = true.
Proof. destruct v; cbn; intros E; (reflexivity || discriminate E). Qed.

Lemma string_app_empty (a : string) : (a ++ "")%string = a.
Proof. induction a as [|x a IH]; simpl; [reflexivity | now rewrite IH]. Qed.

Lemma string_app_assoc (a b c : string) :
  ((a ++ b) ++ c = a ++ (b ++ c))%string.
Proof. induction a as [|x a IH]; simpl; [reflexivity | now rewrite IH]. Qed.

(** X16.  Whatever the collection did, the first poll after the worker
    has run stops the polling and shows the main content, with an empty
    progress bar; and for a selected city the tab callback never answers
    with the 'no data' notice. *)
Theorem poll_after_worker :
  forall (R : Runtime) (F : Formatting) avail run cid fr dn n t tab selected
         (w : world rng_state),
    let a :=
      app (snd (load_city_data_background_safe avail run cid fr dn w)) in
    update_progress_safe n t a
    = {| bar_value := PInt 0; bar_label := ""; progress_text := "";
         interval_disabled := true; main_content_shown := true |}
    /\ (selected <> "" ->
        update_tab_content_safe tab (Some selected) a <> NoDataNotice).
Proof.
  intros R F avail run cid fr dn n t tab selected w a. subst a.
  destruct (worker_effect avail run cid fr dn w)
    as (E1 & _ & _ & _ & _ & d & Ed).
  cbv zeta in E1, Ed. split.
  - unfold update_progress_safe. now rewrite E1, Ed.
  - intros Hsel. unfold update_tab_content_safe. rewrite Ed.
    destruct (String.eqb_spec selected ""); [contradiction|].
    repeat match goal with
           | |- context [if ?b then _ else _] => destruct b
           end; discriminate.
Qed.

(** X17.  While a load is in progress, a progress report whose
    [locations] or [eta] is not a number, or whose [percent] cannot be
    formatted as a float, makes the poll answer with the label "Error"
    and switch the polling off, the main content staying hidden. *)
Theorem malformed_report_stops_polling :
  forall (F : Formatting) a percent step locations total eta n t,
    loading_in_progress a = true ->
    loading_progress a = Some (Progress percent step locations total eta) ->
    is_number locations && is_number eta && in_float_range percent = false ->
    exists message,
      update_progress_safe n t a
      = {| bar_value := PInt 0; bar_label := "Error";
           progress_text := "Progress update error: " ++ message;
           interval_disabled := true; main_content_shown := false |}.
Proof.
  intros F a percent step locations total eta n t Hload Hprog Hbad.
  unfold update_progress_safe. rewrite Hload, Hprog. cbn [negb].
  unfold report_progress.
  destruct (greater_than_zero locations) as [b1|m1] eqn:G1;
    cbn [and_then]; [|eauto].
  destruct (if b1 then greater_than_zero total else Done false)
    as [b2|m2]; cbn [and_then]; [|eauto].
  destruct (greater_than_zero eta) as [b3|m3] eqn:G3;
    cbn [and_then]; [|eauto].
  match goal with
  | |- context [and_then ?c _] => destruct c as [txt|m4]
  end; cbn [and_then]; [|eauto].
  destruct (fixed 1 percent) as [label|m5] eqn:G5; cbn [and_then]; [|eauto].
  apply greater_than_zero_done in G1, G3. apply fixed_done in G5.
  rewrite G1, G3, G5 in Hbad. discriminate Hbad.
Qed.

Lemma malformed_report_example :
  exists message,
    @update_progress_safe plain_formatting (Some 3) None
      {| current_city_data := None;
         loading_progress :=
           Some (Progress (PFloat 40) "Fetching" (PInt 12) (PInt 40) PNone);
         last_loaded_city := Some "chicago_il";
         loading_in_progress := true |}
    = {| bar_value := PInt 0; bar_label := "Error";
         progress_text := "Progress update error: " ++ message;
         interval_disabled := true; main_content_shown := false |}.
Proof.
  apply (malformed_report_stops_polling plain_formatting _ (PFloat 40)
           "Fetching" (PInt 12) (PInt 40) PNone (Some 3) None);
    reflexivity.
Defined.

(** X18.  While a load is in progress, a progress report whose four
    values are numbers in the range of a float keeps the polling on and
    the main content hidden: the bar shows [percent], its label is
    [percent] with one decimal and a percent sign, and the text starts
    with the step. *)
Theorem numeric_report_keeps_polling :
  forall (F : Formatting) a percent step locations total eta n t,
    loading_in_progress a = true ->
    loading_progress a = Some (Progress percent step locations total eta) ->
    is_number locations && is_number total && in_float_range eta
    && in_float_range percent = true ->
    let out := update_progress_safe n t a in
    bar_value out = percent
    /\ bar_label out = format_fixed 1 percent ++ "%"
    /\ interval_disabled out = false
    /\ main_content_shown out = false
    /\ exists rest, progress_text out = "Step: " ++ step ++ rest.
Proof.
  intros F a percent step locations total eta n t Hload Hprog Hnum out.
  subst out.
  apply andb_prop in Hnum as [Hnum Hpercent].
  apply andb_prop in Hnum as [Hnum Heta].
  apply andb_prop in Hnum as [Hloc Htot].
  unfold update_progress_safe. rewrite Hload, Hprog. cbn [negb].
  unfold report_progress.
  destruct (greater_than_zero_number _ Hloc) as [b1 ->].
  destruct (greater_than_zero_number _ Htot) as [b2 G2].
  destruct (greater_than_zero_number _ (in_range_number _ Heta)) as [b3 ->].
  rewrite (fixed_in_range 0 _ Heta), (fixed_in_range 1 _ Hpercent).
  cbn [and_then].
  assert (E : exists b, (if b1 then greater_than_zero total else Done false)
                        = Done b)
    by (destruct b1; eauto).
  destruct E as [b ->]. cbn [and_then].
  destruct b3; cbn [and_then bar_value bar_label interval_disabled
                      main_content_shown progress_text];
    repeat split; destruct b;
    rewrite ?string_app_assoc; eauto.
  exists ""%string. now rewrite string_app_empty.
Qed.

Lemma numeric_report_example :
  let out :=
    @update_progress_safe plain_formatting (Some 3) None
      {| current_city_data := None;
         loading_progress :=
           Some (Progress (PFloat 40) "Fetching" (PInt 12) (PInt 40)
                   (PFloat 30));
         last_loaded_city := Some "chicago_il";
         loading_in_progress := true |} in
  bar_value out = PFloat 40
  /\ bar_label out = @format_fixed plain_formatting 1 (PFloat 40) ++ "%"
  /\ interval_disabled out = false
  /\ main_content_shown out = false
  /\ exists rest, progress_text out = "Step: " ++ "Fetching" ++ rest.
Proof.
  apply (numeric_report_keeps_polling plain_formatting _ (PFloat 40)
           "Fetching" (PInt 12) (PInt 40) (PFloat 30) (Some 3) None);
    reflexivity.
Defined.

(** The callback when the test lets the request through. *)
Lemma trigger_starts {G} (g : globals) sb cid rc tc ct trig (w : world G) :
  cid <> "" ->
  DATA_LOADER_AVAILABLE g = true ->
  option_map before_dot trig <> Some "test-btn" ->
  last_loaded_city (app w) <> Some cid
  \/ current_city_data (app w) = None
  \/ forced trig rc = true ->
  trigger_city_loading g true sb (Some cid) rc tc ct trig w
  = ((if sb
      then {| loading_trigger := "loading-" ++ cid ++ "-" ++ now w;
              progress_shown := true;
              status_cards := LoadingCard (display_name_of g cid) |}
      else {| loading_trigger := or_empty ct;
              progress_shown := false;
              status_cards := StartError |}),
     {| app := {| current_city_data := current_city_data (app w);
                  loading_progress := loading_progress (app w);
                  last_loaded_city := Some cid;
                  loading_in_progress := true |};
        threads := (threads w ++ [worker_for g cid (forced trig rc)])%list;
        rng := rng w;
        now := now w |}).
Proof.
  intros Hcid Hloader Htest Hneed.
  unfold trigger_city_loading, forced, worker_for in *. cbv zeta.
  destruct (String.eqb_spec cid ""); [contradiction|].
  rewrite Hloader. cbn [negb].
  destruct (option_map before_dot trig) as [t|].
  - destruct (String.eqb_spec t "test-btn"); [congruence|].
    destruct Hneed as [Hlast|[Hdata|Hforce]].
    + destruct (last_loaded_city (app w)) as [l|];
        [destruct (String.eqb_spec cid l); [congruence|]|];
        reflexivity.
    + rewrite Hdata, orb_true_r. reflexivity.
    + rewrite Hforce, orb_true_r. reflexivity.
  - destruct Hneed as [Hlast|[Hdata|Hforce]].
    + destruct (last_loaded_city (app w)) as [l|];
        [destruct (String.eqb_spec cid l); [congruence|]|];
        reflexivity.
    + rewrite Hdata, orb_true_r. reflexivity.
    + discriminate Hforce.
Qed.

(** The callback when the city counts as loaded. *)
Lemma trigger_ready {G} (g : globals) ts sb cid rc tc ct trig d
  (w : world G) :
  cid <> "" ->
  DATA_LOADER_AVAILABLE g = true ->
  option_map before_dot trig <> Some "test-btn" ->
  last_loaded_city (app w) = Some cid ->
  current_city_data (app w) = Some d ->
  forced trig rc = false ->
  trigger_city_loading g ts sb (Some cid) rc tc ct trig w
  = ({| loading_trigger := or_empty ct;
        progress_shown := false;
        status_cards := ReadyCard (display_name_of g cid) |}, w).
Proof.
  intros Hcid Hloader Htest Hlast Hdata Hforce.
  unfold trigger_city_loading, forced in *. cbv zeta.
  destruct (String.eqb_spec cid ""); [contradiction|].
  rewrite Hloader, Hlast, Hdata, String.eqb_refl. cbn [negb orb].
  destruct (option_map before_dot trig) as [t|].
  - destruct (String.eqb_spec t "test-btn"); [congruence|].
    rewrite Hforce. reflexivity.
  - reflexivity.
Qed.

(** X19.  After a load that ended with an exception, the error stays in
    the progress slot: a request for another city starts its worker and
    sets the loading flag (the reply is the loading card with the bar
    shown when the spinner is built, the error card with the bar hidden
    when building it raises), but the next poll reports "Error occurred"
    with the text of the old exception and switches the polling off
    while that load is in progress. *)
Theorem stale_error_stops_polling :
  forall (R : Runtime) (F : Formatting) (g : globals) run first fr dn second
         sb rc tc ct trig n t message (w : world rng_state),
    DATA_LOADER_AVAILABLE g = true ->
    exception_text (DATA_LOADER_AVAILABLE g) run = Some message ->
    second <> "" ->
    last_loaded_city (app w) <> Some second ->
    option_map before_dot trig <> Some "test-btn" ->
    let w1 :=
      snd (load_city_data_background_safe (DATA_LOADER_AVAILABLE g) run
             first fr dn w) in
    let r := trigger_city_loading g true sb (Some second) rc tc ct trig w1 in
    status_cards (fst r)
    = (if sb then LoadingCard (display_name_of g second) else StartError)
    /\ progress_shown (fst r) = sb
    /\ threads (snd r)
       = (threads w ++ [worker_for g second (forced trig rc)])%list
    /\ loading_in_progress (app (snd r)) = true
    /\ update_progress_safe n t (app (snd r))
       = {| bar_value := PInt 100; bar_label := "Error occurred";
            progress_text := "❌ Error loading city data: " ++ message;
            interval_disabled := true; main_content_shown := false |}.
Proof.
  intros R F g run first fr dn second sb rc tc ct trig n t message w
    Hloader Hraise Hsecond Hlast Htest w1 r.
  destruct (worker_effect (DATA_LOADER_AVAILABLE g) run first fr dn w)
    as (_ & E2 & E3 & _ & E5 & _).
  fold w1 in E2, E3, E5. rewrite Hraise in E5. cbn [option_map] in E5.
  subst r.
  rewrite trigger_starts; auto; [|left; now rewrite E2].
  cbn [fst snd threads app loading_in_progress].
  rewrite E3.
  split; [now destruct sb|]. split; [now destruct sb|].
  repeat split.
  unfold update_progress_safe.
  cbn [loading_in_progress loading_progress negb]. now rewrite E5.
Qed.

Lemma stale_error_example :
  let w1 :=
    snd (@load_city_data_background_safe counter_runtime
           (DATA_LOADER_AVAILABLE demo_globals) timed_out "chicago_il" false
           (PStr "Chicago, IL") counting_world) in
  let r :=
    trigger_city_loading demo_globals true false (Some "boston_ma") None None
      None (Some "city-selector.value") w1 in
  status_cards (fst r)
  = (if false then LoadingCard (display_name_of demo_globals "boston_ma")
     else StartError)
  /\ progress_shown (fst r) = false
  /\ threads (snd r)
     = (threads counting_world
        ++ [worker_for demo_globals "boston_ma"
              (forced (Some "city-selector.value") None)])%list
  /\ loading_in_progress (app (snd r)) = true
  /\ @update_progress_safe plain_formatting (Some 1) None (app (snd r))
     = {| bar_value := PInt 100; bar_label := "Error occurred";
          progress_text := "❌ Error loading city data: " ++ "timeout";
          interval_disabled := true; main_content_shown := false |}.
Proof.
  apply (stale_error_stops_polling counter_runtime plain_formatting
           demo_globals timed_out "chicago_il" false (PStr "Chicago, IL")
           "boston_ma" false None None None (Some "city-selector.value")
           (Some 1) None "timeout" counting_world);
    [reflexivity | reflexivity | discriminate | discriminate | discriminate].
Defined.

(** X20.  [trigger_city_loading] never touches the data slot, the
    progress slot, the generator or the clock.  Either it changes
    nothing and keeps the progress bar hidden, or it has started exactly
    one worker, for the selected city: then a city is selected, the
    loader is available, the test button did not fire, the loading flag
    is set and the city is recorded as last loaded; the reply is the
    loading card with the progress bar shown when the spinner is built,
    and the error card with the progress bar hidden and the trigger text
    kept when building it raises. *)
Theorem trigger_effects :
  forall G (g : globals) ts sb city rc tc ct trig (w : world G),
    let r := trigger_city_loading g ts sb city rc tc ct trig w in
    current_city_data (app (snd r)) = current_city_data (app w)
    /\ loading_progress (app (snd r)) = loading_progress (app w)
    /\ rng (snd r) = rng w
    /\ now (snd r) = now w
    /\ (snd r = w /\ progress_shown (fst r) = false
        \/ exists cid,
             city = Some cid /\ cid <> ""
             /\ DATA_LOADER_AVAILABLE g = true
             /\ ts = true
             /\ option_map before_dot trig <> Some "test-btn"
             /\ fst r
                = (if sb
                   then {| loading_trigger :=
                             "loading-" ++ cid ++ "-" ++ now w;
                           progress_shown := true;
                           status_cards :=
                             LoadingCard (display_name_of g cid) |}
                   else {| loading_trigger := or_empty ct;
                           progress_shown := false;
                           status_cards := StartError |})
             /\ loading_in_progress (app (snd r)) = true
             /\ last_loaded_city (app (snd r)) = Some cid
             /\ threads (snd r)
                = (threads w ++ [worker_for g cid (forced trig rc)])%list).
Proof.
  intros G g ts sb city rc tc ct trig w r. subst r.
  unfold trigger_city_loading, forced, worker_for. cbv zeta.
  assert (Htest : forall t,
             option_map before_dot trig = Some t -> t <> "test-btn" ->
             option_map before_dot trig <> Some "test-btn") by congruence.
  assert (Hnone : option_map before_dot trig = None ->
                  option_map before_dot trig <> Some "test-btn")
    by congruence.
  destruct (option_map before_dot trig) as [t|];
    [destruct (String.eqb_spec t "test-btn") as [->|Hne];
     [now (repeat split; try left)|]|];
    (destruct city as [cid|]; [|now (repeat split; try left)];
     destruct (String.eqb_spec cid ""); [now (repeat split; try left)|];
     destruct (DATA_LOADER_AVAILABLE g); cbn [negb];
       [|now (repeat split; try left)];
     match goal with
     | |- context [if ?b || _ || _ then _ else _] => destruct (b || _ || _)
     | |- context [if ?b || _ then _ else _] => destruct (b || _)
     end; [|now (repeat split; try left)];
     destruct ts; [|now (repeat split; try left)];
     cbn [fst snd app threads rng now current_city_data loading_progress
            loading_in_progress last_loaded_city];
     repeat split; right; exists cid; repeat split; eauto).
Qed.

Lemma synthetic_clock `{Runtime} cid dn (w w' : world rng_state) :
  now w = now w' ->
  fst (create_synthetic_city_data cid dn w)
  = fst (create_synthetic_city_data cid dn w').
Proof.
  intros E. unfold create_synthetic_city_data.
  destruct (draw_locations _) as [[[lats lons] df] g]. simpl. now rewrite E.
Qed.

(** The dataset the worker leaves, in terms of the call's arguments. *)
Lemma worker_data `{Runtime} avail run cid fr dn (w : world rng_state) :
  left_by avail run cid fr dn w
  = Some (if failed avail run
          then fst (create_synthetic_city_data cid dn w)
          else match result_of run with
               | Returns (Data d) => d
               | _ => fst (create_synthetic_city_data cid dn w)
               end).
Proof.
  unfold left_by, load_city_data_background_safe, try_load, failed.
  destruct avail; cbn [negb orb].
  - destruct (progress_keeps_rest (reports run) w) as (_ & _ & _ & P4).
    set (w0 := fold_left progress_callback (reports run) w) in *.
    pose proof (synthetic_clock cid dn w0 w P4) as S.
    destruct (result_of run) as [e|[ | |d]].
    4: destruct (df_len (df_filtered d) =? 0)%nat.
    all: try (destruct (create_synthetic_city_data cid dn w0) as [d' w'];
              cbn in S |- *; now rewrite S).
    reflexivity.
  - destruct (create_synthetic_city_data cid dn w) as [d' w'].
    reflexivity.
Qed.

Lemma left_by_clock `{Runtime} avail run cid fr dn (w w' : world rng_state) :
  now w = now w' ->
  left_by avail run cid fr dn w = left_by avail run cid fr dn w'.
Proof.
  intros E. rewrite !worker_data.
  now rewrite (synthetic_clock cid dn w w' E).
Qed.

Lemma synthetic_mock `{Runtime} cid dn (w : world rng_state) :
  exists mock,
    city_config (fst (create_synthetic_city_data cid dn w)) = Mock mock
    /\ mock_city_id mock = cid.
Proof.
  unfold create_synthetic_city_data.
  destruct (draw_locations _) as [[[lats lons] df] g]. simpl.
  eexists. split; reflexivity.
Qed.

(** X21.  The workers are not tied to the request that is current: when
    a city is requested, then another one, and the worker of the first
    request finishes last, the slot holds the dataset of the first city
    while the second city is recorded as loaded; a further request for
    the second city then answers "Ready" and starts nothing.  After a
    failed collection the dataset in the slot carries the id of the
    first city. *)
Theorem last_finished_worker_wins :
  forall (R : Runtime) (g : globals) run1 run2 first second sb1 sb2 sb3
         rc tc ct trig (w : world rng_state),
    DATA_LOADER_AVAILABLE g = true ->
    first <> "" -> second <> "" -> first <> second ->
    last_loaded_city (app w) <> Some first
    \/ current_city_data (app w) = None
    \/ forced trig rc = true ->
    option_map before_dot trig <> Some "test-btn" ->
    let f := forced trig rc in
    let w1 :=
      snd (trigger_city_loading g true sb1 (Some first) rc tc ct trig w) in
    let w2 :=
      snd (trigger_city_loading g true sb2 (Some second) rc tc ct trig w1) in
    let w3 :=
      snd (load_city_data_background_safe true run2 second f
             (display_name_of g second) w2) in
    let w4 :=
      snd (load_city_data_background_safe true run1 first f
             (display_name_of g first) w3) in
    threads w4
    = (threads w ++ [worker_for g first f; worker_for g second f])%list
    /\ last_loaded_city (app w4) = Some second
    /\ loading_in_progress (app w4) = false
    /\ current_city_data (app w4)
       = left_by true run1 first f (display_name_of g first) w
    /\ (failed true run1 = true ->
        exists d mock,
          current_city_data (app w4) = Some d
          /\ city_config d = Mock mock
          /\ mock_city_id mock = first)
    /\ trigger_city_loading g true sb3 (Some second) None tc ct
         (Some "city-selector.value") w4
       = ({| loading_trigger := or_empty ct;
             progress_shown := false;
             status_cards := ReadyCard (display_name_of g second) |}, w4).
Proof.
  intros R g run1 run2 first second sb1 sb2 sb3 rc tc ct trig w
    Hloader Hfirst Hsecond Hdiff Hneed Htest f w1 w2 w3 w4.
  assert (E1 : w1 = snd (trigger_city_loading g true sb1 (Some first) rc tc
                           ct trig w)) by reflexivity.
  rewrite trigger_starts in E1 by assumption. cbn [snd] in E1.
  assert (E2 : w2 = snd (trigger_city_loading g true sb2 (Some second) rc
                           tc ct trig w1)) by reflexivity.
  rewrite trigger_starts in E2; try assumption;
    [|left; rewrite E1; cbn; congruence].
  cbn [snd] in E2.
  destruct (worker_effect true run2 second f (display_name_of g second) w2)
    as (_ & A2 & A3 & A4 & _ & _).
  destruct (worker_effect true run1 first f (display_name_of g first) w3)
    as (B1 & B2 & B3 & B4 & _ & d & Bd).
  fold w3 in A2, A3, A4. fold w4 in B1, B2, B3, B4, Bd.
  assert (Hlast : last_loaded_city (app w4) = Some second)
    by (rewrite B2, A2, E2; reflexivity).
  assert (Hnow : now w3 = now w)
    by (rewrite A4, E2; cbn; rewrite E1; reflexivity).
  assert (Hdata : current_city_data (app w4)
                  = left_by true run1 first f (display_name_of g first) w)
    by (rewrite <- (left_by_clock _ _ _ _ _ w3 w Hnow); reflexivity).
  split; [|split; [|split; [|split; [|split]]]].
  - rewrite B3, A3, E2. cbn [threads]. rewrite E1. cbn [threads].
    now rewrite <- app_assoc.
  - exact Hlast.
  - exact B1.
  - exact Hdata.
  - intros Hfail. rewrite Hdata, worker_data, Hfail.
    destruct (synthetic_mock first (display_name_of g first) w)
      as (mock & M1 & M2).
    eauto.
  - apply trigger_ready with (d := d); auto. discriminate.
Qed.

Lemma last_finished_worker_example :
  let f := forced (Some "city-selector.value") None in
  let w1 :=
    snd (trigger_city_loading demo_globals true false (Some "chicago_il")
           None None None (Some "city-selector.value") counting_world) in
  let w2 :=
    snd (trigger_city_loading demo_globals true false (Some "boston_ma")
           None None None (Some "city-selector.value") w1) in
  let w3 :=
    snd (@load_city_data_background_safe counter_runtime true timed_out
           "boston_ma" f (display_name_of demo_globals "boston_ma") w2) in
  let w4 :=
    snd (@load_city_data_background_safe counter_runtime true timed_out
           "chicago_il" f (display_name_of demo_globals "chicago_il") w3) in
  threads w4
  = (threads counting_world
     ++ [worker_for demo_globals "chicago_il" f;
         worker_for demo_globals "boston_ma" f])%list
  /\ last_loaded_city (app w4) = Some "boston_ma"
  /\ loading_in_progress (app w4) = false
  /\ current_city_data (app w4)
     = @left_by counter_runtime true timed_out "chicago_il" f
         (display_name_of demo_globals "chicago_il") counting_world
  /\ (failed true timed_out = true ->
      exists d mock,
        current_city_data (app w4) = Some d
        /\ city_config d = Mock mock
        /\ mock_city_id mock = "chicago_il")
  /\ trigger_city_loading demo_globals true false (Some "boston_ma") None
       None None (Some "city-selector.value") w4
     = ({| loading_trigger := or_empty None;
           progress_shown := false;
           status_cards :=
             ReadyCard (display_name_of demo_globals "boston_ma") |}, w4).
Proof.
  apply (last_finished_worker_wins counter_runtime demo_globals timed_out
           timed_out "chicago_il" "boston_ma" false false false None None
           None (Some "city-selector.value") counting_world);
    [ reflexivity | discriminate | discriminate | discriminate
    | right; left; reflexivity | discriminate ].
Defined.

Lemma floats_length (l : list float) : List.length (floats l) = List.length l.
Proof. unfold floats. apply length_map. Qed.

Lemma ints_length (l : list Z) : List.length (ints l) = List.length l.
Proof. unfold ints. apply length_map. Qed.

(** X22.  The synthetic dataset has the ten columns of the source, in
    its order, an empty competitor list, no model and the time of the
    call; when the generator returns samples of the requested size,
    every column has 100 values, so the table is never empty. *)
Theorem synthetic_table_shape :
  forall (R : Runtime),
    sized R ->
    forall cid dn (w : world rng_state),
      let d := fst (create_synthetic_city_data cid dn w) in
      map fst (df_filtered d)
      = [ "latitude"; "longitude"; "predicted_revenue"; "median_income";
          "median_age"; "population"; "traffic_score"; "commercial_score";
          "distance_to_primary_competitor"; "competition_density" ]
      /\ Forall (fun column => List.length (snd column) = 100%nat)
           (df_filtered d)
      /\ df_len (df_filtered d) = 100%nat
      /\ data_competitors d = [("chick-fil-a", [])]
      /\ model d = PNone
      /\ generation_time d = now w.
Proof.
  intros R (Hnormal & Huniform & Hrandint) cid dn w d. subst d.
  unfold create_synthetic_city_data, draw_locations.
  repeat match goal with
         | |- context [let '(_, _) := np_normal ?a ?b ?n ?g in _] =>
             let E := fresh "E" in
             pose proof (Hnormal a b n g) as E;
             destruct (np_normal a b n g)
         | |- context [let '(_, _) := np_uniform ?a ?b ?n ?g in _] =>
             let E := fresh "E" in
             pose proof (Huniform a b n g) as E;
             destruct (np_uniform a b n g)
         | |- context [let '(_, _) := np_randint ?a ?b ?n ?g in _] =>
             let E := fresh "E" in
             pose proof (Hrandint a b n g) as E;
             destruct (np_randint a b n g)
         end.
  cbn [fst snd] in *. unfold n_locations in *.
  cbn [df_filtered data_competitors model generation_time map fst snd df_len].
  repeat split; try (rewrite floats_length; assumption).
  repeat constructor; cbn [snd];
    rewrite ?floats_length, ?ints_length; assumption.
Qed.

Lemma synthetic_table_shape_example :
  let d :=
    fst (@create_synthetic_city_data counter_runtime "chicago_il" PNone
           counting_world) in
  map fst (df_filtered d)
  = [ "latitude"; "longitude"; "predicted_revenue"; "median_income";
      "median_age"; "population"; "traffic_score"; "commercial_score";
      "distance_to_primary_competitor"; "competition_density" ]
  /\ Forall (fun column => List.length (snd column) = 100%nat)
       (df_filtered d)
  /\ df_len (df_filtered d) = 100%nat
  /\ data_competitors d = [("chick-fil-a", [])]
  /\ model d = PNone
  /\ generation_time d = now counting_world.
Proof.
  apply (synthetic_table_shape counter_runtime).
  repeat split; intros; cbn [counter_runtime np_normal np_uniform np_randint
                               fst].
  - unfold bits_sample. now rewrite length_map, length_seq.
  - unfold bits_sample. now rewrite length_map, length_seq.
  - apply repeat_length.
Defined.

End PollingProps.

(** ** The safe-mode dashboard *)

Module SafeProps.
Import CityConfig Dashboard Polling SafeDashboard.

Lemma safe_callbacks_keep {G} (rs : list progress_object) (w : world G) :
  let w' := fold_left progress_callback rs w in
  threads w' = threads w /\ now w' = now w.
Proof.
  revert w. induction rs as [|p rs IH]; intros w; simpl; [auto|].
  destruct (IH (progress_callback w p)) as (E1 & E2).
  rewrite E1, E2. auto.
Qed.

Lemma fallback_world `{Runtime} `{Frames} cid dn (w : world rng_state) :
  let w' := snd (create_minimal_fallback cid dn w) in
  threads w' = threads w /\ now w' = now w.
Proof.
  unfold create_minimal_fallback.
  repeat match goal with
         | |- context [let '(_, _) := ?d in _] => destruct d
         end.
  split; reflexivity.
Qed.

Lemma fallback_clock `{Runtime} `{Frames} cid dn (w w' : world rng_state) :
  now w = now w' ->
  fst (create_minimal_fallback cid dn w)
  = fst (create_minimal_fallback cid dn w').
Proof.
  intros E. unfold create_minimal_fallback.
  repeat match goal with
         | |- context [let '(_, _) := ?d in _] => destruct d
         end.
  cbn [fst]. now rewrite E.
Qed.

Lemma fallback_contents `{Runtime} `{Frames} cid dn (w : world rng_state) :
  let d := fst (create_minimal_fallback cid dn w) in
  safe_city_id (fallback_config d) = cid
  /\ safe_display_name (fallback_config d) = dn
  /\ fallback_metrics d = [("fallback", PBool true)]
  /\ fallback_competitors d = []
  /\ fallback_time d = now w
  /\ map fst (fallback_df d)
     = [ "latitude"; "longitude"; "predicted_revenue"; "median_income";
         "traffic_score" ].
Proof.
  unfold create_minimal_fallback.
  repeat match goal with
         | |- context [let '(_, _) := ?d in _] => destruct d
         end.
  repeat split.
Qed.

(** X23.  The worker of the safe-mode dashboard always ends with the
    loading flag cleared, the progress slot empty and a dataset in the
    slot: the collected dictionary when the collection returned one with
    a table (an empty table included), in every other case the fallback
    of the city, which carries the city id and the display name as they
    were passed, the metrics [fallback = True] and five columns.  The
    next poll then switches the polling off and the main content is
    shown. *)
Theorem safe_worker_always_finishes :
  forall (R : Runtime) (P : Frames) (F : Formatting) avail run cid dn n
         (w : world rng_state),
    let w' := load_city_data_background_safe avail run cid dn w in
    let fallback := fst (create_minimal_fallback cid dn w) in
    loading_in_progress (app w') = false
    /\ loading_progress (app w') = None
    /\ threads w' = threads w
    /\ current_city_data (app w')
       = Some match avail, result_of run with
              | true, Returns (Data d) => Collected d
              | _, _ => Fallback fallback
              end
    /\ safe_city_id (fallback_config fallback) = cid
    /\ safe_display_name (fallback_config fallback) = dn
    /\ fallback_metrics fallback = [("fallback", PBool true)]
    /\ map fst (fallback_df fallback)
       = [ "latitude"; "longitude"; "predicted_revenue"; "median_income";
           "traffic_score" ]
    /\ update_progress n (app w') = Done (PInt 0, ""%string, true)
    /\ show_content_when_loaded n (app w') = true.
Proof.
  intros R P F avail run cid dn n w w' fallback.
  destruct (fallback_contents cid dn w) as (C1 & C2 & C3 & _ & _ & C6).
  fold fallback in C1, C2, C3, C6.
  assert (Hw : loading_in_progress (app w') = false
               /\ loading_progress (app w') = None
               /\ threads w' = threads w
               /\ current_city_data (app w')
                  = Some match avail, result_of run with
                         | true, Returns (Data d) => Collected d
                         | _, _ => Fallback fallback
                         end).
  { subst w' fallback. unfold load_city_data_background_safe.
    set (w0 := set_app w _).
    assert (N0 : now w0 = now w) by reflexivity.
    assert (T0 : threads w0 = threads w) by reflexivity.
    destruct avail.
    - destruct (safe_callbacks_keep (reports run) w0) as (T1 & N1).
      set (w1 := fold_left progress_callback (reports run) w0) in *.
      destruct (fallback_world cid dn w1) as (T2 & N2).
      pose proof (fallback_clock cid dn w1 w (eq_trans N1 N0)) as D.
      destruct (result_of run) as [e|[ | |d]].
      4: cbn; repeat split; congruence.
      all: destruct (create_minimal_fallback cid dn w1) as [d' w2];
        cbn in T2, D |- *; subst d'; repeat split; congruence.
    - destruct (fallback_world cid dn w0) as (T2 & N2).
      pose proof (fallback_clock cid dn w0 w N0) as D.
      destruct (create_minimal_fallback cid dn w0) as [d' w2].
      cbn in T2, D |- *. subst d'.
      destruct (result_of run) as [e|[ | |d]]; repeat split; congruence. }
  destruct Hw as (W1 & W2 & W3 & W4).
  repeat split; try assumption.
  - unfold update_progress. now rewrite W1.
  - unfold show_content_when_loaded. now rewrite W4, W1.
Qed.

(** X24.  The poll of the safe-mode dashboard is not protected: while
    the loading flag is set, it raises when no progress was reported yet
    (the progress slot holds [None], and the default of [get] does not
    apply to a key that is present) and when the reported [eta] is not a
    number; with an [eta] in the range of a float it returns the reported
    [percent] unchanged and keeps the polling on. *)
Theorem safe_poll_is_unprotected :
  forall (F : Formatting) n (a : app_state),
    loading_in_progress a = true ->
    (loading_progress a = None ->
     update_progress n a = Failed "'NoneType' object has no attribute 'get'")
    /\ (forall p,
           loading_progress a = Some p -> is_number (eta p) = false ->
           update_progress n a
           = Failed ("'>' not supported between instances of '"
                     ++ type_name (eta p) ++ "' and 'int'"))
    /\ (forall p,
           loading_progress a = Some p -> in_float_range (eta p) = true ->
           exists text,
             update_progress n a = Done (percent p, text, false)).
Proof.
  intros F n a Hload. unfold update_progress. rewrite Hload. cbn [negb].
  split; [|split].
  - now intros ->.
  - intros p -> Hnum. destruct (eta p); try discriminate Hnum; reflexivity.
  - intros p -> Hrange.
    destruct (PollingProps.greater_than_zero_number _
                (PollingProps.in_range_number _ Hrange)) as [b ->].
    rewrite (PollingProps.fixed_in_range 0 _ Hrange).
    destruct b; cbn [and_then]; eauto.
Qed.

Lemma safe_poll_example :
  (loading_progress just_started = None ->
   @update_progress plain_formatting (Some 1) just_started
   = Failed "'NoneType' object has no attribute 'get'")
  /\ (forall p,
         loading_progress just_started = Some p ->
         is_number (eta p) = false ->
         @update_progress plain_formatting (Some 1) just_started
         = Failed ("'>' not supported between instances of '"
                   ++ type_name (eta p) ++ "' and 'int'"))
  /\ (forall p,
         loading_progress just_started = Some p ->
         in_float_range (eta p) = true ->
         exists text,
           @update_progress plain_formatting (Some 1) just_started
           = Done (percent p, text, false)).
Proof.
  apply (safe_poll_is_unprotected plain_formatting (Some 1) just_started).
  reflexivity.
Defined.

(** X25.  [handle_city_loading] of the safe-mode dashboard never touches
    [app_state] and never shows the main content.  It starts a worker,
    exactly one, whenever the button was clicked, a city is selected,
    the loader is available and the thread starts, whatever the state:
    also while a load is in progress and when the city is already
    loaded.  Otherwise it changes nothing and keeps the progress bar
    hidden. *)
Theorem safe_request_always_starts_a_worker :
  forall G (g : globals) ts n_clicks city (w : world G),
    let r := handle_city_loading g ts n_clicks city w in
    let clicked :=
      match n_clicks with Some n => negb (n =? 0) | None => false end in
    app (snd r) = app w
    /\ rng (snd r) = rng w
    /\ now (snd r) = now w
    /\ main_content_shown (fst r) = false
    /\ (forall cid,
           city = Some cid -> cid <> "" -> clicked = true ->
           DATA_LOADER_AVAILABLE g = true -> ts = true ->
           progress_shown (fst r) = true
           /\ exists dn,
                status_cards (fst r) = LoadingCard dn
                /\ threads (snd r)
                   = (threads w
                      ++ [ {| worker_city_id := cid;
                              worker_display_name := dn |} ])%list)
    /\ (city = None \/ city = Some ""%string \/ clicked = false
        \/ DATA_LOADER_AVAILABLE g = false \/ ts = false ->
        snd r = w /\ progress_shown (fst r) = false).
Proof.
  intros G g ts n_clicks city w r clicked. subst r clicked.
  unfold handle_city_loading. cbv zeta.
  generalize (match n_clicks with
              | Some n => negb (n =? 0)
              | None => false
              end).
  intros clicked.
  destruct city as [cid|];
    [destruct (String.eqb_spec cid "") as [->|Hcid];
     [|destruct clicked; cbn [negb];
       [destruct (DATA_LOADER_AVAILABLE g); cbn [negb];
        [destruct ts|]|]]|].
  all: cbn [fst snd app rng now main_content_shown progress_shown
              status_cards threads].
  all: repeat split; intros; try reflexivity; try discriminate;
    try congruence.
  - match goal with E : Some _ = Some _ |- _ => injection E as <- end.
    eauto.
  - match goal with
    | E : _ \/ _ |- _ => destruct E as [E|[E|[E|[E|E]]]]
    end; congruence.
  - match goal with
    | E : _ \/ _ |- _ => destruct E as [E|[E|[E|[E|E]]]]
    end; congruence.
Qed.

End SafeProps.

(** ** The seed of the synthetic tables *)

Module SeedProps.
Import CityConfig Dashboard DashboardWording.







End SeedProps.
